(** * pywarden: a shallow embedding of the Bitwarden CLI wrapper

    The development follows the Python sources:
    - [pywarden/common/Utils.py]      (the process invoker),
    - [pywarden/bitwarden/Types.py]   (organizations, collections, items),
    - [pywarden/bitwarden/Bitwarden.py] (the session client),
    - [pywarden/app/bitwarden.py]     (the authenticators).

    Python code is effectful: it spawns the [bw] executable, edits
    [os.environ], sleeps, prints and raises.  Every method is therefore a
    computation in a state-and-exception monad over a [State] made of the
    operating-system side ([World]) and the attributes of the one
    [Bitwarden] object in play. *)

From Stdlib Require Import ZArith QArith String Ascii List Lia DecimalString.
From stdpp Require Import gmap strings list fin_maps.

Set Warnings "-register-all".

Local Open Scope string_scope.
Local Open Scope Z_scope.

(* ===================================================================== *)
(** * Python values and the built-ins the sources use                     *)
(* ===================================================================== *)

Module Py.

(** What [json.loads] produces.  JSON numbers are taken to be integers.  A
    character of a [string] is a code point below 256.  A dict is the list
    of its items in insertion order, which is the order in which Python
    iterates over it and prints it; the keys of a dict are distinct. *)
Inductive json :=
| JNull
| JBool (b : bool)
| JInt (z : Z)
| JStr (s : string)
| JArr (l : list json)
| JObj (items : list (string * json)).

(** The exceptions that the modelled code raises itself or that the
    built-ins it calls raise. *)
Inductive exn :=
| InvalidStateException
| InvalidArgumentsException
| FileNotFoundException
| NoEncryptionPasswordException
| VaultNotUnlockedException
| AuthenticationFailedException (email : json) (url : json)
| KeyError (key : string)
| TypeError
| ValueError
| UnicodeDecodeError
| JSONDecodeError
| AttributeError
| OSError.

(** The outcome of evaluating a Python expression or statement. *)
Inductive result (A : Type) :=
| Ok (a : A)
| Raise (e : exn).
Arguments Ok {A} a.
Arguments Raise {A} e.

(** A [bytes] object is only ever observed through [.decode('utf-8')] and
    [json.loads]; it is represented by what these two give ([None] when
    they raise). *)
Record bytes := mkBytes {
  decode : option string;
  loads : option json
}.

Definition newline : ascii := "010"%char.

(** [s.split('\n')] *)
Fixpoint split_lines (s : string) : list string :=
  match s with
  | EmptyString => [EmptyString]
  | String c s' =>
      if Ascii.eqb c newline then EmptyString :: split_lines s'
      else match split_lines s' with
           | l :: ls => String c l :: ls
           | [] => [String c EmptyString]
           end
  end.

(** [needle in hay] on strings *)
Fixpoint contains (needle hay : string) : bool :=
  String.prefix needle hay ||
  match hay with
  | EmptyString => false
  | String _ hay' => contains needle hay'
  end.

(** [s.index(c)] for a one-character [c]; [None] stands for ValueError. *)
Fixpoint index (c : ascii) (s : string) : option nat :=
  match s with
  | EmptyString => None
  | String d s' => if Ascii.eqb d c then Some O else option_map S (index c s')
  end.

Definition len (s : string) : Z := Z.of_nat (String.length s).

(** [s[i:j]] with Python's treatment of negative and out-of-range bounds. *)
Definition slice (s : string) (i j : Z) : string :=
  let clamp k := if k <? 0 then Z.max (k + len s) 0 else Z.min k (len s) in
  let a := clamp i in
  let b := clamp j in
  substring (Z.to_nat a) (Z.to_nat (b - a)) s.

(** [s[i:]] *)
Definition slice_from (s : string) (i : Z) : string := slice s i (len s).

(** [m[key]] for a dict that is only ever looked up, as a finite map *)
Definition lookup_key (m : gmap string json) (key : string) : result json :=
  match m !! key with
  | Some v => Ok v
  | None => Raise (KeyError key)
  end.

(** [d[key]] for a string key: only a dict can be subscripted by a string. *)
Definition getitem (d : json) (key : string) : result json :=
  match d with
  | JObj items => lookup_key (list_to_map items) key
  | _ => Raise TypeError
  end.

(** [key in d] for a dict [d] *)
Definition has_key (key : string) (m : gmap string json) : bool :=
  bool_decide (is_Some (m !! key)).

(** [a == b] on values obtained from JSON.  A bool is an int in Python, so
    [True == 1] and [False == 0]. *)
Fixpoint eq (a b : json) {struct a} : bool :=
  match a, b with
  | JNull, JNull => true
  | JBool x, JBool y => Bool.eqb x y
  | JBool x, JInt y => Z.b2z x =? y
  | JInt x, JBool y => x =? Z.b2z y
  | JInt x, JInt y => x =? y
  | JStr x, JStr y => String.eqb x y
  | JArr l1, JArr l2 =>
      (fix go (l1 l2 : list json) : bool :=
         match l1, l2 with
         | [], [] => true
         | x :: l1', y :: l2' => eq x y && go l1' l2'
         | _, _ => false
         end) l1 l2
  | JObj d1, JObj d2 =>
      bool_decide (list_to_set (map fst d1) =@{gset string} list_to_set (map fst d2)) &&
      (fix go (d : list (string * json)) : bool :=
         match d with
         | [] => true
         | (k, v) :: d' =>
             match (list_to_map d2 : gmap string json) !! k with
             | Some v' => eq v v'
             | None => false
             end && go d'
         end) d1
  | _, _ => false
  end.

(** [a != b] *)
Definition ne (a b : json) : bool := negb (eq a b).

(** [for x in v]: the elements that iterating over [v] yields. *)
Definition iter (v : json) : result (list json) :=
  match v with
  | JArr l => Ok l
  | JObj items => Ok (map (fun kv => JStr (fst kv)) items)
  | JStr s => Ok (map (fun c => JStr (String c EmptyString)) (list_ascii_of_string s))
  | _ => Raise TypeError
  end.

(** [str(z)] for an int *)
Definition str_of_int (z : Z) : string := NilZero.string_of_int (Z.to_int z).

(** [sep.join(parts)] *)
Fixpoint join (sep : string) (parts : list string) : string :=
  match parts with
  | [] => EmptyString
  | [p] => p
  | p :: ps => p ++ sep ++ join sep ps
  end.

Definition apostrophe : ascii := "039"%char.
Definition double_quote : ascii := "034"%char.
Definition backslash : ascii := "092"%char.

(** One of [0123456789abcdef] *)
Definition hex_digit (n : N) : ascii :=
  ascii_of_N (if (n <? 10)%N then 48 + n else 87 + n).

(** [c.isprintable()] for a code point below 256: the controls, the
    no-break space and the soft hyphen are not, and the space is. *)
Definition isprintable (c : ascii) : bool :=
  let n := N_of_ascii c in
  negb ((n <? 32) || ((127 <=? n) && (n <=? 160)) || (n =? 173))%N.

(** How [repr] writes one character of a string quoted with [quote]. *)
Definition repr_char (quote c : ascii) : string :=
  let n := N_of_ascii c in
  if Ascii.eqb c quote || Ascii.eqb c backslash
  then String backslash (String c EmptyString)
  else if Ascii.eqb c "009"%char then String backslash "t"
  else if Ascii.eqb c "010"%char then String backslash "n"
  else if Ascii.eqb c "013"%char then String backslash "r"
  else if isprintable c then String c EmptyString
  else String backslash
         (String "x" (String (hex_digit (n / 16)) (String (hex_digit (n mod 16)) EmptyString))).

Fixpoint has_char (c : ascii) (s : string) : bool :=
  match s with
  | EmptyString => false
  | String d s' => Ascii.eqb d c || has_char c s'
  end.

(** [repr(s)] for a string: between apostrophes, or between double quotes
    when [s] has an apostrophe and no double quote; the quote, the
    backslash and the characters that are not printable are escaped. *)
Definition repr_str (s : string) : string :=
  let quote := if has_char apostrophe s && negb (has_char double_quote s)
               then double_quote else apostrophe in
  String quote
    (String.concat EmptyString (map (repr_char quote) (list_ascii_of_string s))
     ++ String quote EmptyString).

(** [repr(v)] *)
Fixpoint repr (v : json) : string :=
  match v with
  | JNull => "None"
  | JBool true => "True"
  | JBool false => "False"
  | JInt z => str_of_int z
  | JStr s => repr_str s
  | JArr l => "[" ++ join ", " (map repr l) ++ "]"
  | JObj items =>
      "{" ++ join ", "
               ((fix go (d : list (string * json)) : list string :=
                   match d with
                   | [] => []
                   | (k, v) :: d' => (repr_str k ++ ": " ++ repr v) :: go d'
                   end) items)
          ++ "}"
  end.

(** [str(v)], which is what the ["%s"] conversion applies. *)
Definition str (v : json) : string :=
  match v with
  | JStr s => s
  | _ => repr v
  end.

(** [os.path.join(a, b)] (POSIX) *)
Definition path_join (a b : string) : string :=
  if String.prefix "/" b then b
  else if String.eqb a EmptyString || contains "/" (slice a (-1) (len a)) then a ++ b
  else a ++ "/" ++ b.

End Py.

Import Py.

(* ===================================================================== *)
(** * The operating system as the program sees it                          *)
(* ===================================================================== *)

Module OS.

(** What the [bw] executable answers to one invocation.  [SpawnError]
    stands for [subprocess.Popen] raising (executable not found, ...). *)
Inductive outcome :=
| Exited (returncode : Z) (stdout stderr : bytes)
| SpawnError (e : exn).

Record datetime := mkDatetime {
  year : Z; month : Z; day : Z; hour : Z; minute : Z
}.

Inductive fsnode := File | Dir.

(** Observable effects, in the order in which they happen.  A spawned
    process is logged with the environment it inherits. *)
Inductive event :=
| Spawn (cmd : list string) (env : gmap string string)
| Sleep (seconds : Q)
| Print (text : string).

Record World := mkWorld {
  environ : gmap string string;          (* os.environ *)
  fs : gmap string fsnode;               (* the paths that exist *)
  makedirs_fails : string -> bool;       (* paths os.makedirs cannot create *)
  now : nat -> datetime;                 (* the clock, by number of past events *)
  popen : nat -> list string -> outcome; (* answer to the n-th spawn *)
  spawned : nat;                         (* number of processes spawned so far *)
  trace : list event
}.

Definition log (e : event) (w : World) : World :=
  mkWorld (environ w) (fs w) (makedirs_fails w) (now w) (popen w) (spawned w)
          (trace w ++ [e]).

Definition set_environ (env : gmap string string) (w : World) : World :=
  mkWorld env (fs w) (makedirs_fails w) (now w) (popen w) (spawned w) (trace w).

Definition set_fs (f : gmap string fsnode) (w : World) : World :=
  mkWorld (environ w) f (makedirs_fails w) (now w) (popen w) (spawned w) (trace w).

Definition count_spawn (w : World) : World :=
  mkWorld (environ w) (fs w) (makedirs_fails w) (now w) (popen w) (S (spawned w))
          (trace w).

End OS.

Import OS.

(** The attributes of a [Bitwarden] instance. *)
Record Bitwarden := mkBitwarden {
  _serverUrl : option string;
  _bw_session_id : option string;
  _bw_app_location : string
}.

Record State := mkState {
  os : World;
  self : Bitwarden
}.

(* ===================================================================== *)
(** * The monad of Python statements                                       *)
(* ===================================================================== *)

Definition M (A : Type) : Type := State -> result A * State.

Definition ret {A} (a : A) : M A := fun st => (Ok a, st).

Definition raise {A} (e : exn) : M A := fun st => (Raise e, st).

Definition bind {A B} (m : M A) (k : A -> M B) : M B :=
  fun st =>
    match m st with
    | (Ok a, st') => k a st'
    | (Raise e, st') => (Raise e, st')
    end.

Notation "x <- m ;; k" := (bind m (fun x => k))
  (at level 100, m at next level, right associativity).
Notation "m ;;; k" := (bind m (fun _ => k))
  (at level 100, right associativity).

(** A pure expression that may raise. *)
Definition lift {A} (r : result A) : M A := fun st => (r, st).

Definition get_os : M World := fun st => (Ok (os st), st).
Definition modify_os (f : World -> World) : M unit :=
  fun st => (Ok tt, mkState (f (os st)) (self st)).
Definition get_self : M Bitwarden := fun st => (Ok (self st), st).
Definition put_self (b : Bitwarden) : M unit :=
  fun st => (Ok tt, mkState (os st) b).

(** [for x in xs: body x] *)
Fixpoint for_each {A} (xs : list A) (body : A -> M unit) : M unit :=
  match xs with
  | [] => ret tt
  | x :: xs' => body x ;;; for_each xs' body
  end.

(** A value that must be a [str] where the interpreter insists on one. *)
Definition as_str (v : json) : result string :=
  match v with
  | JStr s => Ok s
  | _ => Raise TypeError
  end.

Fixpoint as_strs (vs : list json) : result (list string) :=
  match vs with
  | [] => Ok []
  | v :: vs' =>
      match as_str v, as_strs vs' with
      | Ok s, Ok ss => Ok (s :: ss)
      | Raise e, _ => Raise e
      | _, Raise e => Raise e
      end
  end.

Definition has_nul (s : string) : bool := contains (String "000"%char EmptyString) s.

(** [os.environ[key] = value] *)
Definition environ_set (key : string) (value : json) : M unit :=
  v <- lift (as_str value) ;;
  if has_nul v then raise ValueError
  else modify_os (fun w => set_environ (<[key := v]> (environ w)) w).

(** [del os.environ[key]] *)
Definition environ_del (key : string) : M unit :=
  w <- get_os ;;
  match environ w !! key with
  | Some _ => modify_os (fun w => set_environ (delete key (environ w)) w)
  | None => raise (KeyError key)
  end.

(** [sleep(seconds)] *)
Definition sleep (seconds : Q) : M unit := modify_os (log (Sleep seconds)).

(** [print(text)] *)
Definition print (text : string) : M unit := modify_os (log (Print text)).

(* ===================================================================== *)
(** * common/Utils.py                                                      *)
(* ===================================================================== *)

(** [performCommandLineOperation]: [Popen] wants every argument to be a
    string; the process then runs to completion. *)
Definition performCommandLineOperation (command : list json) : M (Z * bytes * bytes) :=
  cmd <- lift (as_strs command) ;;
  w <- get_os ;;
  match popen w (spawned w) cmd with
  | SpawnError e => raise e
  | Exited code stdout stderr =>
      modify_os (fun w => count_spawn (log (Spawn cmd (environ w)) w)) ;;;
      ret (code, stdout, stderr)
  end.

(* ===================================================================== *)
(** * bitwarden/Types.py                                                   *)
(* ===================================================================== *)

Module Types.

Inductive ItemTypes := LOGIN | NOTE | CARD | IDENTITY.

Definition ItemTypes_value (t : ItemTypes) : Z :=
  match t with LOGIN => 1 | NOTE => 2 | CARD => 3 | IDENTITY => 4 end.

Inductive OrganizationStatus := INVITED | ACCEPTED | CONFIRMED | REVOKED.

Definition OrganizationStatus_value (s : OrganizationStatus) : Z :=
  match s with INVITED => 0 | ACCEPTED => 1 | CONFIRMED => 2 | REVOKED => -1 end.

Inductive OrganizationUserTypes := OWNER | ADMIN | USER | MANAGER | CUSTOM.

Definition OrganizationUserTypes_value (t : OrganizationUserTypes) : Z :=
  match t with OWNER => 0 | ADMIN => 1 | USER => 2 | MANAGER => 3 | CUSTOM => 4 end.

(** A small error monad for the constructors, which only read a dict. *)
Definition rbind {A B} (r : result A) (k : A -> result B) : result B :=
  match r with
  | Ok a => k a
  | Raise e => Raise e
  end.

Notation "x <~ r ;; k" := (rbind r (fun x => k))
  (at level 100, r at next level, right associativity).

Module BitwardenCollection.
Record t := mk { _id : json; _oid : json; _name : json; _eid : json }.

Definition __init__ (conf : json) : result t :=
  i <~ getitem conf "id" ;;
  o <~ getitem conf "organizationId" ;;
  n <~ getitem conf "name" ;;
  e <~ getitem conf "externalId" ;;
  Ok (mk i o n e).

Definition id := _id.
Definition orgId := _oid.
Definition name := _name.
Definition extId := _eid.
End BitwardenCollection.

Module BitwardenOrganization.
Record t := mk {
  _id : json; _name : json; _status : json; _type : json; _enabled : json
}.

Definition __init__ (conf : json) : result t :=
  i <~ getitem conf "id" ;;
  n <~ getitem conf "name" ;;
  s <~ getitem conf "status" ;;
  ty <~ getitem conf "type" ;;
  e <~ getitem conf "enabled" ;;
  Ok (mk i n s ty e).

Definition id := _id.
Definition name := _name.
Definition status := _status.
Definition type := _type.
Definition enabled := _enabled.
End BitwardenOrganization.

(** The attributes of the parent class [BitwardenItem]. *)
Module BitwardenItem.
Record t := mk { _id : json; _fid : json; _name : json; _note : json }.

Definition __init__ (conf : json) : result t :=
  i <~ getitem conf "id" ;;
  f <~ getitem conf "folderId" ;;
  n <~ getitem conf "name" ;;
  no <~ getitem conf "notes" ;;
  Ok (mk i f n no).

Definition id := _id.
Definition folderId := _fid.
Definition name := _name.
Definition notes := _note.
End BitwardenItem.

Module BitwardenCard.
Record t := mk {
  base : BitwardenItem.t;
  _card_holder_name : json; _brand : json; _number : json;
  _exp_month : json; _exp_year : json; _code : json
}.

Definition __init__ (conf : json) : result t :=
  b <~ BitwardenItem.__init__ conf ;;
  c <~ getitem conf "card" ;; h <~ getitem c "cardholderName" ;;
  c <~ getitem conf "card" ;; br <~ getitem c "brand" ;;
  c <~ getitem conf "card" ;; n <~ getitem c "number" ;;
  c <~ getitem conf "card" ;; m <~ getitem c "expMonth" ;;
  c <~ getitem conf "card" ;; y <~ getitem c "expYear" ;;
  c <~ getitem conf "card" ;; co <~ getitem c "code" ;;
  Ok (mk b h br n m y co).

Definition holder_name := _card_holder_name.
Definition brand := _brand.
Definition number := _number.
Definition month := _exp_month.
Definition year := _exp_year.
Definition code := _code.
End BitwardenCard.

Module BitwardenLogin.
Record t := mk {
  base : BitwardenItem.t;
  _username : json; _password : json; _totp : json
}.

Definition __init__ (conf : json) : result t :=
  b <~ BitwardenItem.__init__ conf ;;
  l <~ getitem conf "login" ;; u <~ getitem l "username" ;;
  l <~ getitem conf "login" ;; p <~ getitem l "password" ;;
  l <~ getitem conf "login" ;; tp <~ getitem l "totp" ;;
  Ok (mk b u p tp).

Definition username := _username.
Definition password := _password.
Definition totp := _totp.
End BitwardenLogin.

(** An instance of one of the item classes; [Note] adds nothing to the
    parent class. *)
Inductive item :=
| Item (i : BitwardenItem.t)
| Card (c : BitwardenCard.t)
| Note (n : BitwardenItem.t)
| Login (l : BitwardenLogin.t).

(** The parent-class part of any item. *)
Definition item_base (x : item) : BitwardenItem.t :=
  match x with
  | Item i => i
  | Card c => BitwardenCard.base c
  | Note n => n
  | Login l => BitwardenLogin.base l
  end.

(** [BitwardenItem.__eq__(self, other)]; [other] is an item or [None]. *)
Definition BitwardenItem__eq__ (self : item) (other : option item) : result bool :=
  match other with
  | None => Ok false
  | Some o =>
      if ne (BitwardenItem.name (item_base self)) (BitwardenItem.name (item_base o))
      then Ok false
      else if ne (BitwardenItem.notes (item_base self)) (BitwardenItem.notes (item_base o))
      then Ok false
      else Ok true
  end.

(** Attribute access [other.attr] for an attribute that only class [Card]
    (resp. [Login]) defines. *)
Definition card_attr (attr : BitwardenCard.t -> json) (other : option item) : result json :=
  match other with
  | Some (Card c) => Ok (attr c)
  | _ => Raise AttributeError
  end.

Definition login_attr (attr : BitwardenLogin.t -> json) (other : option item) : result json :=
  match other with
  | Some (Login l) => Ok (attr l)
  | _ => Raise AttributeError
  end.

(** [BitwardenCard.__eq__] *)
Definition BitwardenCard__eq__ (self : BitwardenCard.t) (other : option item) : result bool :=
  base_match <~ BitwardenItem__eq__ (Card self) other ;;
  if negb base_match then Ok false else
  o <~ card_attr BitwardenCard.holder_name other ;;
  if ne (BitwardenCard.holder_name self) o then Ok false else
  o <~ card_attr BitwardenCard.brand other ;;
  if ne (BitwardenCard.brand self) o then Ok false else
  o <~ card_attr BitwardenCard.number other ;;
  if ne (BitwardenCard.number self) o then Ok false else
  o <~ card_attr BitwardenCard.month other ;;
  if ne (BitwardenCard.month self) o then Ok false else
  o <~ card_attr BitwardenCard.year other ;;
  if ne (BitwardenCard.year self) o then Ok false else
  o <~ card_attr BitwardenCard.code other ;;
  if ne (BitwardenCard.code self) o then Ok false else
  Ok true.

(** [BitwardenLogin.__eq__] *)
Definition BitwardenLogin__eq__ (self : BitwardenLogin.t) (other : option item) : result bool :=
  base_match <~ BitwardenItem__eq__ (Login self) other ;;
  if negb base_match then Ok false else
  o <~ login_attr BitwardenLogin.username other ;;
  if ne (BitwardenLogin.username self) o then Ok false else
  o <~ login_attr BitwardenLogin.password other ;;
  if ne (BitwardenLogin.password self) o then Ok false else
  o <~ login_attr BitwardenLogin.totp other ;;
  if ne (BitwardenLogin.totp self) o then Ok false else
  Ok true.

(** [self.__eq__(other)] by the class of [self]: [BitwardenNote] inherits
    the parent's method. *)
Definition __eq__ (self : item) (other : option item) : result bool :=
  match self with
  | Item _ | Note _ => BitwardenItem__eq__ self other
  | Card c => BitwardenCard__eq__ c other
  | Login l => BitwardenLogin__eq__ l other
  end.

(** [get_bitwarden_item]: falls off the end (returns [None]) for a type
    that is none of card, login and note. *)
Definition get_bitwarden_item (conf : json) : result (option item) :=
  type <~ getitem conf "type" ;;
  if eq type (JInt (ItemTypes_value CARD)) then
    c <~ BitwardenCard.__init__ conf ;; Ok (Some (Card c))
  else if eq type (JInt (ItemTypes_value LOGIN)) then
    l <~ BitwardenLogin.__init__ conf ;; Ok (Some (Login l))
  else if eq type (JInt (ItemTypes_value NOTE)) then
    n <~ BitwardenItem.__init__ conf ;; Ok (Some (Note n))
  else Ok None.

End Types.

Import Types.

(** [json.loads(b)] *)
Definition json_loads (b : bytes) : M json :=
  match loads b with
  | Some v => ret v
  | None => raise JSONDecodeError
  end.

(** [b.decode('utf-8')] *)
Definition decode_utf8 (b : bytes) : M string :=
  match decode b with
  | Some s => ret s
  | None => raise UnicodeDecodeError
  end.

(** [os.path.exists], [os.path.isdir], [os.makedirs] *)
Definition path_exists (p : string) : M bool :=
  w <- get_os ;; ret (match fs w !! p with Some _ => true | None => false end).

Definition path_isdir (p : string) : M bool :=
  w <- get_os ;; ret (match fs w !! p with Some Dir => true | _ => false end).

Definition makedirs (p : string) : M unit :=
  w <- get_os ;;
  if bool_decide (is_Some (fs w !! p)) || makedirs_fails w p then raise OSError
  else modify_os (fun w => set_fs (<[p := Dir]> (fs w)) w).

(** [datetime.now()] and [strftime("%Y%m%d-%H%M")] (years of four digits) *)
Definition datetime_now : M datetime :=
  w <- get_os ;; ret (now w (length (trace w))).

Definition pad2 (z : Z) : string :=
  if z <? 10 then "0" ++ str_of_int z else str_of_int z.

Definition strftime_Ymd_HM (d : datetime) : string :=
  str_of_int (year d) ++ pad2 (month d) ++ pad2 (day d) ++ "-"
    ++ pad2 (hour d) ++ pad2 (minute d).

(** [0.5 * n] seconds; the product is exact in binary floating point for
    every [n] below 2^53, and is kept as a reduced fraction. *)
Definition half_seconds (n : Z) : Q := Qred ((1 # 2) * inject_Z n).

(* ===================================================================== *)
(** * bitwarden/Bitwarden.py                                               *)
(* ===================================================================== *)

Module Bitwarden.

Definition set_session (sid : option string) : M unit :=
  b <- get_self ;;
  put_self (mkBitwarden (_serverUrl b) sid (_bw_app_location b)).

(** The [status] property *)
Definition status : M json :=
  b <- get_self ;;
  let cmd := [JStr (_bw_app_location b); JStr "status"] in
  let cmd := match _bw_session_id b with
             | Some sid => (cmd ++ [JStr "--session"; JStr sid])%list
             | None => cmd
             end in
  r <- performCommandLineOperation cmd ;;
  let '(code, stdout, stderr) := r in
  if code =? 0 then json_loads stdout else ret JNull.

(** The getter of the [serverUrl] property *)
Definition serverUrl : M (option string) :=
  b <- get_self ;; ret (_serverUrl b).

(** The setter of the [serverUrl] property *)
Definition serverUrl_setter (url : json) : M unit :=
  st <- status ;;
  s <- lift (getitem st "status") ;;
  if ne s (JStr "unauthenticated") then raise InvalidStateException
  else
    b <- get_self ;;
    let cmd := [JStr (_bw_app_location b); JStr "config"; JStr "server"; url] in
    performCommandLineOperation cmd ;;; ret tt.

(** [__init__] *)
Definition __init__ (bwCliLocation : string) (serverUrl ca_cert_path : json) : M unit :=
  put_self (mkBitwarden None None bwCliLocation) ;;;
  (if ne ca_cert_path JNull then environ_set "NODE_EXTRA_CA_CERTS" ca_cert_path
   else ret tt) ;;;
  st <- status ;;
  u <- lift (getitem st "serverUrl") ;;
  if ne u serverUrl then serverUrl_setter serverUrl else ret tt.

(** [__extractSessionFromStdOut__]: [extract_line] is the body of its
    [for] loop.  Every line that contains [export] assigns the session
    id; the loop has no [break]. *)
Definition extract_line (line : string) : M unit :=
  if contains "export" line then
    match index "="%char line with
    | None => raise ValueError
    | Some idx =>
        let session_raw := slice_from line (Z.of_nat idx) in
        set_session (Some (slice session_raw 2 (len session_raw - 1)))
    end
  else ret tt.

Definition __extractSessionFromStdOut__ (stdout : bytes) : M unit :=
  content <- decode_utf8 stdout ;;
  let lines := split_lines content in
  for_each lines extract_line.

(** [isClientLatest] *)
Definition isClientLatest : M bool :=
  b <- get_self ;;
  let cmd := [JStr (_bw_app_location b); JStr "update"] in
  r <- performCommandLineOperation cmd ;;
  let '(code, stdout, stderr) := r in
  if code =? 0 then
    output <- decode_utf8 stdout ;;
    if contains "No update available" output then ret true else ret false
  else ret false.

(** [sync] *)
Definition sync : M bool :=
  b <- get_self ;;
  match _bw_session_id b with
  | None => raise VaultNotUnlockedException
  | Some sid =>
      let cmd := [JStr (_bw_app_location b); JStr "sync"; JStr "--session"; JStr sid] in
      r <- performCommandLineOperation cmd ;;
      let '(code, stdout, stderr) := r in
      if code =? 0 then ret true else ret false
  end.

(** The [while] loop of [loginWithPassword].  [number_retries] takes the
    values 1, 2, ... while [number_retries <= retry_count]; [remaining]
    is the number of these values not yet tried, so the loop condition
    holds exactly when [remaining] is not zero.  The value returned is
    [ret_value]. *)
Fixpoint loginWithPassword_loop (username : json) (password : string)
    (remaining : nat) (number_retries : Z) : M bool :=
  match remaining with
  | O => ret false
  | S remaining' =>
      b <- get_self ;;
      let cmd := [JStr (_bw_app_location b); JStr "login"; username; JStr password] in
      r <- performCommandLineOperation cmd ;;
      let '(code, stdout, stderr) := r in
      if code =? 0 then
        __extractSessionFromStdOut__ stdout ;;;
        sync ;;;
        ret true
      else
        sleep (half_seconds number_retries) ;;;
        loginWithPassword_loop username password remaining' (number_retries + 1)
  end.

(** [loginWithPassword] *)
Definition loginWithPassword (username : json) (password : string) (retry_count : Z)
    : M bool :=
  st <- status ;;
  s <- lift (getitem st "status") ;;
  if ne s (JStr "unauthenticated") then raise InvalidStateException
  else loginWithPassword_loop username password (Z.to_nat retry_count) 1.

(** The [while] loop of [loginWithApiKey], as above. *)
Fixpoint loginWithApiKey_loop (remaining : nat) (number_retries : Z) : M bool :=
  match remaining with
  | O => ret false
  | S remaining' =>
      b <- get_self ;;
      let cmd := [JStr (_bw_app_location b); JStr "login"; JStr "--apikey"] in
      r <- performCommandLineOperation cmd ;;
      let '(code, stdout, stderr) := r in
      if code =? 0 then ret true
      else
        sleep (half_seconds number_retries) ;;;
        loginWithApiKey_loop remaining' (number_retries + 1)
  end.

(** [loginWithApiKey] *)
Definition loginWithApiKey (client_id client_secret : json) (retry_count : Z) : M bool :=
  st <- status ;;
  s <- lift (getitem st "status") ;;
  if ne s (JStr "unauthenticated") then raise InvalidStateException
  else
    environ_set "BW_CLIENTID" client_id ;;;
    environ_set "BW_CLIENTSECRET" client_secret ;;;
    ret_value <- loginWithApiKey_loop (Z.to_nat retry_count) 1 ;;
    environ_del "BW_CLIENTID" ;;;
    environ_del "BW_CLIENTSECRET" ;;;
    ret ret_value.

(** [logout] *)
Definition logout : M unit :=
  b <- get_self ;;
  performCommandLineOperation [JStr (_bw_app_location b); JStr "logout"] ;;;
  set_session None.

(** [unlock] *)
Definition unlock (password : string) : M bool :=
  st <- status ;;
  s <- lift (getitem st "status") ;;
  if eq s (JStr "unlocked") then ret true
  else
    s <- lift (getitem st "status") ;;
    if eq s (JStr "unauthenticated") then raise InvalidStateException
    else
      environ_set "BW_PASSWORD" (JStr password) ;;;
      b <- get_self ;;
      let cmd := [JStr (_bw_app_location b); JStr "unlock"; JStr "--passwordenv";
                  JStr "BW_PASSWORD"] in
      r <- performCommandLineOperation cmd ;;
      let '(code, stdout, stderr) := r in
      environ_del "BW_PASSWORD" ;;;
      if code =? 0 then __extractSessionFromStdOut__ stdout ;;; ret true
      else ret false.

(** [lock] *)
Definition lock : M unit :=
  b <- get_self ;;
  performCommandLineOperation [JStr (_bw_app_location b); JStr "lock"] ;;; ret tt.

(** [[f(x) for x in xs]], stopping at the first exception *)
Fixpoint map_result {A B} (f : A -> result B) (xs : list A) : result (list B) :=
  match xs with
  | [] => Ok []
  | x :: xs' => y <~ f x ;; ys <~ map_result f xs' ;; Ok (y :: ys)
  end.

(** The [items] property: the parsed content is dropped. *)
Definition items : M (option (list (option item))) :=
  b <- get_self ;;
  match _bw_session_id b with
  | None => ret None
  | Some sid =>
      let cmd := [JStr (_bw_app_location b); JStr "list"; JStr "items";
                  JStr "--session"; JStr sid] in
      r <- performCommandLineOperation cmd ;;
      let '(code, stdout, stderr) := r in
      (if code =? 0 then content <- json_loads stdout ;; ret tt else ret tt) ;;;
      ret (Some [])
  end.

(** [__getitem__] *)
Definition __getitem__ (name : json) : M (list (option item)) :=
  b <- get_self ;;
  match _bw_session_id b with
  | None => ret []
  | Some sid =>
      match name with
      | JStr _ =>
          let cmd := [JStr (_bw_app_location b); JStr "list"; JStr "items";
                      JStr "--search"; name; JStr "--session"; JStr sid] in
          r <- performCommandLineOperation cmd ;;
          let '(code, stdout, stderr) := r in
          if code =? 0 then
            item_dict_list <- json_loads stdout ;;
            lift (ds <~ iter item_dict_list ;; map_result get_bitwarden_item ds)
          else ret []
      | _ => ret []
      end
  end.

(** The [orgs] property *)
Definition orgs : M (option (list BitwardenOrganization.t)) :=
  b <- get_self ;;
  match _bw_session_id b with
  | None => ret None
  | Some sid =>
      let cmd := [JStr (_bw_app_location b); JStr "list"; JStr "organizations";
                  JStr "--session"; JStr sid] in
      r <- performCommandLineOperation cmd ;;
      let '(code, stdout, stderr) := r in
      if code =? 0 then
        l <- json_loads stdout ;;
        os <- lift (ds <~ iter l ;; map_result BitwardenOrganization.__init__ ds) ;;
        ret (Some os)
      else ret (Some [])
  end.

(** The [collections] property *)
Definition collections : M (option (list BitwardenCollection.t)) :=
  b <- get_self ;;
  match _bw_session_id b with
  | None => ret None
  | Some sid =>
      let cmd := [JStr (_bw_app_location b); JStr "list"; JStr "collections";
                  JStr "--session"; JStr sid] in
      r <- performCommandLineOperation cmd ;;
      let '(code, stdout, stderr) := r in
      if code =? 0 then
        l <- json_loads stdout ;;
        cs <- lift (ds <~ iter l ;; map_result BitwardenCollection.__init__ ds) ;;
        ret (Some cs)
      else ret (Some [])
  end.

(** [format in ['json', 'encrypted_json', 'csv']] *)
Definition known_format (format : string) : bool :=
  existsb (String.eqb format) ["json"; "encrypted_json"; "csv"].

(** The truth value of [encrypt_password]: [None] and [''] are false. *)
Definition password_args (encrypt_password : option string) : list json :=
  match encrypt_password with
  | Some p => if String.eqb p EmptyString then [] else [JStr "--password"; JStr p]
  | None => []
  end.

(** [exportPersonalVault] *)
Definition exportPersonalVault (path format : string) (encrypt_password : option string)
    : M bool :=
  b <- get_self ;;
  match _bw_session_id b with
  | None => ret false
  | Some sid =>
      if negb (known_format format) then raise InvalidArgumentsException
      else if String.eqb format "encrypted_json"
              && match encrypt_password with None => true | Some _ => false end
      then raise NoEncryptionPasswordException
      else
        let cmd := ([JStr (_bw_app_location b); JStr "export"; JStr "--format";
                     JStr format; JStr "--output"; JStr path; JStr "--session";
                     JStr sid] ++ password_args encrypt_password)%list in
        r <- performCommandLineOperation cmd ;;
        let '(code, stdout, stderr) := r in
        if code =? 0 then ret true else ret false
  end.

(** [exportCollections] *)
Definition exportCollections (path : string) (organization_id : json) (format : string)
    (encrypt_password : option string) : M bool :=
  b <- get_self ;;
  match _bw_session_id b with
  | None => ret false
  | Some sid =>
      if negb (known_format format) then raise InvalidArgumentsException
      else if String.eqb format "encrypted_json"
              && match encrypt_password with None => true | Some _ => false end
      then raise NoEncryptionPasswordException
      else
        let cmd := ([JStr (_bw_app_location b); JStr "export"; JStr "--format";
                     JStr format; JStr "--output"; JStr path; JStr "--session";
                     JStr sid; JStr "--organizationid"; organization_id]
                      ++ password_args encrypt_password)%list in
        r <- performCommandLineOperation cmd ;;
        let '(code, stdout, stderr) := r in
        if code =? 0 then ret true else ret false
  end.

(** [org.type in [OWNER.value, ADMIN.value]] *)
Definition owner_or_admin (type : json) : bool :=
  existsb (eq type)
    [JInt (OrganizationUserTypes_value OWNER); JInt (OrganizationUserTypes_value ADMIN)].

(** The name of the export of the personal vault and of an organization. *)
Definition personal_filename (userEmail : json) (timeStr format : string) : string :=
  str userEmail ++ "-" ++ timeStr ++ "." ++ format.

Definition org_filename (userEmail name : json) (timeStr format : string) : string :=
  str userEmail ++ "-" ++ str name ++ "-" ++ timeStr ++ "." ++ format.

(** The [for org in self.orgs] loop of [exportAll]; it returns [False] at
    the first export that fails and [True] at its end. *)
Fixpoint exportAll_loop (orgs : list BitwardenOrganization.t) (st : json)
    (dir_path timeStr format : string) (encrypt_password : option string) : M bool :=
  match orgs with
  | [] => ret true
  | org :: orgs' =>
      if negb (owner_or_admin (BitwardenOrganization.type org)) then
        exportAll_loop orgs' st dir_path timeStr format encrypt_password
      else
        userEmail <- lift (getitem st "userEmail") ;;
        let filename :=
          org_filename userEmail (BitwardenOrganization.name org) timeStr format in
        let file_path := path_join dir_path filename in
        ok <- exportCollections file_path (BitwardenOrganization.id org) format
                encrypt_password ;;
        if negb ok then ret false
        else exportAll_loop orgs' st dir_path timeStr format encrypt_password
  end.

(** [exportAll] *)
Definition exportAll (dir_path format : string) (encrypt_password : option string)
    : M bool :=
  b <- get_self ;;
  match _bw_session_id b with
  | None => print "ERROR: BW Session Error" ;;; ret false
  | Some _ =>
      ex <- path_exists dir_path ;;
      (if negb ex then makedirs dir_path else ret tt) ;;;
      isd <- path_isdir dir_path ;;
      if negb isd then print "ERROR: Not directory" ;;; ret false
      else
        st <- status ;;
        now <- datetime_now ;;
        let timeStr := strftime_Ymd_HM now in
        userEmail <- lift (getitem st "userEmail") ;;
        let filename := personal_filename userEmail timeStr format in
        let file_path := path_join dir_path filename in
        ok <- exportPersonalVault file_path format encrypt_password ;;
        if negb ok then ret false
        else
          os <- orgs ;;
          match os with
          | None => raise TypeError
          | Some os =>
              exportAll_loop os st dir_path timeStr format encrypt_password
          end
  end.

End Bitwarden.

(* ===================================================================== *)
(** * app/bitwarden.py                                                     *)
(* ===================================================================== *)

Module App.

Inductive authenticator_class :=
| BitwardenPasswordAuthenticator
| BitwardenApiKeyAuthenticator.

(** An authenticator: its class, [self.account] and [self.url]; its
    [self._bw] is the [Bitwarden] instance of the state. *)
Record authenticator := mkAuthenticator {
  class : authenticator_class;
  account : gmap string json;
  url : json
}.

(** [BitwardenPasswordAuthenticator.__init__], which the API-key class
    reaches through [super().__init__]. *)
Definition authenticator__init__ (cls : authenticator_class)
    (acct_config : gmap string json) (server_url root_ca_path : json) : M authenticator :=
  Bitwarden.__init__ "bw" server_url root_ca_path ;;;
  ret (mkAuthenticator cls acct_config server_url).

(** [getAuthenticator] *)
Definition getAuthenticator (acct_config : gmap string json)
    (server_url root_ca_path : json) : M authenticator :=
  if has_key "client_id" acct_config && has_key "client_secret" acct_config then
    authenticator__init__ BitwardenApiKeyAuthenticator acct_config server_url root_ca_path
  else
    authenticator__init__ BitwardenPasswordAuthenticator acct_config server_url root_ca_path.

(** [unlockVault] of the password class; [retry_count] has its default. *)
Definition BitwardenPasswordAuthenticator_unlockVault (a : authenticator)
    (password : string) : M bool :=
  email <- lift (lookup_key (account a) "email") ;;
  Bitwarden.loginWithPassword email password 5.

(** [unlockVault] of the API-key class *)
Definition BitwardenApiKeyAuthenticator_unlockVault (a : authenticator)
    (password : string) : M bool :=
  client_id <- lift (lookup_key (account a) "client_id") ;;
  client_secret <- lift (lookup_key (account a) "client_secret") ;;
  status <- Bitwarden.loginWithApiKey client_id client_secret 5 ;;
  if negb status then
    email <- lift (lookup_key (account a) "email") ;;
    raise (AuthenticationFailedException email (url a))
  else Bitwarden.unlock password.

(** [auth.unlockVault(password)], dispatched on the class of [auth] *)
Definition unlockVault (a : authenticator) (password : string) : M bool :=
  match class a with
  | BitwardenPasswordAuthenticator => BitwardenPasswordAuthenticator_unlockVault a password
  | BitwardenApiKeyAuthenticator => BitwardenApiKeyAuthenticator_unlockVault a password
  end.

End App.

(* ===================================================================== *)
(** * Vocabulary of the statements                                         *)
(* ===================================================================== *)

(** The state in which the session id of the instance has been assigned. *)
Definition with_session (sid : option string) (s : State) : State :=
  mkState (os s) (mkBitwarden (_serverUrl (self s)) sid (_bw_app_location (self s))).

(** The lines of the output that contain [export], in order. *)
Definition export_lines (content : string) : list string :=
  List.filter (contains "export") (split_lines content).

(** What follows the first occurrence of [c] in [s]. *)
Fixpoint after_char (c : ascii) (s : string) : string :=
  match s with
  | EmptyString => EmptyString
  | String d s' => if Ascii.eqb d c then s' else after_char c s'
  end.

Definition strip_first (s : string) : string :=
  match s with
  | EmptyString => EmptyString
  | String _ s' => s'
  end.

Fixpoint strip_last (s : string) : string :=
  match s with
  | EmptyString => EmptyString
  | String c EmptyString => EmptyString
  | String c s' => String c (strip_last s')
  end.

(** The token that a line yields: what follows its first [=], less one
    character at each end. *)
Definition token_of_line (line : string) : string :=
  strip_last (strip_first (after_char "="%char line)).

(** The state after the session id was assigned from the last of [ls]. *)
Definition assigned_from (ls : list string) (s : State) : State :=
  match last ls with
  | Some line => with_session (Some (token_of_line line)) s
  | None => s
  end.

(** Following the words of the specification: the token comes from the
    first line that contains [export]. *)
Definition spec_first_export_token (content : string) : option string :=
  match export_lines content with
  | line :: _ => Some (token_of_line line)
  | [] => None
  end.

(** Test data: a double quote, a line break, an output that is plain text,
    an output that is a JSON document. *)
Definition dquote : string := String "034"%char EmptyString.
Definition nl : string := String newline EmptyString.
Definition text_output (text : string) : bytes := mkBytes (Some text) None.
Definition json_output (text : string) (v : json) : bytes := mkBytes (Some text) (Some v).

(** Test data: an instance that holds no session yet, and a world with an
    empty environment and file system whose [bw] answers as [p] says. *)
Definition fresh (w : World) : State := mkState w (mkBitwarden None None "bw").

Definition quiet_world (p : nat -> list string -> outcome) : World :=
  mkWorld ∅ ∅ (fun _ => false) (fun _ => mkDatetime 2024 3 9 7 5) p 0 [].

Definition no_answer : nat -> list string -> outcome := fun _ _ => SpawnError OSError.

Definition example_stdout : string :=
  "Your vault is now unlocked!" ++ nl ++ nl
  ++ "$ export BW_SESSION=" ++ dquote ++ "abc123" ++ dquote ++ nl
  ++ "> $env:BW_SESSION=" ++ dquote ++ "abc123" ++ dquote ++ nl.

Definition two_export_lines : string :=
  "export A=" ++ dquote ++ "first" ++ dquote ++ nl
  ++ "export B=" ++ dquote ++ "second" ++ dquote.

(** ** Steps of the state *)

(** The state after [cmd] was spawned and has exited. *)
Definition spawn_step (cmd : list string) (s : State) : State :=
  mkState (count_spawn (log (Spawn cmd (environ (os s))) (os s))) (self s).

(** The state after a [sleep]. *)
Definition sleep_step (seconds : Q) (s : State) : State :=
  mkState (log (Sleep seconds) (os s)) (self s).

(** The command line of the [status] property. *)
Definition status_cmd (b : Bitwarden) : list string :=
  match _bw_session_id b with
  | Some sid => [_bw_app_location b; "status"; "--session"; sid]
  | None => [_bw_app_location b; "status"]
  end.

(** ** Frames: what a computation leaves alone

    [R] relates the state before a computation to the state after it;
    [okev] says which events the computation may log. *)
Class Frame (R : State -> State -> Prop) (okev : event -> Prop) : Prop := {
  frame_refl : forall s, R s s;
  frame_trans : forall a b c, R a b -> R b c -> R a c;
  frame_world : forall s w' new,
      trace w' = (trace (os s) ++ new)%list -> Forall okev new ->
      R s (mkState w' (self s));
  frame_session : forall s sid, R s (with_session sid s)
}.

Definition keeps {A} (R : State -> State -> Prop) (m : M A) : Prop :=
  forall s r s', m s = (r, s') -> R s s'.

(** ** Reachable states of a [Bitwarden] instance *)

Inductive call :=
| Call_status
| Call_serverUrl
| Call_serverUrl_setter (url : json)
| Call_extractSessionFromStdOut (stdout : bytes)
| Call_isClientLatest
| Call_loginWithPassword (username : json) (password : string) (retry_count : Z)
| Call_loginWithApiKey (client_id client_secret : json) (retry_count : Z)
| Call_logout
| Call_unlock (password : string)
| Call_lock
| Call_sync
| Call_items
| Call_getitem (name : json)
| Call_orgs
| Call_collections
| Call_exportAll (dir_path format : string) (encrypt_password : option string)
| Call_exportPersonalVault (path format : string) (encrypt_password : option string)
| Call_exportCollections (path : string) (organization_id : json) (format : string)
    (encrypt_password : option string).

(** A method call whose value is dropped. *)
Definition void {A} (m : M A) : M unit := m ;;; ret tt.

Definition perform_call (c : call) : M unit :=
  match c with
  | Call_status => void Bitwarden.status
  | Call_serverUrl => void Bitwarden.serverUrl
  | Call_serverUrl_setter url => Bitwarden.serverUrl_setter url
  | Call_extractSessionFromStdOut stdout => Bitwarden.__extractSessionFromStdOut__ stdout
  | Call_isClientLatest => void Bitwarden.isClientLatest
  | Call_loginWithPassword u p n => void (Bitwarden.loginWithPassword u p n)
  | Call_loginWithApiKey i k n => void (Bitwarden.loginWithApiKey i k n)
  | Call_logout => Bitwarden.logout
  | Call_unlock p => void (Bitwarden.unlock p)
  | Call_lock => Bitwarden.lock
  | Call_sync => void Bitwarden.sync
  | Call_items => void Bitwarden.items
  | Call_getitem name => void (Bitwarden.__getitem__ name)
  | Call_orgs => void Bitwarden.orgs
  | Call_collections => void Bitwarden.collections
  | Call_exportAll d f p => void (Bitwarden.exportAll d f p)
  | Call_exportPersonalVault pa f p => void (Bitwarden.exportPersonalVault pa f p)
  | Call_exportCollections pa o f p => void (Bitwarden.exportCollections pa o f p)
  end.

(** An instance exists once [__init__] has returned; from then on its
    methods are called, whether they return or raise, and between two
    calls the world may change in any way. *)
Inductive reachable : State -> Prop :=
| reachable_init w b bwCliLocation serverUrl ca_cert_path s' :
    Bitwarden.__init__ bwCliLocation serverUrl ca_cert_path (mkState w b) = (Ok tt, s') ->
    reachable s'
| reachable_call s c r s' :
    reachable s -> perform_call c s = (r, s') -> reachable s'
| reachable_world s w :
    reachable s -> reachable (mkState w (self s)).

(** The state relation of C10: the stored server URL is the same. *)
Definition same_serverUrl (s s' : State) : Prop :=
  _serverUrl (self s') = _serverUrl (self s).

(** ** Events of a trace *)

(** The path after [--output] when the event is a spawned [bw export]. *)
Definition output_path (e : event) : option string :=
  match e with
  | Spawn (_ :: sub :: _ :: _ :: _ :: path :: _) _ =>
      if String.eqb sub "export" then Some path else None
  | _ => None
  end.

Definition output_paths (tr : list event) : list string := omap output_path tr.

(** What follows the last dot of a path, if it has a dot. *)
Fixpoint extension (path : string) : option string :=
  match path with
  | EmptyString => None
  | String c path' =>
      match extension path' with
      | Some e => Some e
      | None => if Ascii.eqb c "."%char then Some path' else None
      end
  end.

(** The events that C6 allows for a run that exports in [format]: an
    export is written to a path whose extension is [format] itself. *)
Definition exports_as (format : string) (e : event) : Prop :=
  forall path, output_path e = Some path ->
    In format ["json"; "encrypted_json"; "csv"] /\ extension path = Some format.

(** The trace grows by events that all satisfy [okev]. *)
Definition extends (okev : event -> Prop) (s s' : State) : Prop :=
  exists new, trace (os s') = (trace (os s) ++ new)%list /\ Forall okev new.

(** Following the words of the specification: the extension that goes
    with a format. *)
Definition spec_extension (format : string) : string :=
  if String.eqb format "encrypted_json" then "json" else format.

(** ** More test data *)

(** [json.dumps], for documents whose strings need no escape sequence. *)
Fixpoint dumps (v : json) : string :=
  match v with
  | JNull => "null"
  | JBool true => "true"
  | JBool false => "false"
  | JInt z => str_of_int z
  | JStr s => dquote ++ s ++ dquote
  | JArr l => "[" ++ join ", " (map dumps l) ++ "]"
  | JObj items =>
      "{" ++ join ", "
               ((fix go (d : list (string * json)) : list string :=
                   match d with
                   | [] => []
                   | (k, v) :: d' => (dquote ++ k ++ dquote ++ ": " ++ dumps v) :: go d'
                   end) items)
          ++ "}"
  end.

Definition json_document (v : json) : bytes := mkBytes (Some (dumps v)) (Some v).

Definition obj (fields : list (string * json)) : json := JObj fields.

(** What [bw status] prints. *)
Definition status_document (server state : string) (email : option string) : json :=
  obj ([("serverUrl", JStr server); ("status", JStr state)]
       ++ match email with Some e => [("userEmail", JStr e)] | None => [] end).

Definition organization_document (id name : string) (role : OrganizationUserTypes) : json :=
  obj [("id", JStr id); ("name", JStr name);
       ("status", JInt (OrganizationStatus_value CONFIRMED));
       ("type", JInt (OrganizationUserTypes_value role)); ("enabled", JBool true)].

Definition arg (i : nat) (cmd : list string) : string := nth i cmd EmptyString.

Definition silent (code : Z) : outcome :=
  Exited code (text_output EmptyString) (text_output EmptyString).

(** A [bw] that is logged out and was configured for another server. *)
Definition logged_out_bw : nat -> list string -> outcome := fun _ cmd =>
  if String.eqb (arg 1 cmd) "status" then
    Exited 0 (json_document (status_document "https://old.example.org" "unauthenticated" None))
      (text_output EmptyString)
  else silent 0.

Definition configured_state : State :=
  snd (Bitwarden.__init__ "bw" (JStr "https://vault.example.org") JNull
         (fresh (quiet_world logged_out_bw))).

(** A [bw] with an unlocked vault that sees three organizations, as owner,
    user and admin; [fails] tells which invocations exit with code 1. *)
Definition three_organizations : json :=
  JArr [organization_document "o1" "Acme" OWNER;
        organization_document "o2" "Club" USER;
        organization_document "o3" "Lab" ADMIN].

Definition unlocked_bw (fails : list string -> bool) : nat -> list string -> outcome :=
  fun _ cmd =>
    if fails cmd then silent 1
    else if String.eqb (arg 1 cmd) "status" then
      Exited 0 (json_document
                  (status_document "https://vault.example.org" "unlocked" (Some "a@b.c")))
        (text_output EmptyString)
    else if String.eqb (arg 1 cmd) "list" && String.eqb (arg 2 cmd) "organizations" then
      Exited 0 (json_document three_organizations) (text_output EmptyString)
    else silent 0.

(** The instance holds the session [tok]; the directory [backups] exists. *)
Definition unlocked_state (fails : list string -> bool) : State :=
  mkState (mkWorld ∅ {["backups" := Dir]} (fun _ => false)
             (fun _ => mkDatetime 2024 3 9 7 5) (unlocked_bw fails) 0 [])
          (mkBitwarden None (Some "tok") "bw").

Definition never : list string -> bool := fun _ => false.

(** ** Credentials and items, in the words of the specification *)

(** A credential is non-empty when the account configuration carries it
    with a value that is neither null nor the empty string. *)
Definition spec_nonempty (key : string) (acct_config : gmap string json) : bool :=
  match acct_config !! key with
  | Some (JStr v) => negb (String.eqb v EmptyString)
  | Some JNull => false
  | Some _ => true
  | None => false
  end.

(** An account whose API-key credentials are present but empty, as in the
    example configuration of the [backup] command. *)
Definition empty_api_key_account : gmap string json :=
  list_to_map [("email", JStr "test+bob@gmail.com"); ("client_id", JStr EmptyString);
               ("client_secret", JStr EmptyString)].

(** All common attributes of two items are equal. *)
Definition spec_common_match (a b : BitwardenItem.t) : bool :=
  eq (BitwardenItem.id a) (BitwardenItem.id b)
  && eq (BitwardenItem.folderId a) (BitwardenItem.folderId b)
  && eq (BitwardenItem.name a) (BitwardenItem.name b)
  && eq (BitwardenItem.notes a) (BitwardenItem.notes b).

(** All fields of two logins are equal. *)
Definition spec_login_match (a b : BitwardenLogin.t) : bool :=
  spec_common_match (BitwardenLogin.base a) (BitwardenLogin.base b)
  && eq (BitwardenLogin.username a) (BitwardenLogin.username b)
  && eq (BitwardenLogin.password a) (BitwardenLogin.password b)
  && eq (BitwardenLogin.totp a) (BitwardenLogin.totp b).

(** What [__eq__] compares of the common attributes: name and notes. *)
Definition base_match (a b : BitwardenItem.t) : bool :=
  eq (BitwardenItem.name a) (BitwardenItem.name b)
  && eq (BitwardenItem.notes a) (BitwardenItem.notes b).

Definition login_match (a b : BitwardenLogin.t) : bool :=
  base_match (BitwardenLogin.base a) (BitwardenLogin.base b)
  && eq (BitwardenLogin.username a) (BitwardenLogin.username b)
  && eq (BitwardenLogin.password a) (BitwardenLogin.password b)
  && eq (BitwardenLogin.totp a) (BitwardenLogin.totp b).

Definition card_match (a b : BitwardenCard.t) : bool :=
  base_match (BitwardenCard.base a) (BitwardenCard.base b)
  && eq (BitwardenCard.holder_name a) (BitwardenCard.holder_name b)
  && eq (BitwardenCard.brand a) (BitwardenCard.brand b)
  && eq (BitwardenCard.number a) (BitwardenCard.number b)
  && eq (BitwardenCard.month a) (BitwardenCard.month b)
  && eq (BitwardenCard.year a) (BitwardenCard.year b)
  && eq (BitwardenCard.code a) (BitwardenCard.code b).

(** Two logins that differ in their id and folder id only. *)
Definition login_with_id (id folder : string) : BitwardenLogin.t :=
  BitwardenLogin.mk
    (BitwardenItem.mk (JStr id) (JStr folder) (JStr "webmail") JNull)
    (JStr "alice") (JStr "hunter2") JNull.

(** ** Login attempts *)

Definition login_cmd (b : Bitwarden) (username password : string) : list string :=
  [_bw_app_location b; "login"; username; password].

Definition apikey_cmd (b : Bitwarden) : list string :=
  [_bw_app_location b; "login"; "--apikey"].

Definition sync_cmd (b : Bitwarden) (sid : string) : list string :=
  [_bw_app_location b; "sync"; "--session"; sid].

(** What [bw] answers to the [i]-th process spawned from state [s] on
    (the one spawned next has [i = 0]). *)
Definition answer (s : State) (i : nat) (cmd : list string) : outcome :=
  popen (os s) (spawned (os s) + i)%nat cmd.

(** The process ran and exited with a code other than 0. *)
Definition fails (o : outcome) : Prop :=
  exists code stdout stderr, o = Exited code stdout stderr /\ code <> 0.

(** The process could be spawned. *)
Definition spawns (o : outcome) : Prop :=
  exists code stdout stderr, o = Exited code stdout stderr.

(** The state after [k] attempts with [cmd] failed, the first of them
    having the number [number_retries]. *)
Fixpoint failed_attempts (cmd : list string) (k : nat) (number_retries : Z) (s : State)
    : State :=
  match k with
  | O => s
  | S k' =>
      failed_attempts cmd k' (number_retries + 1)
        (sleep_step (half_seconds number_retries) (spawn_step cmd s))
  end.

(** The events of these [k] attempts: each is a spawn followed by a sleep
    of half a second times the number of the attempt. *)
Fixpoint attempts_trace (cmd : list string) (env : gmap string string) (k : nat)
    (number_retries : Z) : list event :=
  match k with
  | O => []
  | S k' =>
      Spawn cmd env :: Sleep (half_seconds number_retries)
        :: attempts_trace cmd env k' (number_retries + 1)
  end.

(** The token that the output of a successful login yields. *)
Definition last_token (content : string) : string :=
  match last (export_lines content) with
  | Some line => token_of_line line
  | None => EmptyString
  end.

(** The session token that the instance holds once the token has been
    extracted from [content]: the one of the last line with [export], or
    else the one it held before. *)
Definition session_after (content : string) (s : State) : option string :=
  _bw_session_id (self (assigned_from (export_lines content) s)).

(** The lengths of the sleeps of a trace, and how often [cmd] was spawned. *)
Definition sleeps (tr : list event) : list Q :=
  omap (fun e => match e with Sleep q => Some q | _ => None end) tr.

Definition spawn_count (cmd : list string) (tr : list event) : nat :=
  length (List.filter (fun e => match e with
                                | Spawn c _ => bool_decide (c = cmd)
                                | _ => false
                                end) tr).

(** Test data: a [bw] that is logged out and whose [login] fails twice
    before it succeeds with the output [stdout]. *)
Definition third_time_lucky (stdout : string) : nat -> list string -> outcome :=
  fun n cmd =>
    if String.eqb (arg 1 cmd) "status" then
      Exited 0 (json_document
                  (status_document "https://vault.example.org" "unauthenticated" None))
        (text_output EmptyString)
    else if String.eqb (arg 1 cmd) "login" then
      if (n <? 3)%nat then Exited 1 (text_output EmptyString)
                             (text_output "Username or password is incorrect.")
      else Exited 0 (text_output stdout) (text_output EmptyString)
    else silent 0.

(** The state in which the login scenarios start. *)
Definition logged_out (stdout : string) : State :=
  fresh (quiet_world (third_time_lucky stdout)).

(** ** Login with an API key *)

(** The environment while the API-key login runs. *)
Definition apikey_environ (client_id client_secret : string)
    (env : gmap string string) : gmap string string :=
  <["BW_CLIENTSECRET" := client_secret]> (<["BW_CLIENTID" := client_id]> env).

(** An event of the login attempts: [cmd] spawned under [env], or a sleep. *)
Definition attempt_event (cmd : list string) (env : gmap string string) (e : event)
    : Prop :=
  e = Spawn cmd env \/ exists seconds, e = Sleep seconds.

(** Test data: [bw] is logged out and the process already has a
    [BW_CLIENTID] of its own in its environment. *)
Definition preset_clientid : State :=
  mkState (mkWorld {["BW_CLIENTID" := "mine"]} ∅ (fun _ => false)
             (fun _ => mkDatetime 2024 3 9 7 5) logged_out_bw 0 [])
          (mkBitwarden None None "bw").

(** ** Export targets *)

Inductive target :=
| PersonalVault
| Organization (id : string).

(** What a spawned [bw export] exports: the organization named after
    [--organizationid], or else the personal vault. *)
Definition export_target (e : event) : option target :=
  match e with
  | Spawn (_ :: sub :: _ :: _ :: _ :: _ :: _ :: _ :: rest) _ =>
      if String.eqb sub "export" then
        match rest with
        | flag :: id :: _ =>
            if String.eqb flag "--organizationid" then Some (Organization id)
            else Some PersonalVault
        | _ => Some PersonalVault
        end
      else None
  | _ => None
  end.

Definition targets (tr : list event) : list target := omap export_target tr.

(** An event that exports nothing. *)
Definition no_target (e : event) : Prop := export_target e = None.

(** The organizations of a listing that [exportAll] selects. *)
Definition selected (listing : list BitwardenOrganization.t) : list BitwardenOrganization.t :=
  List.filter (fun org => Bitwarden.owner_or_admin (BitwardenOrganization.type org)) listing.

Definition organization_target (org : BitwardenOrganization.t) : target :=
  Organization (str (BitwardenOrganization.id org)).

(** The number of processes that a trace spawned. *)
Definition processes (tr : list event) : nat :=
  length (List.filter (fun e => match e with Spawn _ _ => true | _ => false end) tr).

(** In a run that starts in [s], the event [e] that follows the events
    [pre] is an export whose process exits with a code other than 0. *)
Definition failed_export (s : State) (pre : list event) (e : event) : Prop :=
  match e with
  | Spawn cmd _ => is_Some (export_target e) /\ fails (answer s (processes pre) cmd)
  | _ => False
  end.

(** A failed export is the last event of the run, which returns [False]. *)
Definition stops_at_failure (s : State) (new : list event) (r : result bool) : Prop :=
  forall pre e post,
    new = (pre ++ e :: post)%list -> failed_export s pre e -> post = [] /\ r = Ok false.

(** The last event of the run is a failed export. *)
Definition ends_with_failure (s : State) (new : list event) : Prop :=
  exists pre e, new = (pre ++ [e])%list /\ failed_export s pre e.

(** [listing] is what [self.orgs] returns once two processes have been
    spawned from [s] on, which is when [exportAll] reads it. *)
Definition listed (s : State) (listing : list BitwardenOrganization.t) : Prop :=
  exists s1 s2 : State,
    popen (os s1) = popen (os s) /\
    spawned (os s1) = (spawned (os s) + 2)%nat /\
    self s1 = self s /\
    Bitwarden.orgs s1 = (Ok (Some listing), s2).

(** Test data: the export of organization [o1] fails. *)
Definition o1_fails : list string -> bool := fun cmd =>
  String.eqb (arg 1 cmd) "export" && String.eqb (arg 9 cmd) "o1".

(* ===================================================================== *)
(** * Vocabulary of the further properties                                 *)
(* ===================================================================== *)

(** ** Command lines *)

Definition unlock_cmd (b : Bitwarden) : list string :=
  [_bw_app_location b; "unlock"; "--passwordenv"; "BW_PASSWORD"].

Definition logout_cmd (b : Bitwarden) : list string := [_bw_app_location b; "logout"].

Definition config_server_cmd (b : Bitwarden) (url : string) : list string :=
  [_bw_app_location b; "config"; "server"; url].

Definition export_to_cmd (b : Bitwarden) (format path sid : string) : list string :=
  [_bw_app_location b; "export"; "--format"; format; "--output"; path; "--session"; sid].

Definition list_organizations_cmd (b : Bitwarden) (sid : string) : list string :=
  [_bw_app_location b; "list"; "organizations"; "--session"; sid].

Definition search_items_cmd (b : Bitwarden) (name sid : string) : list string :=
  [_bw_app_location b; "list"; "items"; "--search"; name; "--session"; sid].

(** The arguments that a password adds to an export: none for [None] and
    for the empty string. *)
Definition password_strs (encrypt_password : option string) : list string :=
  match encrypt_password with
  | Some p => if String.eqb p EmptyString then [] else ["--password"; p]
  | None => []
  end.

Definition export_personal_cmd (b : Bitwarden) (format path sid : string)
    (encrypt_password : option string) : list string :=
  (export_to_cmd b format path sid ++ password_strs encrypt_password)%list.

Definition export_organization_cmd (b : Bitwarden) (format path sid id : string)
    (encrypt_password : option string) : list string :=
  (export_to_cmd b format path sid ++ ["--organizationid"; id]
     ++ password_strs encrypt_password)%list.

(** ** What a call may change *)

(** A relation between the state before and the state after that holds
    of every step which leaves the instance and the environment alone. *)
Class Quiet (R : State -> State -> Prop) : Prop := {
  still_refl : forall s, R s s;
  still_trans : forall a b c, R a b -> R b c -> R a c;
  still_world : forall s w', environ w' = environ (os s) -> R s (mkState w' (self s))
}.

Definition same_self (s s' : State) : Prop := self s' = self s.

Definition same_environ (s s' : State) : Prop := environ (os s') = environ (os s).

(** The methods that assign [_bw_session_id], and those that write to
    [os.environ]. *)
Definition assigns_session (c : call) : bool :=
  match c with
  | Call_extractSessionFromStdOut _ | Call_loginWithPassword _ _ _ | Call_logout
  | Call_unlock _ => true
  | _ => false
  end.

Definition edits_environ (c : call) : bool :=
  match c with
  | Call_loginWithApiKey _ _ _ | Call_unlock _ => true
  | _ => false
  end.

(** ** More test data *)

(** A [bw] whose vault is locked and whose [unlock] ends as [o] says; the
    process already has a [BW_PASSWORD] of its own. *)
Definition locked_bw (o : outcome) : nat -> list string -> outcome := fun _ cmd =>
  if String.eqb (arg 1 cmd) "status" then
    Exited 0 (json_document
                (status_document "https://vault.example.org" "locked" (Some "a@b.c")))
      (text_output EmptyString)
  else if String.eqb (arg 1 cmd) "unlock" then o
  else silent 0.

Definition locked_state (o : outcome) : State :=
  mkState (mkWorld {["BW_PASSWORD" := "old"]} ∅ (fun _ => false)
             (fun _ => mkDatetime 2024 3 9 7 5) (locked_bw o) 0 [])
          (mkBitwarden None None "bw").

(** The locked vault whose [bw unlock] succeeds and prints a session. *)
Definition locked_vault : State :=
  locked_state (Exited 0 (text_output example_stdout) (text_output EmptyString)).

(** The seconds slept in a trace, added up. *)
Definition total_sleep (tr : list event) : Q := fold_right Qplus 0%Q (sleeps tr).

(** Test data: a [bw] that is logged out and whose [login] always fails. *)
Definition never_logs_in : nat -> list string -> outcome := fun _ cmd =>
  if String.eqb (arg 1 cmd) "status" then
    Exited 0 (json_document
                (status_document "https://vault.example.org" "unauthenticated" None))
      (text_output EmptyString)
  else if String.eqb (arg 1 cmd) "login" then
    Exited 1 (text_output EmptyString) (text_output "Username or password is incorrect.")
  else silent 0.

(** Test data: [bw status] itself fails. *)
Definition broken_bw : nat -> list string -> outcome := fun _ _ => silent 1.

(** Test data: an identity item as [bw list items] prints it, and a
    secure note with the name and notes of [login_with_id]. *)
Definition identity_document : json :=
  obj [("id", JStr "i1"); ("folderId", JNull); ("name", JStr "passport");
       ("notes", JNull); ("type", JInt (ItemTypes_value IDENTITY))].

Definition webmail_note : BitwardenItem.t :=
  BitwardenItem.mk (JStr "3") JNull (JStr "webmail") JNull.

(** Test data: an output whose second line has [export] in it but no
    [=]. *)
Definition export_without_equals : string :=
  "export A=" ++ dquote ++ "first" ++ dquote ++ nl ++ "nothing was exported".

(** Test data: an unlocked vault whose [bw list items] prints one item,
    the identity above; the instance holds the session [tok]. *)
Definition items_bw : nat -> list string -> outcome := fun _ cmd =>
  if String.eqb (arg 1 cmd) "list" then
    Exited 0 (json_document (JArr [identity_document])) (text_output EmptyString)
  else silent 0.

Definition items_state : State :=
  mkState (quiet_world items_bw) (mkBitwarden None (Some "tok") "bw").

(** Test data: the unlocked vault of [unlocked_state] with no directory
    [backups] yet, and a [bw] whose listings fail. *)
Definition unlocked_no_directory : State :=
  mkState (quiet_world (unlocked_bw never)) (mkBitwarden None (Some "tok") "bw").

Definition listing_fails : list string -> bool := fun cmd => String.eqb (arg 1 cmd) "list".

(** Test data: an account with an API key, and its authenticator. *)
Definition api_key_account : gmap string json :=
  list_to_map [("email", JStr "a@b.c"); ("client_id", JStr "cid");
               ("client_secret", JStr "csec")].

Definition api_key_authenticator : App.authenticator :=
  App.mkAuthenticator App.BitwardenApiKeyAuthenticator api_key_account
    (JStr "https://vault.example.org").

(** The line on which [bw] prints the session token [tok]. *)
Definition session_line (tok : string) : string :=
  "$ export BW_SESSION=" ++ dquote ++ tok ++ dquote.

(* ===================================================================== *)
(** * Strings: slices and the token of a line                             *)
(* ===================================================================== *)

Lemma substring_strip_last (s : string) :
  substring 0 (String.length s - 1) s = strip_last s.
Proof.
  induction s as [|c s IH]; [reflexivity|].
  destruct s as [|d s]; [reflexivity|].
  replace (String.length (String c (String d s)) - 1)%nat
    with (S (String.length (String d s) - 1)) by (cbn [String.length]; lia).
  change (substring 0 (S (String.length (String d s) - 1)) (String c (String d s)))
    with (String c (substring 0 (String.length (String d s) - 1) (String d s))).
  rewrite IH. reflexivity.
Qed.

Lemma substring_whole (s : string) : substring 0 (String.length s) s = s.
Proof. induction s as [|c s IH]; [reflexivity|]. cbn. now rewrite IH. Qed.

Lemma slice_in_range (s : string) (i j : nat) :
  (i <= String.length s)%nat -> (j <= String.length s)%nat ->
  slice s (Z.of_nat i) (Z.of_nat j) = substring i (j - i) s.
Proof.
  intros Hi Hj. unfold slice, len.
  destruct (Z.ltb_spec (Z.of_nat i) 0); [lia|].
  destruct (Z.ltb_spec (Z.of_nat j) 0); [lia|].
  rewrite !Z.min_l by lia. f_equal; lia.
Qed.

Lemma index_lt (c : ascii) (s : string) (i : nat) :
  index c s = Some i -> (i < String.length s)%nat.
Proof.
  revert i. induction s as [|d s IH]; intros i H; [discriminate|].
  cbn in *. destruct (Ascii.eqb d c); [injection H as <-; lia|].
  destruct (index c s); [|discriminate]. injection H as <-.
  specialize (IH _ eq_refl). lia.
Qed.

Lemma substring_index (c : ascii) (s : string) (i : nat) :
  index c s = Some i ->
  substring i (String.length s - i) s = String c (after_char c s).
Proof.
  revert i. induction s as [|d s IH]; intros i H; [discriminate|].
  cbn [index after_char] in *.
  destruct (Ascii.eqb d c) eqn:E.
  - injection H as <-. apply Ascii.eqb_eq in E. subst d.
    rewrite Nat.sub_0_r. apply substring_whole.
  - destruct (index c s) as [k|]; [|discriminate]. injection H as <-.
    cbn. now apply IH.
Qed.

Lemma slice_from_index (c : ascii) (line : string) (idx : nat) :
  index c line = Some idx ->
  slice_from line (Z.of_nat idx) = String c (after_char c line).
Proof.
  intros H. pose proof (index_lt _ _ _ H) as Hlt.
  unfold slice_from, len. rewrite slice_in_range by lia.
  now apply substring_index.
Qed.

Lemma slice_token (c : ascii) (t : string) :
  slice (String c t) 2 (len (String c t) - 1) = strip_last (strip_first t).
Proof.
  destruct t as [|q u]; [reflexivity|].
  unfold len. cbn [String.length strip_first].
  replace (Z.of_nat (S (S (String.length u))) - 1)
    with (Z.of_nat (S (String.length u))) by lia.
  change 2 with (Z.of_nat 2).
  rewrite slice_in_range by (cbn [String.length]; lia).
  replace (S (String.length u) - 2)%nat with (String.length u - 1)%nat by lia.
  apply substring_strip_last.
Qed.

Lemma token_of_line_slice (line : string) (idx : nat) :
  index "="%char line = Some idx ->
  let session_raw := slice_from line (Z.of_nat idx) in
  slice session_raw 2 (len session_raw - 1) = token_of_line line.
Proof.
  intros H. cbv zeta. rewrite (slice_from_index _ _ _ H). apply slice_token.
Qed.

Lemma strip_last_snoc (s : string) (c : ascii) :
  strip_last (s ++ String c EmptyString) = s.
Proof.
  induction s as [|d s IH]; [reflexivity|].
  destruct s as [|e t]; [reflexivity|].
  exact (f_equal (String d) IH).
Qed.

Lemma after_char_app (c : ascii) (pre rest : string) :
  index c pre = None ->
  after_char c (pre ++ String c rest) = rest.
Proof.
  induction pre as [|d pre IH]; intros H.
  - change (after_char c (String c rest) = rest).
    cbn [after_char]. now rewrite Ascii.eqb_refl.
  - change (after_char c (String d (pre ++ String c rest)) = rest).
    cbn [after_char index] in *.
    destruct (Ascii.eqb d c); [discriminate|].
    destruct (index c pre); [discriminate|]. now apply IH.
Qed.

Lemma token_of_quoted_line (pre tok : string) (q q' : ascii) :
  index "="%char pre = None ->
  token_of_line (pre ++ "=" ++ String q (tok ++ String q' EmptyString)) = tok.
Proof.
  intros H. unfold token_of_line.
  change ("=" ++ String q (tok ++ String q' EmptyString))
    with (String "="%char (String q (tok ++ String q' EmptyString))).
  rewrite after_char_app by exact H. cbn [strip_first]. apply strip_last_snoc.
Qed.

(* ===================================================================== *)
(** * Token extraction                                                     *)
(* ===================================================================== *)

Lemma set_session_run (sid : option string) (s : State) :
  Bitwarden.set_session sid s = (Ok tt, with_session sid s).
Proof. reflexivity. Qed.

Lemma assigned_from_cons (line : string) (ls : list string) (s : State) :
  assigned_from (line :: ls) s
  = assigned_from ls (with_session (Some (token_of_line line)) s).
Proof.
  unfold assigned_from. destruct ls as [|l ls]; [reflexivity|].
  change (last (line :: l :: ls)) with (last (l :: ls)).
  destruct (last (l :: ls)) eqn:E; [reflexivity|].
  apply last_None in E. discriminate.
Qed.

Lemma extract_lines_run (lines : list string) (s : State) :
  (forall line, In line (List.filter (contains "export") lines) ->
                index "="%char line <> None) ->
  for_each lines Bitwarden.extract_line s
  = (Ok tt, assigned_from (List.filter (contains "export") lines) s).
Proof.
  revert s. induction lines as [|line lines IH]; intros s H; [reflexivity|].
  cbn [for_each List.filter] in *. unfold bind at 1.
  unfold Bitwarden.extract_line at 1.
  destruct (contains "export" line) eqn:E.
  - destruct (index "="%char line) as [idx|] eqn:Hidx.
    + rewrite (token_of_line_slice _ _ Hidx), set_session_run.
      rewrite IH by (intros l Hl; apply H; now right).
      now rewrite assigned_from_cons.
    + exfalso. apply (H line); [now left | exact Hidx].
  - apply IH, H.
Qed.

Lemma extractSession_run (stdout : bytes) (content : string) (s : State) :
  decode stdout = Some content ->
  (forall line, In line (export_lines content) -> index "="%char line <> None) ->
  Bitwarden.__extractSessionFromStdOut__ stdout s
  = (Ok tt, assigned_from (export_lines content) s).
Proof.
  intros Hdec Heq. unfold Bitwarden.__extractSessionFromStdOut__, decode_utf8, bind.
  rewrite Hdec. cbn [ret]. now apply extract_lines_run.
Qed.

(** No line with [export]: nothing changes. *)
Corollary extractSession_no_export_line (stdout : bytes) (content : string) (s : State) :
  decode stdout = Some content ->
  export_lines content = [] ->
  Bitwarden.__extractSessionFromStdOut__ stdout s = (Ok tt, s).
Proof.
  intros Hdec Hnone.
  rewrite (extractSession_run stdout content s Hdec).
  - now rewrite Hnone.
  - rewrite Hnone. intros line [].
Qed.

Lemma assigned_from_snoc (ls : list string) (line : string) (s : State) :
  assigned_from (ls ++ [line]) s = with_session (Some (token_of_line line)) s.
Proof. unfold assigned_from. now rewrite last_snoc. Qed.

(** C2 (as amended): every line with [export] assigns the token, so the
    last such line decides it, not the first; the token is what follows the
    first [=] of that line less one character at each end, which for a
    quoted value is the value without its quotes; without a line with
    [export] the state, and with it the stored token, is unchanged. *)
Theorem extractSession_last_export_line (stdout : bytes) (content : string) (s : State) :
  decode stdout = Some content ->
  (forall line, In line (export_lines content) -> index "="%char line <> None) ->
  Bitwarden.__extractSessionFromStdOut__ stdout s
  = (Ok tt, assigned_from (export_lines content) s) /\
  (export_lines content = [] -> assigned_from (export_lines content) s = s) /\
  (forall (before : list string) (pre tok : string) (q q' : ascii),
     export_lines content
     = (before ++ [(pre ++ "=" ++ String q (tok ++ String q' EmptyString))%string])%list ->
     index "="%char pre = None ->
     assigned_from (export_lines content) s = with_session (Some tok) s).
Proof.
  intros Hdec Heq. split; [now apply extractSession_run|]. split.
  - now intros ->.
  - intros before pre tok q q' -> Hpre.
    now rewrite assigned_from_snoc, token_of_quoted_line.
Qed.

Lemma extractSession_example :
  Bitwarden.__extractSessionFromStdOut__ (text_output example_stdout)
    (fresh (quiet_world no_answer))
  = (Ok tt, with_session (Some "abc123") (fresh (quiet_world no_answer))).
Proof.
  refine (proj1 (extractSession_last_export_line (text_output example_stdout)
                   example_stdout _ _ _)).
  - reflexivity.
  - vm_compute. intros line [<-|[]]. discriminate.
Defined.

Lemma extractSession_not_first_line :
  _bw_session_id (self (snd
    (Bitwarden.__extractSessionFromStdOut__ (text_output two_export_lines)
       (fresh (quiet_world no_answer)))))
  <> spec_first_export_token two_export_lines.
Proof. vm_compute. discriminate. Qed.

(* ===================================================================== *)
(** * Frame rules                                                          *)
(* ===================================================================== *)

Section FrameRules.
Context (R : State -> State -> Prop) (okev : event -> Prop) `{!Frame R okev}.

Lemma keeps_ret {A} (a : A) : keeps R (ret a).
Proof. intros s r s' [= <- <-]. apply frame_refl. Qed.

Lemma keeps_raise {A} (e : exn) : keeps R (@raise A e).
Proof. intros s r s' [= <- <-]. apply frame_refl. Qed.

Lemma keeps_lift {A} (x : result A) : keeps R (lift x).
Proof. intros s r s' [= <- <-]. apply frame_refl. Qed.

Lemma keeps_get_os : keeps R get_os.
Proof. intros s r s' [= <- <-]. apply frame_refl. Qed.

Lemma keeps_get_self : keeps R get_self.
Proof. intros s r s' [= <- <-]. apply frame_refl. Qed.

Lemma keeps_bind {A B} (m : M A) (k : A -> M B) :
  keeps R m -> (forall a, keeps R (k a)) -> keeps R (bind m k).
Proof.
  intros Hm Hk s r s' H. unfold bind in H.
  destruct (m s) as [[a|e] s1] eqn:E.
  - eapply frame_trans; [eapply Hm, E | eapply Hk, H].
  - injection H as <- <-. eapply Hm, E.
Qed.

Lemma keeps_for_each {A} (xs : list A) (body : A -> M unit) :
  (forall x, keeps R (body x)) -> keeps R (for_each xs body).
Proof.
  intros Hb. induction xs as [|x xs IH]; cbn [for_each].
  - apply keeps_ret.
  - apply keeps_bind; [apply Hb | intros _; exact IH].
Qed.

Lemma keeps_quiet (f : World -> World) :
  (forall w, trace (f w) = trace w) -> keeps R (modify_os f).
Proof.
  intros Hf s r s' [= <- <-].
  apply (frame_world s (f (os s)) []); [|constructor].
  now rewrite Hf, app_nil_r.
Qed.

Lemma keeps_log (e : event) : okev e -> keeps R (modify_os (log e)).
Proof.
  intros He s r s' [= <- <-].
  apply (frame_world s (log e (os s)) [e]); [reflexivity|].
  now constructor.
Qed.

Lemma keeps_set_session (sid : option string) : keeps R (Bitwarden.set_session sid).
Proof. intros s r s'. rewrite set_session_run. intros [= <- <-]. apply frame_session. Qed.

Lemma keeps_environ_set (key : string) (value : json) : keeps R (environ_set key value).
Proof.
  unfold environ_set. apply keeps_bind; [apply keeps_lift|]. intros v.
  destruct (has_nul v); [apply keeps_raise|]. now apply keeps_quiet.
Qed.

Lemma keeps_environ_del (key : string) : keeps R (environ_del key).
Proof.
  unfold environ_del. apply keeps_bind; [apply keeps_get_os|]. intros w.
  destruct (environ w !! key); [now apply keeps_quiet | apply keeps_raise].
Qed.

Lemma keeps_perform (command : list json) :
  (forall cmd env, as_strs command = Ok cmd -> okev (Spawn cmd env)) ->
  keeps R (performCommandLineOperation command).
Proof.
  intros Hok s r s' H. unfold performCommandLineOperation, bind, lift, get_os in H.
  destruct (as_strs command) as [cmd|e] eqn:E; [|injection H as <- <-; apply frame_refl].
  destruct (popen (os s) (spawned (os s)) cmd) as [code out err|e].
  - injection H as <- <-.
    apply (frame_world s _ [Spawn cmd (environ (os s))]); [reflexivity|].
    constructor; [now apply Hok | constructor].
  - injection H as <- <-. apply frame_refl.
Qed.

Lemma keeps_json_loads (b : bytes) : keeps R (json_loads b).
Proof. unfold json_loads. destruct (loads b); [apply keeps_ret | apply keeps_raise]. Qed.

Lemma keeps_decode_utf8 (b : bytes) : keeps R (decode_utf8 b).
Proof. unfold decode_utf8. destruct (decode b); [apply keeps_ret | apply keeps_raise]. Qed.

Lemma keeps_extract (stdout : bytes) :
  keeps R (Bitwarden.__extractSessionFromStdOut__ stdout).
Proof.
  unfold Bitwarden.__extractSessionFromStdOut__.
  apply keeps_bind; [apply keeps_decode_utf8|]. intros content.
  apply keeps_for_each. intros line. unfold Bitwarden.extract_line.
  destruct (contains "export" line); [|apply keeps_ret].
  destruct (index "="%char line); [apply keeps_set_session | apply keeps_raise].
Qed.

Lemma keeps_path_exists (p : string) : keeps R (path_exists p).
Proof. apply keeps_bind; [apply keeps_get_os | intros w; apply keeps_ret]. Qed.

Lemma keeps_path_isdir (p : string) : keeps R (path_isdir p).
Proof. apply keeps_bind; [apply keeps_get_os | intros w; apply keeps_ret]. Qed.

Lemma keeps_makedirs (p : string) : keeps R (makedirs p).
Proof.
  apply keeps_bind; [apply keeps_get_os | intros w].
  destruct (_ || _); [apply keeps_raise | now apply keeps_quiet].
Qed.

Lemma keeps_datetime_now : keeps R datetime_now.
Proof. apply keeps_bind; [apply keeps_get_os | intros w; apply keeps_ret]. Qed.

Lemma keeps_void {A} (m : M A) : keeps R m -> keeps R (void m).
Proof. intros H. apply keeps_bind; [exact H | intros _; apply keeps_ret]. Qed.

End FrameRules.

Create HintDb frames.

#[local] Hint Resolve keeps_ret keeps_raise keeps_lift keeps_get_os keeps_get_self
  keeps_set_session keeps_environ_set keeps_environ_del keeps_json_loads
  keeps_decode_utf8 keeps_extract keeps_path_exists keeps_path_isdir keeps_makedirs
  keeps_datetime_now keeps_quiet : frames.

(** One step of a frame proof: split a [bind], or take the branches of a
    test apart. *)
Ltac frame_step :=
  match goal with
  | |- Frame _ _ => typeclasses eauto
  | |- forall _, keeps _ _ => intros ?
  | |- keeps _ (bind _ _) => eapply keeps_bind
  | |- keeps _ (void _) => eapply keeps_void
  | |- keeps _ (for_each _ _) => eapply keeps_for_each
  | |- keeps _ (performCommandLineOperation _) => eapply keeps_perform
  | |- keeps _ (sleep _) => eapply keeps_log
  | |- keeps _ (print _) => eapply keeps_log
  | |- keeps _ (match ?x with _ => _ end) => destruct x eqn:?
  | |- keeps _ _ => solve [eauto with frames typeclass_instances]
  end.

Ltac frame := repeat frame_step.

(* ===================================================================== *)
(** * The stored server URL                                                *)
(* ===================================================================== *)

#[local] Instance same_serverUrl_frame : Frame same_serverUrl (fun _ => True).
Proof.
  split; unfold same_serverUrl.
  - reflexivity.
  - intros a b c Hab Hbc. now rewrite Hbc.
  - reflexivity.
  - reflexivity.
Qed.

Ltac url_frame := frame; try (intros; exact I).

Lemma status_same_serverUrl : keeps same_serverUrl Bitwarden.status.
Proof. unfold Bitwarden.status. url_frame. Qed.

Lemma serverUrl_setter_same_serverUrl (url : json) :
  keeps same_serverUrl (Bitwarden.serverUrl_setter url).
Proof.
  unfold Bitwarden.serverUrl_setter. pose proof status_same_serverUrl. url_frame.
Qed.

Lemma sync_same_serverUrl : keeps same_serverUrl Bitwarden.sync.
Proof. unfold Bitwarden.sync. url_frame. Qed.

Lemma loginWithPassword_same_serverUrl (u : json) (p : string) (n : Z) :
  keeps same_serverUrl (Bitwarden.loginWithPassword u p n).
Proof.
  unfold Bitwarden.loginWithPassword.
  pose proof status_same_serverUrl. pose proof sync_same_serverUrl.
  assert (forall k nr, keeps same_serverUrl (Bitwarden.loginWithPassword_loop u p k nr)).
  { induction k as [|k IH]; intros nr; cbn [Bitwarden.loginWithPassword_loop].
    - url_frame.
    - specialize (IH (nr + 1)). url_frame. }
  url_frame.
Qed.

Lemma loginWithApiKey_same_serverUrl (i k : json) (n : Z) :
  keeps same_serverUrl (Bitwarden.loginWithApiKey i k n).
Proof.
  unfold Bitwarden.loginWithApiKey. pose proof status_same_serverUrl.
  assert (forall k nr, keeps same_serverUrl (Bitwarden.loginWithApiKey_loop k nr)).
  { induction k0 as [|k0 IH]; intros nr; cbn [Bitwarden.loginWithApiKey_loop].
    - url_frame.
    - specialize (IH (nr + 1)). url_frame. }
  url_frame.
Qed.

Lemma exportPersonalVault_same_serverUrl (pa f : string) (p : option string) :
  keeps same_serverUrl (Bitwarden.exportPersonalVault pa f p).
Proof. unfold Bitwarden.exportPersonalVault. url_frame. Qed.

Lemma exportCollections_same_serverUrl (pa : string) (o : json) (f : string)
    (p : option string) :
  keeps same_serverUrl (Bitwarden.exportCollections pa o f p).
Proof. unfold Bitwarden.exportCollections. url_frame. Qed.

Lemma orgs_same_serverUrl : keeps same_serverUrl Bitwarden.orgs.
Proof. unfold Bitwarden.orgs. url_frame. Qed.

Lemma exportAll_same_serverUrl (d f : string) (p : option string) :
  keeps same_serverUrl (Bitwarden.exportAll d f p).
Proof.
  unfold Bitwarden.exportAll.
  pose proof status_same_serverUrl. pose proof orgs_same_serverUrl.
  pose proof exportPersonalVault_same_serverUrl.
  assert (forall l st ts, keeps same_serverUrl (Bitwarden.exportAll_loop l st d ts f p)).
  { induction l as [|org l IH]; intros st ts; cbn [Bitwarden.exportAll_loop].
    - url_frame.
    - pose proof exportCollections_same_serverUrl. specialize (IH st ts). url_frame. }
  url_frame.
Qed.

Lemma perform_call_same_serverUrl (c : call) : keeps same_serverUrl (perform_call c).
Proof.
  pose proof status_same_serverUrl. pose proof serverUrl_setter_same_serverUrl.
  pose proof sync_same_serverUrl. pose proof loginWithPassword_same_serverUrl.
  pose proof loginWithApiKey_same_serverUrl. pose proof exportAll_same_serverUrl.
  pose proof exportPersonalVault_same_serverUrl.
  pose proof exportCollections_same_serverUrl. pose proof orgs_same_serverUrl.
  destruct c; cbn [perform_call].
  all: try solve [url_frame].
  - unfold Bitwarden.serverUrl. url_frame.
  - unfold Bitwarden.isClientLatest. url_frame.
  - unfold Bitwarden.logout. url_frame.
  - unfold Bitwarden.unlock. url_frame.
  - unfold Bitwarden.lock. url_frame.
  - unfold Bitwarden.items. url_frame.
  - unfold Bitwarden.__getitem__. url_frame.
  - unfold Bitwarden.collections. url_frame.
Qed.

Lemma init_serverUrl (w : World) (b : Bitwarden) (loc : string) (url ca : json)
    (r : result unit) (s' : State) :
  Bitwarden.__init__ loc url ca (mkState w b) = (r, s') -> _serverUrl (self s') = None.
Proof.
  unfold Bitwarden.__init__. unfold bind at 1. cbn [put_self os self].
  set (s0 := mkState w (mkBitwarden None None loc)).
  intros H. change None with (_serverUrl (self s0)).
  revert H. generalize s0. intros s H. revert s r s' H.
  change (keeps same_serverUrl
    ((if ne ca JNull then environ_set "NODE_EXTRA_CA_CERTS" ca else ret tt) ;;;
     st <- Bitwarden.status ;;
     u <- lift (getitem st "serverUrl") ;;
     (if ne u url then Bitwarden.serverUrl_setter url else ret tt))).
  pose proof status_same_serverUrl. pose proof serverUrl_setter_same_serverUrl.
  url_frame.
Qed.

Lemma reachable_serverUrl (s : State) : reachable s -> _serverUrl (self s) = None.
Proof.
  induction 1 as [w b loc url ca s' H | s c r s' _ IH H | s w _ IH].
  - eapply init_serverUrl, H.
  - rewrite <- IH. eapply perform_call_same_serverUrl, H.
  - exact IH.
Qed.

(** C10: in every reachable state of a [Bitwarden] instance the stored
    server URL is [None], so the [serverUrl] property returns [None] (and
    changes nothing) whatever server was configured. *)
Theorem serverUrl_always_None (s : State) :
  reachable s -> Bitwarden.serverUrl s = (Ok None, s).
Proof.
  intros H. unfold Bitwarden.serverUrl, bind, get_self, ret.
  now rewrite (reachable_serverUrl s H).
Qed.

(** A concrete reachable state: the instance was configured for a server
    other than the one [bw] reported. *)
Lemma serverUrl_None_after_configuring :
  Bitwarden.serverUrl configured_state = (Ok None, configured_state).
Proof.
  apply serverUrl_always_None.
  apply (reachable_init (quiet_world logged_out_bw) (mkBitwarden None None "bw")
           "bw" (JStr "https://vault.example.org") JNull).
  vm_compute. reflexivity.
Defined.

(* ===================================================================== *)
(** * Names of the export files                                            *)
(* ===================================================================== *)

Lemma append_assoc (a b c : string) : ((a ++ b) ++ c = a ++ (b ++ c))%string.
Proof.
  induction a as [|x a IH]; [reflexivity|].
  change (String x ((a ++ b) ++ c) = String x (a ++ (b ++ c)))%string.
  now rewrite IH.
Qed.

Lemma extension_no_dot (f : string) : index "."%char f = None -> extension f = None.
Proof.
  induction f as [|c f IH]; [reflexivity|]. cbn [index extension].
  destruct (Ascii.eqb c "."%char); [discriminate|].
  destruct (index "."%char f); [discriminate|]. intros _. now rewrite IH.
Qed.

Lemma extension_app (pre f : string) :
  index "."%char f = None -> extension (pre ++ "." ++ f) = Some f.
Proof.
  intros H. induction pre as [|c pre IH].
  - change (extension (String "."%char f) = Some f). cbn [extension].
    now rewrite (extension_no_dot f H).
  - change (extension (String c (pre ++ "." ++ f)) = Some f). cbn [extension].
    now rewrite IH.
Qed.

Lemma extension_path_join (dir name f : string) :
  index "."%char f = None -> extension (path_join dir (name ++ "." ++ f)) = Some f.
Proof.
  intros H. unfold path_join.
  destruct (String.prefix "/" (name ++ "." ++ f)); [now apply extension_app|].
  destruct (_ || _).
  - rewrite <- (append_assoc dir name). now apply extension_app.
  - rewrite <- (append_assoc dir "/"), <- (append_assoc (dir ++ "/") name).
    now apply extension_app.
Qed.

Lemma known_format_In (format : string) :
  Bitwarden.known_format format = true ->
  In format ["json"; "encrypted_json"; "csv"] /\ index "."%char format = None.
Proof.
  unfold Bitwarden.known_format. cbn [existsb]. intros H.
  apply orb_prop in H as [H|H]; [apply String.eqb_eq in H; subst; cbn; auto|].
  apply orb_prop in H as [H|H]; [apply String.eqb_eq in H; subst; cbn; auto|].
  apply orb_prop in H as [H|H]; [apply String.eqb_eq in H; subst; cbn; auto|].
  discriminate.
Qed.

Lemma personal_filename_extension (dir : string) (email : json) (ts format : string) :
  index "."%char format = None ->
  extension (path_join dir (Bitwarden.personal_filename email ts format)) = Some format.
Proof.
  intros H. unfold Bitwarden.personal_filename.
  rewrite <- (append_assoc (str email) "-" _), <- (append_assoc _ ts _).
  now apply extension_path_join.
Qed.

Lemma org_filename_extension (dir : string) (email name : json) (ts format : string) :
  index "."%char format = None ->
  extension (path_join dir (Bitwarden.org_filename email name ts format)) = Some format.
Proof.
  intros H. unfold Bitwarden.org_filename.
  rewrite <- (append_assoc (str email) "-" _), <- (append_assoc _ (str name) _),
    <- (append_assoc _ "-" _), <- (append_assoc _ ts _).
  now apply extension_path_join.
Qed.

#[local] Instance extends_frame (okev : event -> Prop) : Frame (extends okev) okev.
Proof.
  split; unfold extends.
  - intros s. exists []. split; [now rewrite app_nil_r | constructor].
  - intros a b c (n1 & H1 & F1) (n2 & H2 & F2). exists (n1 ++ n2)%list. split.
    + now rewrite H2, H1, <- app_assoc.
    + now apply Forall_app.
  - intros s w' new H F. exists new. now split.
  - intros s sid. exists []. split; [now rewrite app_nil_r | constructor].
Qed.

Lemma as_strs_cons (x : string) (l : list json) (cmd : list string) :
  as_strs (JStr x :: l) = Ok cmd -> exists cmd', cmd = x :: cmd' /\ as_strs l = Ok cmd'.
Proof.
  cbn [as_strs as_str]. destruct (as_strs l) as [ss|e]; [|discriminate].
  intros [= <-]. now exists ss.
Qed.

(** Read the leading arguments of a command line off [as_strs]. *)
Ltac read_cmd H :=
  repeat match type of H with
         | context [match ?x with _ => _ end] => destruct x
         end;
  cbn [app] in H;
  repeat match type of H with
         | as_strs (JStr _ :: _) = Ok _ =>
             let E := fresh "E" in
             apply as_strs_cons in H as (? & E & H); rewrite E; clear E
         end.

(** A command line that is no [bw export] writes no export file. *)
Ltac no_export :=
  let H := fresh "H" in
  intros ? ? H; read_cmd H; try (cbn in H; injection H as <-); intros ? [=].

Lemma status_exports (format : string) :
  keeps (extends (exports_as format)) Bitwarden.status.
Proof. unfold Bitwarden.status. frame; no_export. Qed.

Lemma orgs_exports (format : string) :
  keeps (extends (exports_as format)) Bitwarden.orgs.
Proof. unfold Bitwarden.orgs. frame; no_export. Qed.

(** The command line of an export writes to [path]. *)
Ltac export_cmd :=
  let H := fresh "H" in
  let P := fresh "P" in
  intros ? ? H; read_cmd H; intros ? P; cbn in P; injection P as <-.

Lemma exportPersonalVault_exports (path format : string) (pw : option string) :
  (Bitwarden.known_format format = true -> extension path = Some format) ->
  keeps (extends (exports_as format)) (Bitwarden.exportPersonalVault path format pw).
Proof.
  intros Hext. unfold Bitwarden.exportPersonalVault. frame.
  all: match goal with
       | K : negb (Bitwarden.known_format _) = false |- _ =>
           apply negb_false_iff in K; pose proof (known_format_In _ K) as [? _];
           specialize (Hext K)
       end.
  all: export_cmd; now split.
Qed.

Lemma exportCollections_exports (path : string) (o : json) (format : string)
    (pw : option string) :
  (Bitwarden.known_format format = true -> extension path = Some format) ->
  keeps (extends (exports_as format)) (Bitwarden.exportCollections path o format pw).
Proof.
  intros Hext. unfold Bitwarden.exportCollections. frame.
  all: match goal with
       | K : negb (Bitwarden.known_format _) = false |- _ =>
           apply negb_false_iff in K; pose proof (known_format_In _ K) as [? _];
           specialize (Hext K)
       end.
  all: export_cmd; now split.
Qed.

Lemma exportAll_exports (dir format : string) (pw : option string) :
  keeps (extends (exports_as format)) (Bitwarden.exportAll dir format pw).
Proof.
  unfold Bitwarden.exportAll.
  pose proof (status_exports format). pose proof (orgs_exports format).
  assert (Hp : forall email ts,
    keeps (extends (exports_as format))
      (Bitwarden.exportPersonalVault
         (path_join dir (Bitwarden.personal_filename email ts format)) format pw)).
  { intros email ts. apply exportPersonalVault_exports. intros K.
    apply personal_filename_extension, (known_format_In _ K). }
  assert (Hc : forall email name ts o,
    keeps (extends (exports_as format))
      (Bitwarden.exportCollections
         (path_join dir (Bitwarden.org_filename email name ts format)) o format pw)).
  { intros email name ts o. apply exportCollections_exports. intros K.
    apply org_filename_extension, (known_format_In _ K). }
  assert (forall l st ts,
    keeps (extends (exports_as format)) (Bitwarden.exportAll_loop l st dir ts format pw)).
  { induction l as [|org l IH]; intros st ts; cbn [Bitwarden.exportAll_loop].
    - frame.
    - specialize (IH st ts). frame. }
  frame.
  all: intros ? [=].
Qed.

(** C6 (as amended): every export file that [exportAll] has [bw] write
    carries the format itself as its extension ([json], [csv] or
    [encrypted_json]). *)
Theorem exportAll_extension (dir format : string) (pw : option string)
    (s s' : State) (r : result bool) :
  Bitwarden.exportAll dir format pw s = (r, s') ->
  exists new,
    trace (os s') = (trace (os s) ++ new)%list /\
    forall path, In path (output_paths new) ->
      In format ["json"; "encrypted_json"; "csv"] /\ extension path = Some format.
Proof.
  intros H. destruct (exportAll_exports dir format pw s r s' H) as (new & Ht & F).
  exists new. split; [exact Ht|]. intros path Hin.
  unfold output_paths in Hin. apply list_elem_of_In, list_elem_of_omap in Hin.
  destruct Hin as (e & He & Hp).
  rewrite Forall_forall in F. exact (F e He path Hp).
Qed.

(** An unlocked vault with three organizations, exported as
    [encrypted_json]. *)
Lemma exportAll_extension_example :
  exists new,
    trace (os (snd (Bitwarden.exportAll "backups" "encrypted_json" (Some "pw")
                      (unlocked_state never))))
    = (trace (os (unlocked_state never)) ++ new)%list /\
    forall path, In path (output_paths new) ->
      In "encrypted_json" ["json"; "encrypted_json"; "csv"]
      /\ extension path = Some "encrypted_json".
Proof.
  apply (exportAll_extension "backups" "encrypted_json" (Some "pw")
           (unlocked_state never) _ (Ok true)).
  vm_compute. reflexivity.
Defined.

(** C6 as stated fails: the files of an [encrypted_json] export do not
    end in [.json]. *)
Lemma exportAll_encrypted_json_extension :
  ~ Forall (fun path => extension path = Some (spec_extension "encrypted_json"))
      (output_paths (trace (os (snd
         (Bitwarden.exportAll "backups" "encrypted_json" (Some "pw")
            (unlocked_state never)))))).
Proof.
  intros H. vm_compute in H. inversion H as [|? ? H1 _]. discriminate H1.
Qed.

(* ===================================================================== *)
(** * Validation of the export format                                      *)
(* ===================================================================== *)

Lemma unknown_format (format : string) :
  ~ In format ["json"; "csv"; "encrypted_json"] -> Bitwarden.known_format format = false.
Proof.
  intros H. unfold Bitwarden.known_format. cbn [existsb].
  destruct (String.eqb_spec format "json") as [->|_]; [exfalso; apply H; cbn; auto|].
  destruct (String.eqb_spec format "encrypted_json") as [->|_];
    [exfalso; apply H; cbn; auto|].
  destruct (String.eqb_spec format "csv") as [->|_]; [exfalso; apply H; cbn; auto|].
  reflexivity.
Qed.

(** C5 (as amended): with a format outside [json], [csv] and
    [encrypted_json], [exportPersonalVault] raises InvalidArguments when a
    session token is held, whatever the path; without a session token it
    returns [False] before it looks at the format. *)
Theorem exportPersonalVault_unknown_format (path format : string) (pw : option string)
    (s : State) :
  ~ In format ["json"; "csv"; "encrypted_json"] ->
  Bitwarden.exportPersonalVault path format pw s
  = (match _bw_session_id (self s) with
     | Some _ => Raise InvalidArgumentsException
     | None => Ok false
     end, s).
Proof.
  intros H. unfold Bitwarden.exportPersonalVault, bind, get_self.
  destruct (_bw_session_id (self s)); [|reflexivity].
  now rewrite (unknown_format format H).
Qed.

Lemma exportPersonalVault_xml :
  Bitwarden.exportPersonalVault "out.xml" "xml" None (unlocked_state never)
  = (Raise InvalidArgumentsException, unlocked_state never).
Proof.
  apply (exportPersonalVault_unknown_format "out.xml" "xml" None (unlocked_state never)).
  intros [H|[H|[H|[]]]]; discriminate H.
Defined.

(** C5 as stated fails: without a session token nothing is raised. *)
Lemma exportPersonalVault_xml_no_session :
  fst (Bitwarden.exportPersonalVault "out.xml" "xml" None (fresh (quiet_world no_answer)))
  <> Raise InvalidArgumentsException.
Proof. vm_compute. discriminate. Qed.

(* ===================================================================== *)
(** * Choice of the authenticator                                          *)
(* ===================================================================== *)

Lemma has_key_is_Some (key : string) (m : gmap string json) :
  has_key key m = true <-> is_Some (m !! key).
Proof. unfold has_key. apply bool_decide_eq_true. Qed.

Lemma authenticator_init_inv (cls : App.authenticator_class) (cfg : gmap string json)
    (url ca : json) (s s' : State) (a : App.authenticator) :
  App.authenticator__init__ cls cfg url ca s = (Ok a, s') ->
  a = App.mkAuthenticator cls cfg url.
Proof.
  unfold App.authenticator__init__, bind.
  destruct (Bitwarden.__init__ "bw" url ca s) as [[[]|e] s1]; [|discriminate].
  now intros [= <- _].
Qed.

(** C4 (as amended): the authenticator is of the API-key class exactly
    when the account configuration has both keys [client_id] and
    [client_secret], whatever their values; otherwise it is of the
    password class. *)
Theorem getAuthenticator_by_key_presence (acct_config : gmap string json)
    (server_url root_ca_path : json) (s s' : State) (a : App.authenticator) :
  App.getAuthenticator acct_config server_url root_ca_path s = (Ok a, s') ->
  App.account a = acct_config /\
  (App.class a = App.BitwardenApiKeyAuthenticator <->
     is_Some (acct_config !! "client_id") /\ is_Some (acct_config !! "client_secret")) /\
  (App.class a = App.BitwardenPasswordAuthenticator <->
     ~ (is_Some (acct_config !! "client_id") /\ is_Some (acct_config !! "client_secret"))).
Proof.
  unfold App.getAuthenticator. intros H.
  destruct (has_key "client_id" acct_config && has_key "client_secret" acct_config) eqn:E;
    apply authenticator_init_inv in H; subst a; cbn [App.account App.class].
  - apply andb_prop in E as [E1 E2]. apply has_key_is_Some in E1, E2.
    split; [reflexivity|]. split; [tauto|]. split; [discriminate | tauto].
  - assert (N : ~ (is_Some (acct_config !! "client_id")
                   /\ is_Some (acct_config !! "client_secret"))).
    { intros [H1 H2]. apply has_key_is_Some in H1, H2. rewrite H1, H2 in E. discriminate. }
    split; [reflexivity|]. split; [split; [discriminate | tauto] | tauto].
Qed.

Lemma getAuthenticator_example :
  App.account (App.mkAuthenticator App.BitwardenApiKeyAuthenticator empty_api_key_account
                 (JStr "https://vault.example.org")) = empty_api_key_account /\
  (App.BitwardenApiKeyAuthenticator = App.BitwardenApiKeyAuthenticator <->
     is_Some (empty_api_key_account !! "client_id")
     /\ is_Some (empty_api_key_account !! "client_secret")) /\
  (App.BitwardenApiKeyAuthenticator = App.BitwardenPasswordAuthenticator <->
     ~ (is_Some (empty_api_key_account !! "client_id")
        /\ is_Some (empty_api_key_account !! "client_secret"))).
Proof.
  apply (getAuthenticator_by_key_presence empty_api_key_account
           (JStr "https://vault.example.org") JNull (fresh (quiet_world logged_out_bw))
           configured_state
           (App.mkAuthenticator App.BitwardenApiKeyAuthenticator empty_api_key_account
              (JStr "https://vault.example.org"))).
  vm_compute. reflexivity.
Defined.

(** C4 as stated fails: credentials that are present but empty select the
    API-key class. *)
Lemma getAuthenticator_empty_credentials :
  exists a,
    fst (App.getAuthenticator empty_api_key_account (JStr "https://vault.example.org")
           JNull (fresh (quiet_world logged_out_bw))) = Ok a /\
    App.class a = App.BitwardenApiKeyAuthenticator /\
    spec_nonempty "client_id" empty_api_key_account = false /\
    spec_nonempty "client_secret" empty_api_key_account = false.
Proof.
  eexists. split; [vm_compute; reflexivity|]. split; [reflexivity|].
  split; vm_compute; reflexivity.
Qed.

(* ===================================================================== *)
(** * Equality of vault items                                              *)
(* ===================================================================== *)

Lemma BitwardenItem_eq_run (x y : item) :
  BitwardenItem__eq__ x (Some y) = Ok (base_match (item_base x) (item_base y)).
Proof.
  unfold BitwardenItem__eq__, base_match, ne.
  destruct (eq (BitwardenItem.name _) _); [|reflexivity].
  destruct (eq (BitwardenItem.notes _) _); reflexivity.
Qed.

(** C8 (as amended): two items of the same class compare equal exactly
    when their name, their notes and the fields their class adds are
    equal; id and folder id are not compared. *)
Theorem item_eq_same_class :
  (forall a b : BitwardenLogin.t,
     __eq__ (Login a) (Some (Login b)) = Ok (login_match a b)) /\
  (forall a b : BitwardenCard.t,
     __eq__ (Card a) (Some (Card b)) = Ok (card_match a b)) /\
  (forall a b : BitwardenItem.t,
     __eq__ (Note a) (Some (Note b)) = Ok (base_match a b)).
Proof.
  split; [|split]; intros a b; cbn [__eq__].
  - unfold BitwardenLogin__eq__, login_match. rewrite BitwardenItem_eq_run.
    cbn [rbind item_base login_attr]. unfold ne.
    destruct (base_match _ _); [|reflexivity]. cbn [negb andb].
    destruct (eq (BitwardenLogin.username a) _); [|reflexivity].
    destruct (eq (BitwardenLogin.password a) _); [|reflexivity].
    destruct (eq (BitwardenLogin.totp a) _); reflexivity.
  - unfold BitwardenCard__eq__, card_match. rewrite BitwardenItem_eq_run.
    cbn [rbind item_base card_attr]. unfold ne.
    destruct (base_match _ _); [|reflexivity]. cbn [negb andb].
    destruct (eq (BitwardenCard.holder_name a) _); [|reflexivity].
    destruct (eq (BitwardenCard.brand a) _); [|reflexivity].
    destruct (eq (BitwardenCard.number a) _); [|reflexivity].
    destruct (eq (BitwardenCard.month a) _); [|reflexivity].
    destruct (eq (BitwardenCard.year a) _); [|reflexivity].
    destruct (eq (BitwardenCard.code a) _); reflexivity.
  - apply BitwardenItem_eq_run.
Qed.

(** On strings, [==] is equality. *)
Lemma eq_JStr (a b : string) : eq (JStr a) (JStr b) = true <-> a = b.
Proof. apply String.eqb_eq. Qed.

(** C8 as stated fails: two logins that differ in id and folder id
    compare equal although not all of their fields match. *)
Lemma login_eq_ignores_id :
  __eq__ (Login (login_with_id "1" "f1")) (Some (Login (login_with_id "2" "f2"))) = Ok true
  /\ spec_login_match (login_with_id "1" "f1") (login_with_id "2" "f2") = false.
Proof. split; vm_compute; reflexivity. Qed.

(* ===================================================================== *)
(** * Running the process invoker                                          *)
(* ===================================================================== *)

Lemma perform_run (command : list json) (cmd : list string) (s : State)
    (code : Z) (stdout stderr : bytes) :
  as_strs command = Ok cmd ->
  answer s 0 cmd = Exited code stdout stderr ->
  performCommandLineOperation command s = (Ok (code, stdout, stderr), spawn_step cmd s).
Proof.
  unfold answer. rewrite Nat.add_0_r. intros Hs Ha.
  unfold performCommandLineOperation, bind, lift, get_os. now rewrite Hs, Ha.
Qed.

Lemma perform_inv (command : list json) (s s' : State) (r : Z * bytes * bytes) :
  performCommandLineOperation command s = (Ok r, s') ->
  exists cmd, as_strs command = Ok cmd /\
    answer s 0 cmd = Exited (fst (fst r)) (snd (fst r)) (snd r) /\
    s' = spawn_step cmd s.
Proof.
  unfold answer. rewrite Nat.add_0_r.
  unfold performCommandLineOperation, bind, lift, get_os.
  destruct (as_strs command) as [cmd|e]; [|discriminate].
  destruct (popen (os s) (spawned (os s)) cmd) as [c o e|e] eqn:E; [|discriminate].
  intros [= <- <-]. now exists cmd.
Qed.

Lemma status_as_strs (b : Bitwarden) :
  as_strs match _bw_session_id b with
          | Some sid => ([JStr (_bw_app_location b); JStr "status"]
                           ++ [JStr "--session"; JStr sid])%list
          | None => [JStr (_bw_app_location b); JStr "status"]
          end = Ok (status_cmd b).
Proof. unfold status_cmd. destruct (_bw_session_id b); reflexivity. Qed.

Lemma status_inv (s s' : State) (st : json) :
  Bitwarden.status s = (Ok st, s') -> s' = spawn_step (status_cmd (self s)) s.
Proof.
  unfold Bitwarden.status. unfold bind at 1. cbn [get_self]. unfold bind.
  destruct (performCommandLineOperation _ s) as [[[[c o] e]|x] s1] eqn:E; [|discriminate].
  apply perform_inv in E as (cmd & Hc & _ & ->). rewrite status_as_strs in Hc.
  injection Hc as <-.
  destruct (c =? 0); [|now intros [= _ <-]].
  unfold json_loads. destruct (loads o); [now intros [= _ <-] | discriminate].
Qed.

Lemma failed_attempts_facts (cmd : list string) (k : nat) (nr : Z) (s : State) :
  popen (os (failed_attempts cmd k nr s)) = popen (os s) /\
  spawned (os (failed_attempts cmd k nr s)) = (spawned (os s) + k)%nat /\
  environ (os (failed_attempts cmd k nr s)) = environ (os s) /\
  self (failed_attempts cmd k nr s) = self s /\
  trace (os (failed_attempts cmd k nr s))
  = (trace (os s) ++ attempts_trace cmd (environ (os s)) k nr)%list.
Proof.
  revert nr s. induction k as [|k IH]; intros nr s; cbn [failed_attempts attempts_trace].
  - rewrite Nat.add_0_r, app_nil_r. auto.
  - destruct (IH (nr + 1) (sleep_step (half_seconds nr) (spawn_step cmd s)))
      as (H1 & H2 & H3 & H4 & H5).
    rewrite H1, H2, H3, H4, H5. cbn. rewrite <- !app_assoc. cbn.
    repeat split; try reflexivity. lia.
Qed.

Lemma answer_failed_attempts (cmd c : list string) (k i : nat) (nr : Z) (s : State) :
  answer (failed_attempts cmd k nr s) i c = answer s (k + i) c.
Proof.
  unfold answer. destruct (failed_attempts_facts cmd k nr s) as (-> & -> & _).
  f_equal. lia.
Qed.

(* ===================================================================== *)
(** * Login with a password                                                *)
(* ===================================================================== *)

Lemma loginWithPassword_loop_failures (u pw : string) (k rem : nat) (nr : Z) (s : State) :
  (forall i, (i < k)%nat -> fails (answer s i (login_cmd (self s) u pw))) ->
  Bitwarden.loginWithPassword_loop (JStr u) pw (k + rem) nr s
  = Bitwarden.loginWithPassword_loop (JStr u) pw rem (nr + Z.of_nat k)
      (failed_attempts (login_cmd (self s) u pw) k nr s).
Proof.
  revert nr s. induction k as [|k IH]; intros nr s H.
  - cbn [failed_attempts Nat.add]. now rewrite Z.add_0_r.
  - destruct (H O ltac:(lia)) as (c & o & e & Ha & Hc).
    cbn [Nat.add Bitwarden.loginWithPassword_loop failed_attempts].
    unfold bind at 1. cbn [get_self]. unfold bind at 1.
    erewrite (perform_run _ _ s c o e); [|reflexivity|exact Ha].
    apply Z.eqb_neq in Hc. rewrite Hc.
    unfold bind at 1, sleep. cbn [modify_os].
    change (mkState (log (Sleep (half_seconds nr))
                       (os (spawn_step (login_cmd (self s) u pw) s)))
              (self (spawn_step (login_cmd (self s) u pw) s)))
      with (sleep_step (half_seconds nr) (spawn_step (login_cmd (self s) u pw) s)).
    rewrite IH.
    + f_equal. lia.
    + intros i Hi. specialize (H (S i) ltac:(lia)).
      unfold answer in *. cbn in *. now rewrite Nat.add_succ_r in H.
Qed.

Lemma assigned_from_nonempty (content : string) (s : State) :
  export_lines content <> [] ->
  assigned_from (export_lines content) s = with_session (Some (last_token content)) s.
Proof.
  intros H. unfold assigned_from, last_token.
  destruct (last (export_lines content)) eqn:E; [reflexivity|].
  now apply last_None in E.
Qed.

Lemma sync_run (s : State) (sid : string) :
  _bw_session_id (self s) = Some sid ->
  spawns (answer s 0 (sync_cmd (self s) sid)) ->
  exists r, Bitwarden.sync s = (Ok r, spawn_step (sync_cmd (self s) sid) s).
Proof.
  intros Hsid (c & o & e & Ha). unfold Bitwarden.sync, bind at 1. cbn [get_self].
  rewrite Hsid. unfold bind.
  erewrite (perform_run _ _ s c o e); [|reflexivity|exact Ha].
  destruct (c =? 0); eexists; reflexivity.
Qed.

Lemma assigned_from_facts (ls : list string) (s : State) :
  os (assigned_from ls s) = os s /\
  _bw_app_location (self (assigned_from ls s)) = _bw_app_location (self s) /\
  _serverUrl (self (assigned_from ls s)) = _serverUrl (self s).
Proof. unfold assigned_from. now destruct (last ls). Qed.

Lemma session_after_same_self (content : string) (s1 s : State) :
  self s1 = self s -> session_after content s1 = session_after content s.
Proof.
  intros H. unfold session_after, assigned_from.
  destruct (last (export_lines content)); cbn; [reflexivity | now rewrite H].
Qed.

(** An attempt that exits with code 0: the token is extracted and [sync]
    runs in the state that results. *)
Lemma login_exit_0_run (u pw : string) (rem : nat) (nr : Z) (s : State)
    (out err : bytes) (content : string) :
  answer s 0 (login_cmd (self s) u pw) = Exited 0 out err ->
  decode out = Some content ->
  (forall line, In line (export_lines content) -> index "="%char line <> None) ->
  Bitwarden.loginWithPassword_loop (JStr u) pw (S rem) nr s
  = (Bitwarden.sync ;;; ret true)
      (assigned_from (export_lines content) (spawn_step (login_cmd (self s) u pw) s)).
Proof.
  intros Ha Hd Heq.
  cbn [Bitwarden.loginWithPassword_loop]. unfold bind at 1. cbn [get_self].
  unfold bind at 1.
  erewrite (perform_run _ _ s 0 out err); [|reflexivity|exact Ha].
  cbn [Z.eqb]. unfold bind at 1.
  now rewrite (extractSession_run out content _ Hd Heq).
Qed.

Lemma login_success_run (u pw : string) (rem : nat) (nr : Z) (s : State)
    (out err : bytes) (content : string) (sid : string) :
  answer s 0 (login_cmd (self s) u pw) = Exited 0 out err ->
  decode out = Some content ->
  (forall line, In line (export_lines content) -> index "="%char line <> None) ->
  session_after content s = Some sid ->
  spawns (answer s 1 (sync_cmd (self s) sid)) ->
  Bitwarden.loginWithPassword_loop (JStr u) pw (S rem) nr s
  = (Ok true,
     spawn_step (sync_cmd (self s) sid)
       (assigned_from (export_lines content) (spawn_step (login_cmd (self s) u pw) s))).
Proof.
  intros Ha Hd Heq Hsid Hsync.
  rewrite (login_exit_0_run u pw rem nr s out err content Ha Hd Heq).
  set (s2 := assigned_from _ _).
  destruct (assigned_from_facts (export_lines content)
              (spawn_step (login_cmd (self s) u pw) s)) as (Hos & Hloc & _).
  fold s2 in Hos, Hloc.
  assert (Hcmd : sync_cmd (self s2) sid = sync_cmd (self s) sid).
  { unfold sync_cmd. now rewrite Hloc. }
  destruct (sync_run s2 sid) as [r Hr].
  { rewrite <- Hsid. apply (session_after_same_self content (spawn_step _ s) s).
    reflexivity. }
  { rewrite Hcmd. unfold answer in *. rewrite Hos. cbn.
    replace (S (spawned (os s) + 0))%nat with (spawned (os s) + 1)%nat by lia.
    exact Hsync. }
  unfold bind. rewrite Hr, Hcmd. reflexivity.
Qed.

Lemma then_true_not_false {A B} (m : M A) (m' : M B) (s s' : State) :
  (m ;;; m' ;;; ret true) s <> (Ok false, s').
Proof.
  unfold bind. destruct (m s) as [[a|e] s1]; [|discriminate].
  destruct (m' s1) as [[b|e] s2]; discriminate.
Qed.

Lemma loginWithPassword_loop_false (u pw : string) (rem : nat) (nr : Z) (s s' : State) :
  Bitwarden.loginWithPassword_loop (JStr u) pw rem nr s = (Ok false, s') ->
  s' = failed_attempts (login_cmd (self s) u pw) rem nr s /\
  forall i, (i < rem)%nat -> fails (answer s i (login_cmd (self s) u pw)).
Proof.
  revert nr s. induction rem as [|rem IH]; intros nr s H.
  - injection H as <-. split; [reflexivity | intros i Hi; lia].
  - cbn [Bitwarden.loginWithPassword_loop] in H. unfold bind at 1 in H.
    cbn [get_self] in H. unfold bind at 1 in H.
    destruct (performCommandLineOperation _ s) as [[[[c o] e]|x] s1] eqn:E;
      [|discriminate].
    apply perform_inv in E as (cmd & Hc & Ha & ->). injection Hc as <-.
    cbn [fst snd] in Ha.
    destruct (c =? 0) eqn:Ec; [now apply then_true_not_false in H|].
    unfold bind at 1, sleep in H. cbn [modify_os] in H.
    apply IH in H as [-> Hf]. split; [reflexivity|].
    intros [|i] Hi.
    + exists c, o, e. split; [exact Ha | now apply Z.eqb_neq].
    + specialize (Hf i ltac:(lia)). unfold answer in *. cbn in Hf.
      now rewrite Nat.add_succ_r.
Qed.

Lemma answer_spawn_step (cmd c : list string) (i : nat) (s : State) :
  answer (spawn_step cmd s) i c = answer s (S i) c.
Proof. unfold answer. cbn. now rewrite Nat.add_succ_r. Qed.

Lemma login_without_session_run (u pw : string) (rem : nat) (nr : Z) (s : State)
    (out err : bytes) (content : string) :
  answer s 0 (login_cmd (self s) u pw) = Exited 0 out err ->
  decode out = Some content ->
  (forall line, In line (export_lines content) -> index "="%char line <> None) ->
  session_after content s = None ->
  Bitwarden.loginWithPassword_loop (JStr u) pw (S rem) nr s
  = (Raise VaultNotUnlockedException, spawn_step (login_cmd (self s) u pw) s).
Proof.
  intros Ha Hd Heq Hsid.
  rewrite (login_exit_0_run u pw rem nr s out err content Ha Hd Heq).
  unfold session_after, assigned_from in *.
  destruct (last (export_lines content)); [discriminate Hsid|].
  unfold bind at 1, Bitwarden.sync. unfold bind at 1. cbn [get_self spawn_step self].
  now rewrite Hsid.
Qed.

(** C3 (as amended): from status Unauthenticated, when the first [k]
    login attempts fail and attempt [k + 1 <= retry_count] exits with code
    0, the login process is spawned [k + 1] times and attempt [i] is
    followed by a sleep of [0.5 * i] seconds for [i = 1 .. k]; the call
    then returns [True], after [bw sync], if the instance holds a session
    token once the output has been read (the token of its last line with
    [export], or else one held from before), and raises VaultNotUnlocked
    if it holds none.  [False] is returned only after [retry_count]
    attempts that all failed, each followed by its sleep. *)
Theorem loginWithPassword_retry (u pw : string) (retry_count : Z) (s : State) :
  let login := login_cmd (self s) u pw in
  let env := environ (os s) in
  (forall st s1 k stdout stderr content,
     Bitwarden.status s = (Ok st, s1) ->
     getitem st "status" = Ok (JStr "unauthenticated") ->
     (k < Z.to_nat retry_count)%nat ->
     (forall i, (1 <= i <= k)%nat -> fails (answer s i login)) ->
     answer s (S k) login = Exited 0 stdout stderr ->
     decode stdout = Some content ->
     (forall line, In line (export_lines content) -> index "="%char line <> None) ->
     let attempts :=
       (trace (os s) ++ Spawn (status_cmd (self s)) env
          :: attempts_trace login env k 1 ++ [Spawn login env])%list in
     (forall sid,
        session_after content s = Some sid ->
        spawns (answer s (S (S k)) (sync_cmd (self s) sid)) ->
        exists s',
          Bitwarden.loginWithPassword (JStr u) pw retry_count s = (Ok true, s') /\
          trace (os s') = (attempts ++ [Spawn (sync_cmd (self s) sid) env])%list) /\
     (session_after content s = None ->
      exists s',
        Bitwarden.loginWithPassword (JStr u) pw retry_count s
        = (Raise VaultNotUnlockedException, s') /\
        trace (os s') = attempts)) /\
  (forall s',
     Bitwarden.loginWithPassword (JStr u) pw retry_count s = (Ok false, s') ->
     (forall i, (1 <= i <= Z.to_nat retry_count)%nat -> fails (answer s i login)) /\
     trace (os s')
     = (trace (os s) ++ Spawn (status_cmd (self s)) env
          :: attempts_trace login env (Z.to_nat retry_count) 1)%list).
Proof.
  intros login env. split.
  - intros st s1 k out err content Hst Hget Hk Hfail Hok Hd Heq attempts.
    pose proof (status_inv _ _ _ Hst) as ->.
    set (s1 := spawn_step (status_cmd (self s)) s) in *.
    assert (Hrun : Bitwarden.loginWithPassword (JStr u) pw retry_count s
                   = Bitwarden.loginWithPassword_loop (JStr u) pw
                       (S (Z.to_nat retry_count - k - 1)) (1 + Z.of_nat k)
                       (failed_attempts login k 1 s1)).
    { unfold Bitwarden.loginWithPassword. unfold bind at 1. rewrite Hst.
      unfold bind at 1, lift. rewrite Hget.
      change (ne (JStr "unauthenticated") (JStr "unauthenticated")) with false. cbv iota.
      replace (Z.to_nat retry_count) with (k + S (Z.to_nat retry_count - k - 1))%nat
        at 1 by lia.
      rewrite loginWithPassword_loop_failures; [reflexivity|].
      intros i Hi. unfold s1. rewrite answer_spawn_step. apply Hfail. lia. }
    set (s2 := failed_attempts login k 1 s1) in *.
    destruct (failed_attempts_facts login k 1 s1) as (F1 & F2 & F3 & F4 & F5).
    fold s2 in F1, F2, F3, F4, F5.
    assert (Hself : self s2 = self s) by (rewrite F4; reflexivity).
    assert (Ha : answer s2 0 (login_cmd (self s2) u pw) = Exited 0 out err).
    { rewrite Hself. unfold s2. rewrite answer_failed_attempts.
      unfold s1. rewrite answer_spawn_step. now rewrite Nat.add_0_r. }
    assert (Htr : trace (os (spawn_step (login_cmd (self s2) u pw) s2)) = attempts).
    { cbn. rewrite F5, F3, Hself. unfold attempts. cbn.
      rewrite <- !app_assoc. reflexivity. }
    rewrite Hrun. split.
    + intros sid Hsid Hsync.
      erewrite (login_success_run u pw _ _ s2 out err content sid); try assumption.
      * eexists. split; [reflexivity|].
        destruct (assigned_from_facts (export_lines content)
                    (spawn_step (login_cmd (self s2) u pw) s2)) as (Hos & _).
        cbn [spawn_step os trace log count_spawn]. rewrite Hos, Htr.
        cbn [spawn_step os environ log count_spawn]. now rewrite F3, Hself.
      * now rewrite (session_after_same_self content s2 s Hself).
      * rewrite Hself. unfold s2. rewrite answer_failed_attempts.
        unfold s1. rewrite answer_spawn_step.
        now replace (S (k + 1)) with (S (S k)) by lia.
    + intros Hsid.
      erewrite (login_without_session_run u pw _ _ s2 out err content); try assumption.
      * eexists. split; [reflexivity | exact Htr].
      * now rewrite (session_after_same_self content s2 s Hself).
  - intros s' H. unfold Bitwarden.loginWithPassword in H. unfold bind at 1 in H.
    destruct (Bitwarden.status s) as [[st|e] s1] eqn:Hst; [|discriminate].
    pose proof (status_inv _ _ _ Hst) as ->.
    unfold bind at 1, lift in H.
    destruct (getitem st "status") as [v|e]; [|discriminate].
    destruct (ne v (JStr "unauthenticated")); [discriminate|].
    apply loginWithPassword_loop_false in H as [-> Hf]. split.
    + intros i Hi. destruct i as [|i]; [lia|].
      specialize (Hf i ltac:(lia)). now rewrite answer_spawn_step in Hf.
    + destruct (failed_attempts_facts (login_cmd (self (spawn_step (status_cmd (self s)) s)) u pw)
                  (Z.to_nat retry_count) 1 (spawn_step (status_cmd (self s)) s))
        as (_ & _ & _ & _ & F5).
      rewrite F5. cbn. now rewrite <- app_assoc.
Qed.

(** Attempts 1 and 2 fail, attempt 3 succeeds and prints the session. *)
Lemma loginWithPassword_third_attempt :
  exists s',
    Bitwarden.loginWithPassword (JStr "a@b.c") "pw" 3 (logged_out example_stdout)
    = (Ok true, s') /\
    trace (os s')
    = [Spawn ["bw"; "status"] ∅;
       Spawn ["bw"; "login"; "a@b.c"; "pw"] ∅; Sleep (1 # 2);
       Spawn ["bw"; "login"; "a@b.c"; "pw"] ∅; Sleep (1 # 1);
       Spawn ["bw"; "login"; "a@b.c"; "pw"] ∅;
       Spawn ["bw"; "sync"; "--session"; "abc123"] ∅].
Proof.
  refine (proj1 (proj1 (loginWithPassword_retry "a@b.c" "pw" 3 (logged_out example_stdout))
                   (status_document "https://vault.example.org" "unauthenticated" None)
                   (snd (Bitwarden.status (logged_out example_stdout)))
                   2%nat (text_output example_stdout) (text_output EmptyString)
                   example_stdout _ _ _ _ _ _ _)
            "abc123" _ _).
  - vm_compute. reflexivity.
  - vm_compute. reflexivity.
  - vm_compute. lia.
  - intros i Hi. destruct i as [|[|[|i]]]; try lia.
    + exists 1, (text_output EmptyString),
        (text_output "Username or password is incorrect.").
      split; [vm_compute; reflexivity | discriminate].
    + exists 1, (text_output EmptyString),
        (text_output "Username or password is incorrect.").
      split; [vm_compute; reflexivity | discriminate].
  - vm_compute. reflexivity.
  - reflexivity.
  - vm_compute. intros line [<-|[]]. discriminate.
  - vm_compute. reflexivity.
  - exists 0, (text_output EmptyString), (text_output EmptyString).
    vm_compute. reflexivity.
Defined.

(** In that run the login process was spawned three times and the sleeps
    were of 0.5 and 1.0 seconds. *)
Example loginWithPassword_third_attempt_counts :
  let tr := trace (os (snd (Bitwarden.loginWithPassword (JStr "a@b.c") "pw" 3
                              (logged_out example_stdout)))) in
  spawn_count ["bw"; "login"; "a@b.c"; "pw"] tr = 3%nat /\ sleeps tr = [1 # 2; 1 # 1]%Q.
Proof. vm_compute. split; reflexivity. Qed.

(** C3 as stated fails: attempt 3 exits with code 0 but prints no session,
    and the call raises instead of returning [True]. *)
Lemma loginWithPassword_success_without_session :
  fst (Bitwarden.loginWithPassword (JStr "a@b.c") "pw" 3 (logged_out "You are logged in!"))
  = Raise VaultNotUnlockedException /\
  fst (Bitwarden.loginWithPassword (JStr "a@b.c") "pw" 3 (logged_out "You are logged in!"))
  <> Ok true.
Proof. split; vm_compute; [reflexivity | discriminate]. Qed.

(** With a token held from an earlier login the same output makes the call
    return [True], after a [bw sync] with that token. *)
Example loginWithPassword_keeps_earlier_session :
  let s := with_session (Some "old") (logged_out "You are logged in!") in
  fst (Bitwarden.loginWithPassword (JStr "a@b.c") "pw" 3 s) = Ok true /\
  last (trace (os (snd (Bitwarden.loginWithPassword (JStr "a@b.c") "pw" 3 s))))
  = Some (Spawn ["bw"; "sync"; "--session"; "old"] ∅).
Proof. vm_compute. split; reflexivity. Qed.

Lemma login_no_session_run (u pw : string) (rem : nat) (nr : Z) (s : State)
    (out err : bytes) (content : string) :
  _bw_session_id (self s) = None ->
  answer s 0 (login_cmd (self s) u pw) = Exited 0 out err ->
  decode out = Some content ->
  export_lines content = [] ->
  Bitwarden.loginWithPassword_loop (JStr u) pw (S rem) nr s
  = (Raise VaultNotUnlockedException, spawn_step (login_cmd (self s) u pw) s).
Proof.
  intros Hsid Ha Hd Hnone.
  cbn [Bitwarden.loginWithPassword_loop]. unfold bind at 1. cbn [get_self].
  unfold bind at 1.
  erewrite (perform_run _ _ s 0 out err); [|reflexivity|exact Ha].
  cbn [Z.eqb]. unfold bind at 1.
  rewrite (extractSession_no_export_line out content _ Hd Hnone).
  unfold bind at 1, Bitwarden.sync. unfold bind at 1. cbn [get_self spawn_step self].
  now rewrite Hsid.
Qed.

(** C9: from status Unauthenticated and with no session token held, when
    the first login attempt that exits with code 0 prints no line with
    [export], [loginWithPassword] does not return: VaultNotUnlocked, which
    [sync] raises, propagates, and the token is still unset. *)
Theorem loginWithPassword_no_export_line (u pw : string) (retry_count : Z) (s s1 : State)
    (st : json) (k : nat) (stdout stderr : bytes) (content : string) :
  Bitwarden.status s = (Ok st, s1) ->
  getitem st "status" = Ok (JStr "unauthenticated") ->
  _bw_session_id (self s) = None ->
  (k < Z.to_nat retry_count)%nat ->
  (forall i, (1 <= i <= k)%nat -> fails (answer s i (login_cmd (self s) u pw))) ->
  answer s (S k) (login_cmd (self s) u pw) = Exited 0 stdout stderr ->
  decode stdout = Some content ->
  export_lines content = [] ->
  exists s',
    Bitwarden.loginWithPassword (JStr u) pw retry_count s
    = (Raise VaultNotUnlockedException, s') /\
    _bw_session_id (self s') = None.
Proof.
  intros Hst Hget Hsid Hk Hfail Hok Hd Hnone.
  pose proof (status_inv _ _ _ Hst) as ->.
  set (s1 := spawn_step (status_cmd (self s)) s) in *.
  unfold Bitwarden.loginWithPassword. unfold bind at 1. rewrite Hst.
  unfold bind at 1, lift. rewrite Hget.
  change (ne (JStr "unauthenticated") (JStr "unauthenticated")) with false. cbv iota.
  replace (Z.to_nat retry_count) with (k + S (Z.to_nat retry_count - k - 1))%nat by lia.
  rewrite loginWithPassword_loop_failures.
  2:{ intros i Hi. unfold s1. rewrite answer_spawn_step. apply Hfail. lia. }
  change (login_cmd (self s1) u pw) with (login_cmd (self s) u pw).
  set (s2 := failed_attempts (login_cmd (self s) u pw) k 1 s1).
  destruct (failed_attempts_facts (login_cmd (self s) u pw) k 1 s1)
    as (F1 & F2 & F3 & F4 & F5).
  fold s2 in F1, F2, F3, F4, F5.
  assert (Hself : self s2 = self s) by (rewrite F4; reflexivity).
  erewrite (login_no_session_run u pw _ _ s2 stdout stderr content); try assumption.
  - eexists. split; [reflexivity|]. cbn. now rewrite Hself.
  - now rewrite Hself.
  - rewrite Hself. unfold s2. rewrite answer_failed_attempts.
    unfold s1. rewrite answer_spawn_step. now rewrite Nat.add_0_r.
Qed.

Lemma loginWithPassword_no_export_line_example :
  exists s',
    Bitwarden.loginWithPassword (JStr "a@b.c") "pw" 5 (logged_out "You are logged in!")
    = (Raise VaultNotUnlockedException, s') /\
    _bw_session_id (self s') = None.
Proof.
  apply (loginWithPassword_no_export_line "a@b.c" "pw" 5 (logged_out "You are logged in!")
           (snd (Bitwarden.status (logged_out "You are logged in!")))
           (status_document "https://vault.example.org" "unauthenticated" None)
           2%nat (text_output "You are logged in!") (text_output EmptyString)
           "You are logged in!").
  - vm_compute. reflexivity.
  - vm_compute. reflexivity.
  - reflexivity.
  - vm_compute. lia.
  - intros i Hi. destruct i as [|[|[|i]]]; try lia.
    + exists 1, (text_output EmptyString),
        (text_output "Username or password is incorrect.").
      split; [vm_compute; reflexivity | discriminate].
    + exists 1, (text_output EmptyString),
        (text_output "Username or password is incorrect.").
      split; [vm_compute; reflexivity | discriminate].
  - vm_compute. reflexivity.
  - reflexivity.
  - vm_compute. reflexivity.
Defined.

(* ===================================================================== *)
(** * Login with an API key                                                *)
(* ===================================================================== *)

Lemma loginWithApiKey_loop_inv (rem : nat) (nr : Z) (s s' : State) (r : bool) :
  Bitwarden.loginWithApiKey_loop rem nr s = (Ok r, s') ->
  environ (os s') = environ (os s) /\
  exists new,
    trace (os s') = (trace (os s) ++ new)%list /\
    Forall (attempt_event (apikey_cmd (self s)) (environ (os s))) new.
Proof.
  revert nr s. induction rem as [|rem IH]; intros nr s H.
  - injection H as _ <-. split; [reflexivity|]. exists []. split; [|constructor].
    now rewrite app_nil_r.
  - cbn [Bitwarden.loginWithApiKey_loop] in H. unfold bind at 1 in H.
    cbn [get_self] in H. unfold bind at 1 in H.
    destruct (performCommandLineOperation _ s) as [[[[c o] e]|x] s1] eqn:E;
      [|discriminate].
    apply perform_inv in E as (cmd & Hc & _ & ->). injection Hc as <-.
    destruct (c =? 0).
    + injection H as _ <-. split; [reflexivity|].
      exists [Spawn (apikey_cmd (self s)) (environ (os s))]. split; [reflexivity|].
      constructor; [now left | constructor].
    + unfold bind at 1, sleep in H. cbn [modify_os] in H.
      apply IH in H as (He & new & Ht & F). split; [exact He|].
      exists (Spawn (apikey_cmd (self s)) (environ (os s))
                :: Sleep (half_seconds nr) :: new).
      split.
      * rewrite Ht. cbn. now rewrite <- !app_assoc.
      * constructor; [now left|]. constructor; [right; now eexists | exact F].
Qed.

Lemma environ_set_inv (key value : string) (s s' : State) :
  environ_set key (JStr value) s = (Ok tt, s') ->
  s' = mkState (set_environ (<[key := value]> (environ (os s))) (os s)) (self s).
Proof.
  unfold environ_set, bind, lift. cbn [as_str].
  destruct (has_nul value); [discriminate|]. now intros [= <-].
Qed.

Lemma apikey_environ_removed (id sec : string) (env : gmap string string) :
  delete "BW_CLIENTSECRET" (delete "BW_CLIENTID" (apikey_environ id sec env))
  = delete "BW_CLIENTSECRET" (delete "BW_CLIENTID" env).
Proof.
  unfold apikey_environ. apply map_eq. intros k.
  destruct (decide (k = "BW_CLIENTSECRET")) as [->|N1];
    [now rewrite !lookup_delete_eq|].
  rewrite !(lookup_delete_ne _ "BW_CLIENTSECRET") by congruence.
  destruct (decide (k = "BW_CLIENTID")) as [->|N2];
    [now rewrite !lookup_delete_eq|].
  rewrite !(lookup_delete_ne _ "BW_CLIENTID") by congruence.
  rewrite lookup_insert_ne by congruence. now rewrite lookup_insert_ne by congruence.
Qed.

(** C7 (as amended): whenever [loginWithApiKey] returns, with [True] or
    with [False], every login attempt ran with [BW_CLIENTID] and
    [BW_CLIENTSECRET] set to the credentials (the status query before them
    ran without), and at the return both variables are absent from the
    environment, which is otherwise as it was before the call; it is the
    environment of before the call when neither variable was set then. *)
Theorem loginWithApiKey_environment (client_id client_secret : string)
    (retry_count : Z) (s s' : State) (r : bool) :
  Bitwarden.loginWithApiKey (JStr client_id) (JStr client_secret) retry_count s
  = (Ok r, s') ->
  let env := environ (os s) in
  environ (os s') = delete "BW_CLIENTSECRET" (delete "BW_CLIENTID" env) /\
  (env !! "BW_CLIENTID" = None -> env !! "BW_CLIENTSECRET" = None ->
   environ (os s') = env) /\
  exists attempts,
    trace (os s') = (trace (os s) ++ Spawn (status_cmd (self s)) env :: attempts)%list /\
    Forall (attempt_event (apikey_cmd (self s))
              (apikey_environ client_id client_secret env)) attempts.
Proof.
  intros H env. unfold Bitwarden.loginWithApiKey in H. unfold bind at 1 in H.
  destruct (Bitwarden.status s) as [[st|e] s1] eqn:Hst; [|discriminate].
  pose proof (status_inv _ _ _ Hst) as ->.
  unfold bind at 1, lift in H.
  destruct (getitem st "status") as [v|e]; [|discriminate].
  destruct (ne v (JStr "unauthenticated")); [discriminate|].
  unfold bind at 1 in H.
  destruct (environ_set "BW_CLIENTID" _ _) as [[[]|e] s2] eqn:E1; [|discriminate].
  apply environ_set_inv in E1. subst s2.
  unfold bind at 1 in H.
  destruct (environ_set "BW_CLIENTSECRET" _ _) as [[[]|e] s3] eqn:E2; [|discriminate].
  apply environ_set_inv in E2. subst s3.
  unfold bind at 1 in H.
  destruct (Bitwarden.loginWithApiKey_loop _ _ _) as [[b|e] s4] eqn:EL; [|discriminate].
  apply loginWithApiKey_loop_inv in EL as (He & new & Ht & F).
  cbn in He, Ht, F. fold env in He, Ht, F.
  change (<["BW_CLIENTSECRET":=client_secret]> (<["BW_CLIENTID":=client_id]> env))
    with (apikey_environ client_id client_secret env) in He, F.
  unfold environ_del in H. unfold bind at 1 in H. unfold bind at 1 in H.
  cbn [get_os] in H. rewrite He in H.
  unfold apikey_environ in H at 1.
  rewrite lookup_insert_ne in H by discriminate. rewrite lookup_insert_eq in H.
  cbn [modify_os] in H. unfold bind at 1 in H. unfold bind at 1 in H.
  cbn [get_os os environ set_environ] in H. rewrite He in H.
  rewrite lookup_delete_ne in H by discriminate.
  unfold apikey_environ in H at 1. rewrite lookup_insert_eq in H.
  cbn [modify_os os environ set_environ] in H. unfold ret in H.
  injection H as _ <-. cbn [os environ trace self].
  assert (Hfinal : delete "BW_CLIENTSECRET"
                     (delete "BW_CLIENTID" (apikey_environ client_id client_secret env))
                   = delete "BW_CLIENTSECRET" (delete "BW_CLIENTID" env))
    by apply apikey_environ_removed.
  split; [exact Hfinal|]. split.
  - intros N1 N2. rewrite Hfinal.
    rewrite (delete_id env "BW_CLIENTID" N1). exact (delete_id env "BW_CLIENTSECRET" N2).
  - exists new. split; [|exact F]. unfold set_environ. cbn [trace].
    rewrite Ht. now rewrite <- app_assoc.
Qed.

(** Two failed attempts and a third that succeeds, with credentials
    [cid] and [csec]. *)
Lemma loginWithApiKey_environment_example :
  environ (os (snd (Bitwarden.loginWithApiKey (JStr "cid") (JStr "csec") 5
                      (logged_out example_stdout))))
  = delete "BW_CLIENTSECRET"
      (delete "BW_CLIENTID" (environ (os (logged_out example_stdout)))) /\
  (environ (os (logged_out example_stdout)) !! "BW_CLIENTID" = None ->
   environ (os (logged_out example_stdout)) !! "BW_CLIENTSECRET" = None ->
   environ (os (snd (Bitwarden.loginWithApiKey (JStr "cid") (JStr "csec") 5
                       (logged_out example_stdout))))
   = environ (os (logged_out example_stdout))) /\
  exists attempts,
    trace (os (snd (Bitwarden.loginWithApiKey (JStr "cid") (JStr "csec") 5
                      (logged_out example_stdout))))
    = (trace (os (logged_out example_stdout))
       ++ Spawn (status_cmd (self (logged_out example_stdout)))
            (environ (os (logged_out example_stdout))) :: attempts)%list /\
    Forall (attempt_event (apikey_cmd (self (logged_out example_stdout)))
              (apikey_environ "cid" "csec" (environ (os (logged_out example_stdout)))))
      attempts.
Proof.
  apply (loginWithApiKey_environment "cid" "csec" 5 (logged_out example_stdout) _ true).
  vm_compute. reflexivity.
Defined.

(** C7 as stated fails: a [BW_CLIENTID] that the process had before the
    call is deleted with the one of the login, so the environment after the
    call is not the one before it. *)
Lemma loginWithApiKey_drops_preset_clientid :
  fst (Bitwarden.loginWithApiKey (JStr "cid") (JStr "csec") 3 preset_clientid) = Ok true /\
  environ (os preset_clientid) !! "BW_CLIENTID" = Some "mine" /\
  environ (os (snd (Bitwarden.loginWithApiKey (JStr "cid") (JStr "csec") 3
                      preset_clientid))) !! "BW_CLIENTID" = None /\
  environ (os (snd (Bitwarden.loginWithApiKey (JStr "cid") (JStr "csec") 3
                      preset_clientid)))
  <> environ (os preset_clientid).
Proof.
  split; [vm_compute; reflexivity|].
  split; [vm_compute; reflexivity|].
  split; [vm_compute; reflexivity|].
  intros H. apply (f_equal (fun m => m !! "BW_CLIENTID")) in H.
  vm_compute in H. discriminate H.
Qed.

(* ===================================================================== *)
(** * Export targets                                                       *)
(* ===================================================================== *)

Lemma bind_inv {A B} (m : M A) (k : A -> M B) (s s' : State) (b : B) :
  bind m k s = (Ok b, s') -> exists a s1, m s = (Ok a, s1) /\ k a s1 = (Ok b, s').
Proof.
  unfold bind. destruct (m s) as [[a|e] s1]; [|discriminate]. intros H. now exists a, s1.
Qed.

Lemma bind_cases {A B} (m : M A) (k : A -> M B) (s s' : State) (r : result B) :
  bind m k s = (r, s') ->
  (exists e, m s = (Raise e, s') /\ r = Raise e) \/
  (exists a s1, m s = (Ok a, s1) /\ k a s1 = (r, s')).
Proof.
  unfold bind. destruct (m s) as [[a|e] s1].
  - intros H. right. now exists a, s1.
  - intros [= <- <-]. left. now exists e.
Qed.

Lemma perform_cases (command : list json) (s s' : State) (r : result (Z * bytes * bytes)) :
  performCommandLineOperation command s = (r, s') ->
  (exists e, r = Raise e /\ s' = s) \/
  (exists cmd code out err,
      as_strs command = Ok cmd /\ answer s 0 cmd = Exited code out err /\
      r = Ok (code, out, err) /\ s' = spawn_step cmd s).
Proof.
  unfold answer. rewrite Nat.add_0_r.
  unfold performCommandLineOperation, bind, lift, get_os.
  destruct (as_strs command) as [cmd|e]; [|intros [= <- <-]; left; eauto].
  destruct (popen (os s) (spawned (os s)) cmd) as [c o e|e] eqn:E.
  - intros [= <- <-]. right. now exists cmd, c, o, e.
  - intros [= <- <-]. left. eauto.
Qed.

(** An export either raises before it spawns anything, or spawns [bw
    export] once and returns whether the exit code was 0. *)
Lemma exportPersonalVault_cases (path format : string) (pw : option string)
    (s s' : State) (r : result bool) :
  is_Some (_bw_session_id (self s)) ->
  Bitwarden.exportPersonalVault path format pw s = (r, s') ->
  (exists e, r = Raise e /\ s' = s) \/
  (exists cmd code out err,
      answer s 0 cmd = Exited code out err /\ r = Ok (code =? 0) /\
      s' = spawn_step cmd s /\
      forall env, export_target (Spawn cmd env) = Some PersonalVault).
Proof.
  intros [sid Hs]. unfold Bitwarden.exportPersonalVault. unfold bind at 1.
  cbn [get_self]. rewrite Hs.
  destruct (negb _); [intros [= <- <-]; left; eauto|].
  destruct (_ && _); [intros [= <- <-]; left; eauto|].
  intros H. apply bind_cases in H as [(e & Hm & ->) | ([[c o] e] & s1 & Hm & H)].
  - apply perform_cases in Hm as [(e' & _ & ->) | (? & ? & ? & ? & _ & _ & [=] & _)].
    left. eauto.
  - apply perform_cases in Hm as [(e' & [=] & _) | (cmd & c' & o' & e' & Hc & Ha & [= <- <- <-] & ->)].
    right. exists cmd, c, o, e. split; [exact Ha|].
    split; [destruct (c =? 0); now injection H as <- _|].
    split; [destruct (c =? 0); now injection H as _ <-|].
    intros env. read_cmd Hc. unfold Bitwarden.password_args in Hc.
    destruct pw as [p|]; [destruct (String.eqb p EmptyString)|];
      cbn in Hc; injection Hc as <-; reflexivity.
Qed.

Lemma exportCollections_cases (path : string) (oid : json) (format : string)
    (pw : option string) (s s' : State) (r : result bool) :
  is_Some (_bw_session_id (self s)) ->
  Bitwarden.exportCollections path oid format pw s = (r, s') ->
  (exists e, r = Raise e /\ s' = s) \/
  (exists cmd code out err,
      answer s 0 cmd = Exited code out err /\ r = Ok (code =? 0) /\
      s' = spawn_step cmd s /\
      forall env, export_target (Spawn cmd env) = Some (Organization (str oid))).
Proof.
  intros [sid Hs]. unfold Bitwarden.exportCollections. unfold bind at 1.
  cbn [get_self]. rewrite Hs.
  destruct (negb _); [intros [= <- <-]; left; eauto|].
  destruct (_ && _); [intros [= <- <-]; left; eauto|].
  intros H. apply bind_cases in H as [(e & Hm & ->) | ([[c o] e] & s1 & Hm & H)].
  - apply perform_cases in Hm as [(e' & _ & ->) | (? & ? & ? & ? & _ & _ & [=] & _)].
    left. eauto.
  - apply perform_cases in Hm as [(e' & [=] & _) | (cmd & c' & o' & e' & Hc & Ha & [= <- <- <-] & ->)].
    right. exists cmd, c, o, e. split; [exact Ha|].
    split; [destruct (c =? 0); now injection H as <- _|].
    split; [destruct (c =? 0); now injection H as _ <-|].
    intros env. read_cmd Hc.
    destruct oid as [| | |i| |]; try (cbn in Hc; discriminate Hc).
    apply as_strs_cons in Hc as (rest & -> & _). reflexivity.
Qed.

(** The listing spawns at most [bw list organizations], which exports
    nothing. *)
Lemma orgs_cases (s s' : State) (r : result (option (list BitwardenOrganization.t))) :
  Bitwarden.orgs s = (r, s') ->
  s' = s \/
  exists cmd, s' = spawn_step cmd s /\ spawns (answer s 0 cmd) /\
              forall env, export_target (Spawn cmd env) = None.
Proof.
  unfold Bitwarden.orgs. unfold bind at 1. cbn [get_self].
  destruct (_bw_session_id (self s)) as [sid|]; [|intros [= _ <-]; now left].
  intros H. apply bind_cases in H as [(e & Hm & ->) | ([[c o] e] & s1 & Hm & H)].
  - apply perform_cases in Hm as [(e' & _ & ->) | (? & ? & ? & ? & _ & _ & [=] & _)].
    now left.
  - apply perform_cases in Hm as [(e' & [=] & _) | (cmd & c' & o' & e' & Hc & Ha & [= <- <- <-] & ->)].
    right. exists cmd. split.
    + destruct (c =? 0); [|now injection H as _ <-].
      apply bind_cases in H as [(x & Hm & ->) | (v & s2 & Hm & H)].
      * unfold json_loads in Hm. destruct (loads o); now injection Hm as _ <-.
      * unfold json_loads in Hm. destruct (loads o); [|discriminate Hm].
        injection Hm as _ <-.
        apply bind_cases in H as [(x & Hm & ->) | (l & s3 & Hm & H)].
        -- unfold lift in Hm. now injection Hm as _ <-.
        -- unfold lift in Hm. injection Hm as _ <-. now injection H as _ <-.
    + split; [now exists c, o, e|].
      intros env. cbn in Hc. injection Hc as <-. reflexivity.
Qed.

Lemma processes_cons_spawn (cmd : list string) (env : gmap string string)
    (tr : list event) :
  processes (Spawn cmd env :: tr) = S (processes tr).
Proof. reflexivity. Qed.

Lemma failed_export_shift (cmd : list string) (env : gmap string string) (s : State)
    (pre : list event) (e : event) :
  failed_export s (Spawn cmd env :: pre) e <-> failed_export (spawn_step cmd s) pre e.
Proof.
  unfold failed_export. destruct e as [c v| |]; [|tauto|tauto].
  now rewrite processes_cons_spawn, answer_spawn_step.
Qed.

Lemma failed_export_same_answers (s1 s : State) (pre : list event) (e : event) :
  popen (os s1) = popen (os s) -> spawned (os s1) = spawned (os s) ->
  failed_export s1 pre e <-> failed_export s pre e.
Proof.
  intros Hp Hn. unfold failed_export, answer. now rewrite Hp, Hn.
Qed.

Lemma stops_nil (s : State) (r : result bool) : stops_at_failure s [] r.
Proof. intros [|x pre] e post E; discriminate E. Qed.

Lemma stops_last (s : State) (e : event) (r : result bool) :
  (failed_export s [] e -> r = Ok false) -> stops_at_failure s [e] r.
Proof.
  intros H pre x post E F. destruct pre as [|y pre].
  - injection E as <- <-. auto.
  - injection E as _ E. now destruct pre.
Qed.

Lemma stops_cons (cmd : list string) (env : gmap string string) (s : State)
    (new : list event) (r : result bool) :
  ~ failed_export s [] (Spawn cmd env) ->
  stops_at_failure (spawn_step cmd s) new r ->
  stops_at_failure s (Spawn cmd env :: new) r.
Proof.
  intros Hn H pre e post E F. destruct pre as [|x pre].
  - injection E as <- <-. contradiction.
  - injection E as <- ->. apply (H pre e post eq_refl).
    now apply failed_export_shift in F.
Qed.

Lemma stops_same_answers (s1 s : State) (new : list event) (r : result bool) :
  popen (os s1) = popen (os s) -> spawned (os s1) = spawned (os s) ->
  stops_at_failure s1 new r -> stops_at_failure s new r.
Proof.
  intros Hp Hn H pre e post E F. apply (H pre e post E).
  now apply (failed_export_same_answers s1 s).
Qed.

Lemma ends_cons (cmd : list string) (env : gmap string string) (s : State)
    (new : list event) :
  ends_with_failure (spawn_step cmd s) new ->
  ends_with_failure s (Spawn cmd env :: new).
Proof.
  intros (pre & e & -> & F). exists (Spawn cmd env :: pre), e.
  split; [reflexivity|]. now apply failed_export_shift.
Qed.

Lemma ends_same_answers (s1 s : State) (new : list event) :
  popen (os s1) = popen (os s) -> spawned (os s1) = spawned (os s) ->
  ends_with_failure s1 new -> ends_with_failure s new.
Proof.
  intros Hp Hn (pre & e & -> & F). exists pre, e. split; [reflexivity|].
  now apply (failed_export_same_answers s1 s).
Qed.

Lemma not_failed_exit_0 (cmd : list string) (env : gmap string string) (s : State)
    (code : Z) (out err : bytes) :
  answer s 0 cmd = Exited code out err -> (code =? 0) = true ->
  ~ failed_export s [] (Spawn cmd env).
Proof.
  intros Ha Hc [_ (c & o & e & Hx & Hne)]. cbn [processes List.filter length] in Hx.
  rewrite Ha in Hx. injection Hx as <- _ _. apply Z.eqb_eq in Hc. contradiction.
Qed.

Lemma not_failed_no_target (s : State) (pre : list event) (e : event) :
  export_target e = None -> ~ failed_export s pre e.
Proof.
  intros Hn F. destruct e as [c v| |]; try exact F.
  destruct F as [[t Ht] _]. rewrite Hn in Ht. discriminate Ht.
Qed.

Lemma failed_exit (cmd : list string) (env : gmap string string) (s : State)
    (code : Z) (out err : bytes) (t : target) :
  answer s 0 cmd = Exited code out err -> (code =? 0) = false ->
  export_target (Spawn cmd env) = Some t ->
  failed_export s [] (Spawn cmd env).
Proof.
  intros Ha Hc Ht. split; [rewrite Ht; eauto|].
  exists code, out, err. split; [exact Ha|]. now apply Z.eqb_neq.
Qed.

(** The loop over the listing, whatever its outcome. *)
Lemma exportAll_loop_cases (l : list BitwardenOrganization.t) (st : json)
    (dir ts format : string) (pw : option string) (s s' : State) (r : result bool) :
  is_Some (_bw_session_id (self s)) ->
  Bitwarden.exportAll_loop l st dir ts format pw s = (r, s') ->
  exists new done,
    trace (os s') = (trace (os s) ++ new)%list /\
    done `prefix_of` selected l /\
    targets new = map organization_target done /\
    (r = Ok true -> done = selected l) /\
    (r = Ok false -> ends_with_failure s new) /\
    stops_at_failure s new r.
Proof.
  revert s. induction l as [|org l IH]; intros s Hs H;
    cbn [Bitwarden.exportAll_loop selected List.filter] in *.
  - injection H as <- <-. exists [], [].
    split; [now rewrite app_nil_r|]. split; [reflexivity|]. split; [reflexivity|].
    split; [reflexivity|]. split; [discriminate|]. apply stops_nil.
  - fold (selected l) in *.
    destruct (Bitwarden.owner_or_admin (BitwardenOrganization.type org));
      cbn [negb] in H; [|now apply IH].
    assert (Hraise : forall e, r = Raise e -> s' = s ->
              exists new done,
                trace (os s') = (trace (os s) ++ new)%list /\
                done `prefix_of` org :: selected l /\
                targets new = map organization_target done /\
                (r = Ok true -> done = org :: selected l) /\
                (r = Ok false -> ends_with_failure s new) /\
                stops_at_failure s new r).
    { intros e -> ->. exists [], [].
      split; [now rewrite app_nil_r|]. split; [apply prefix_nil|].
      split; [reflexivity|]. split; [discriminate|]. split; [discriminate|].
      apply stops_nil. }
    apply bind_cases in H as [(e & Hm & ->) | (email & s1 & Hm & H)].
    { unfold lift in Hm. injection Hm as _ <-. now apply (Hraise e). }
    unfold lift in Hm. injection Hm as _ <-.
    apply bind_cases in H as [(e & Hm & ->) | (ok & s2 & Hm & H)].
    { apply exportCollections_cases in Hm as [(e' & _ & ->) | (? & ? & ? & ? & _ & [=] & _)];
        [|exact Hs].
      now apply (Hraise e). }
    apply exportCollections_cases in Hm
      as [(e' & [=] & _) | (cmd & c & o & e & Ha & [= ->] & -> & Ht)]; [|exact Hs].
    destruct (c =? 0) eqn:Ec; cbn [negb] in H.
    + apply IH in H as (new & done & Hn & Hp & Htn & Htrue & Hfalse & Hstop);
        [|exact Hs].
      exists (Spawn cmd (environ (os s)) :: new), (org :: done).
      split; [rewrite Hn; cbn; now rewrite <- app_assoc|].
      split; [now apply prefix_cons|].
      split; [unfold targets in *; cbn [omap list_omap map]; rewrite Ht; now rewrite <- Htn|].
      split; [intros Hr; now rewrite (Htrue Hr)|].
      split; [intros Hr; apply ends_cons; auto|].
      apply stops_cons; [exact (not_failed_exit_0 _ _ _ _ _ _ Ha Ec) | exact Hstop].
    + injection H as <- <-.
      pose proof (failed_exit cmd (environ (os s)) s c o e _ Ha Ec (Ht _)) as F.
      exists [Spawn cmd (environ (os s))], [org].
      split; [reflexivity|].
      split; [apply prefix_cons, prefix_nil|].
      split; [unfold targets; cbn [omap list_omap map]; now rewrite Ht|].
      split; [discriminate|].
      split; [intros _; now exists [], (Spawn cmd (environ (os s)))|].
      now apply stops_last.
Qed.

Lemma makedirs_if_missing_cases (ex : bool) (dir : string) (s s1 : State)
    (r : result unit) :
  (if negb ex then makedirs dir else ret tt) s = (r, s1) ->
  trace (os s1) = trace (os s) /\ popen (os s1) = popen (os s) /\
  spawned (os s1) = spawned (os s) /\ environ (os s1) = environ (os s) /\
  self s1 = self s.
Proof.
  destruct (negb ex); [|now intros [= _ <-]].
  unfold makedirs, bind, get_os. destruct (_ || _); now intros [= _ <-].
Qed.

(** The status query spawns at most [bw status], which exports nothing. *)
Lemma status_cases (s s' : State) (r : result json) :
  Bitwarden.status s = (r, s') ->
  s' = s \/ (s' = spawn_step (status_cmd (self s)) s /\
             spawns (answer s 0 (status_cmd (self s)))).
Proof.
  unfold Bitwarden.status. unfold bind at 1. cbn [get_self].
  intros H. apply bind_cases in H as [(e & Hm & ->) | ([[c o] e] & s1 & Hm & H)].
  - apply perform_cases in Hm as [(e' & _ & ->) | (? & ? & ? & ? & _ & _ & [=] & _)].
    now left.
  - apply perform_cases in Hm as [(e' & [=] & _) | (cmd & c' & o' & e' & Hc & Ha & [= <- <- <-] & ->)].
    rewrite status_as_strs in Hc. injection Hc as <-. right.
    split; [|now exists c, o, e].
    destruct (c =? 0); [|now injection H as _ <-].
    unfold json_loads in H. destruct (loads o); now injection H as _ <-.
Qed.

Lemma status_cmd_no_target (b : Bitwarden) (env : gmap string string) :
  export_target (Spawn (status_cmd b) env) = None.
Proof. unfold status_cmd. destruct (_bw_session_id b); reflexivity. Qed.

Lemma owner_or_admin_roles (role : OrganizationUserTypes) :
  Bitwarden.owner_or_admin (JInt (OrganizationUserTypes_value role)) = true
  <-> role = OWNER \/ role = ADMIN.
Proof.
  destruct role; cbn; split; intros H; auto; try discriminate;
    destruct H as [H|H]; discriminate H.
Qed.

(** C1 (as amended): in every run of [exportAll] the exports that it has
    [bw] run are, in this order, the personal vault and then the
    organizations of the listing returned by [orgs] whose type is Owner or
    Admin, each once and in the order of the listing: an initial part of
    them in general and all of them when [exportAll] returns [True], which
    it does with a session token only; organizations of another type are
    never exported.  An export that exits with a code other than 0 is the
    last event of the run, which returns [False]; and [False] is returned
    only then, or before anything is exported when the session token is
    missing or [dir_path] is no directory. *)
Theorem exportAll_targets (dir format : string) (pw : option string) (s s' : State)
    (r : result bool) :
  Bitwarden.exportAll dir format pw s = (r, s') ->
  (forall role,
     Bitwarden.owner_or_admin (JInt (OrganizationUserTypes_value role)) = true
     <-> role = OWNER \/ role = ADMIN) /\
  exists new : list event,
    trace (os s') = (trace (os s) ++ new)%list /\
    (targets new = [] \/ targets new = [PersonalVault] \/
     exists listing done,
       listed s listing /\ done `prefix_of` selected listing /\
       targets new = PersonalVault :: map organization_target done) /\
    (r = Ok true ->
     is_Some (_bw_session_id (self s)) /\
     exists listing,
       listed s listing /\
       targets new = PersonalVault :: map organization_target (selected listing)) /\
    (r = Ok false ->
     (_bw_session_id (self s) = None /\ new = [Print "ERROR: BW Session Error"]) \/
     new = [Print "ERROR: Not directory"] \/
     ends_with_failure s new) /\
    stops_at_failure s new r.
Proof.
  intros H. split; [exact owner_or_admin_roles|].
  unfold Bitwarden.exportAll in H. unfold bind at 1 in H. cbn [get_self] in H.
  destruct (_bw_session_id (self s)) as [sid|] eqn:Es.
  2:{ unfold bind, print, modify_os, ret in H. injection H as <- <-.
      exists [Print "ERROR: BW Session Error"].
      split; [reflexivity|]. split; [now left|]. split; [discriminate|].
      split; [intros _; now left|]. apply stops_last. intros []. }
  assert (Hsome : is_Some (_bw_session_id (self s))) by eauto.
  apply bind_cases in H as [(e & Hm & ->) | (ex & sa & Hm & H)]; [discriminate Hm|].
  injection Hm as _ <-.
  apply bind_cases in H as [(e & Hm & ->) | ([] & sb & Hm & H)].
  { apply makedirs_if_missing_cases in Hm as (Tb & _).
    exists []. split; [now rewrite app_nil_r|]. split; [now left|].
    split; [discriminate|]. split; [discriminate|]. apply stops_nil. }
  apply makedirs_if_missing_cases in Hm as (Tb & Pb & Nb & Eb & Sb).
  assert (Hsb : is_Some (_bw_session_id (self sb))) by now rewrite Sb.
  apply bind_cases in H as [(e & Hm & ->) | (isd & sc & Hm & H)]; [discriminate Hm|].
  injection Hm as _ <-.
  destruct isd; cbn [negb] in H.
  2:{ unfold bind, print, modify_os, ret in H. injection H as <- <-.
      exists [Print "ERROR: Not directory"].
      split; [cbn; now rewrite Tb|]. split; [now left|]. split; [discriminate|].
      split; [intros _; right; now left|]. apply stops_last. intros []. }
  (* the status query *)
  set (env := environ (os sb)) in *.
  assert (Hst0 : forall c, ~ failed_export sb [] (Spawn (status_cmd (self sb)) c)).
  { intros c. apply not_failed_no_target, status_cmd_no_target. }
  apply bind_cases in H as [(e & Hm & ->) | (st & sd & Hm & H)].
  { apply status_cases in Hm as [->|[-> _]].
    - exists []. split; [now rewrite app_nil_r|]. split; [now left|].
      split; [discriminate|]. split; [discriminate|]. apply stops_nil.
    - exists [Spawn (status_cmd (self sb)) env].
      split; [cbn; now rewrite Tb|].
      split; [left; unfold targets; cbn [omap list_omap]; now rewrite status_cmd_no_target|].
      split; [discriminate|]. split; [discriminate|].
      apply stops_last. intros F. apply (failed_export_same_answers sb s) in F; auto.
      now apply Hst0 in F. }
  apply status_inv in Hm as ->.
  set (s1 := spawn_step (status_cmd (self sb)) sb) in *.
  assert (Ht1 : trace (os s1) = (trace (os s) ++ [Spawn (status_cmd (self sb)) env])%list).
  { unfold s1. cbn. now rewrite Tb. }
  assert (Hone : targets [Spawn (status_cmd (self sb)) env] = []).
  { unfold targets. cbn [omap list_omap]. now rewrite status_cmd_no_target. }
  assert (Hstop1 : forall x, stops_at_failure s [Spawn (status_cmd (self sb)) env] x).
  { intros x. apply stops_last. intros F.
    apply (failed_export_same_answers sb s) in F; auto. now apply Hst0 in F. }
  apply bind_cases in H as [(e & Hm & ->) | (now & se & Hm & H)]; [discriminate Hm|].
  injection Hm as _ <-.
  apply bind_cases in H as [(e & Hm & ->) | (email & sf & Hm & H)].
  { unfold lift in Hm. injection Hm as _ <-.
    exists [Spawn (status_cmd (self sb)) env].
    split; [exact Ht1|]. split; [now left|]. split; [discriminate|].
    split; [discriminate|]. apply Hstop1. }
  unfold lift in Hm. injection Hm as _ <-.
  (* the personal vault *)
  apply bind_cases in H as [(e & Hm & ->) | (ok & sg & Hm & H)].
  { apply exportPersonalVault_cases in Hm
      as [(e' & _ & ->) | (? & ? & ? & ? & _ & [=] & _)]; [|exact Hsb].
    exists [Spawn (status_cmd (self sb)) env].
    split; [exact Ht1|]. split; [now left|]. split; [discriminate|].
    split; [discriminate|]. apply Hstop1. }
  apply exportPersonalVault_cases in Hm
    as [(e' & [=] & _) | (pcmd & c & o & e & Ha & [= ->] & -> & Hpt)]; [|exact Hsb].
  set (s2 := spawn_step pcmd s1) in *.
  set (two := [Spawn (status_cmd (self sb)) env; Spawn pcmd env]).
  assert (Ht2 : trace (os s2) = (trace (os s) ++ two)%list).
  { unfold s2. cbn. rewrite Tb, <- !app_assoc. reflexivity. }
  assert (Htwo : targets two = [PersonalVault]).
  { unfold targets, two. cbn [omap list_omap].
    now rewrite status_cmd_no_target, (Hpt env). }
  destruct (c =? 0) eqn:Ec; cbn [negb] in H.
  2:{ injection H as <- <-. exists two.
      split; [exact Ht2|]. split; [right; now left|]. split; [discriminate|].
      pose proof (failed_exit pcmd env s1 c o e _ Ha Ec (Hpt _)) as F.
      apply (failed_export_shift (status_cmd (self sb)) env) in F.
      apply (failed_export_same_answers sb s) in F; auto.
      split.
      - intros _. right. right. exists [Spawn (status_cmd (self sb)) env], (Spawn pcmd env).
        split; [reflexivity | exact F].
      - apply (stops_same_answers sb s); auto.
        apply stops_cons; [apply Hst0|]. now apply stops_last. }
  assert (Hstop2 : forall new x, stops_at_failure s2 new x ->
                                 stops_at_failure s (two ++ new)%list x).
  { intros new x Hx. apply (stops_same_answers sb s); auto.
    apply stops_cons; [apply Hst0|].
    apply stops_cons; [exact (not_failed_exit_0 _ _ _ _ _ _ Ha Ec) | exact Hx]. }
  (* the listing *)
  apply bind_cases in H as [(x & Hm & ->) | (ol & sh & Hm & H)].
  { apply orgs_cases in Hm as [->|(lcmd & -> & _ & Hl)].
    - exists two. split; [exact Ht2|]. split; [right; now left|].
      split; [discriminate|]. split; [discriminate|].
      rewrite <- (app_nil_r two). apply Hstop2, stops_nil.
    - exists (two ++ [Spawn lcmd env])%list.
      split; [cbn; rewrite Tb, <- !app_assoc; reflexivity|].
      split; [right; left; unfold targets in *; rewrite omap_app, Htwo; cbn [omap list_omap];
              now rewrite (Hl env)|].
      split; [discriminate|]. split; [discriminate|].
      apply Hstop2, stops_last. intros F. now apply not_failed_no_target in F. }
  destruct ol as [listing|].
  2:{ injection H as <- <-.
      apply orgs_cases in Hm as [->|(lcmd & -> & _ & Hl)].
      - exists two. split; [exact Ht2|]. split; [right; now left|].
        split; [discriminate|]. split; [discriminate|].
        rewrite <- (app_nil_r two). apply Hstop2, stops_nil.
      - exists (two ++ [Spawn lcmd env])%list.
        split; [cbn; rewrite Tb, <- !app_assoc; reflexivity|].
        split; [right; left; unfold targets in *; rewrite omap_app, Htwo; cbn [omap list_omap];
                now rewrite (Hl env)|].
        split; [discriminate|]. split; [discriminate|].
        apply Hstop2, stops_last. intros F. now apply not_failed_no_target in F. }
  assert (Hlisted : listed s listing).
  { exists s2, sh. split; [exact Pb|]. split; [unfold s2, s1; cbn; rewrite Nb; lia|].
    split; [exact Sb | exact Hm]. }
  pose proof Hm as Hm'.
  apply orgs_cases in Hm' as [->|(lcmd & -> & _ & Hl)].
  { (* a listing without a process: no session, which is excluded *)
    exfalso. unfold Bitwarden.orgs in Hm. unfold bind at 1 in Hm. cbn [get_self] in Hm.
    destruct Hsb as [sid' Hsid]. change (self s2) with (self sb) in Hm. rewrite Hsid in Hm.
    apply bind_cases in Hm as [(x & _ & [=]) | ([[c' o'] e'] & s3 & Hp & Hm)].
    apply perform_inv in Hp as (cmd & _ & _ & ->).
    assert (E : spawn_step cmd s2 = s2).
    { destruct (c' =? 0).
      - apply bind_cases in Hm as [(x & _ & [=]) | (v & s4 & Hv & Hm)].
        unfold json_loads in Hv. destruct (loads o'); [|discriminate Hv].
        injection Hv as _ <-.
        apply bind_cases in Hm as [(x & _ & [=]) | (v' & s5 & Hv & Hm)].
        unfold lift in Hv. apply (f_equal snd) in Hv. cbn [snd] in Hv. subst s5.
        exact (f_equal snd Hm).
      - exact (f_equal snd Hm). }
    apply (f_equal (fun x => length (trace (os x)))) in E.
    cbn in E. rewrite length_app in E. cbn in E. lia. }
  set (s3 := spawn_step lcmd s2) in *.
  apply exportAll_loop_cases in H
    as (new & done & Hn & Hp & Htn & Htrue & Hfalse & Hstop); [|exact Hsb].
  exists (two ++ Spawn lcmd env :: new)%list.
  assert (Htg : targets (two ++ Spawn lcmd env :: new)
                = PersonalVault :: map organization_target done).
  { unfold targets in *. rewrite omap_app, Htwo. cbn [omap list_omap app].
    now rewrite (Hl env), Htn. }
  split; [rewrite Hn; cbn; rewrite Tb, <- !app_assoc; reflexivity|].
  split; [right; right; now exists listing, done|].
  split; [intros Hr; split; [eauto|]; exists listing; split; [exact Hlisted|];
          now rewrite Htg, (Htrue Hr)|].
  split.
  - intros Hr. right. right. apply (ends_same_answers sb s); auto.
    apply ends_cons, ends_cons, ends_cons. auto.
  - apply Hstop2. apply stops_cons; [now apply not_failed_no_target | exact Hstop].
Qed.

(** Owner, user and admin: the personal vault, [o1] and [o3] are exported. *)
Lemma exportAll_three_organizations :
  targets (trace (os (snd (Bitwarden.exportAll "backups" "json" None
                             (unlocked_state never)))))
  = [PersonalVault; Organization "o1"; Organization "o3"] /\
  (forall role,
     Bitwarden.owner_or_admin (JInt (OrganizationUserTypes_value role)) = true
     <-> role = OWNER \/ role = ADMIN) /\
  exists new : list event,
    trace (os (snd (Bitwarden.exportAll "backups" "json" None (unlocked_state never))))
    = (trace (os (unlocked_state never)) ++ new)%list /\
    (targets new = [] \/ targets new = [PersonalVault] \/
     exists listing done,
       listed (unlocked_state never) listing /\ done `prefix_of` selected listing /\
       targets new = PersonalVault :: map organization_target done) /\
    (Ok true = Ok true ->
     is_Some (_bw_session_id (self (unlocked_state never))) /\
     exists listing,
       listed (unlocked_state never) listing /\
       targets new = PersonalVault :: map organization_target (selected listing)) /\
    (Ok true = Ok false ->
     (_bw_session_id (self (unlocked_state never)) = None /\
      new = [Print "ERROR: BW Session Error"]) \/
     new = [Print "ERROR: Not directory"] \/
     ends_with_failure (unlocked_state never) new) /\
    stops_at_failure (unlocked_state never) new (Ok true).
Proof.
  split; [vm_compute; reflexivity|].
  apply (exportAll_targets "backups" "json" None (unlocked_state never)).
  vm_compute. reflexivity.
Defined.

(** C1 as stated fails: the export of the owner's organization [o1] exits
    with code 1, [exportAll] returns [False] at once and the admin's [o3]
    is never exported, although the session token is set. *)
Lemma exportAll_stops_at_failed_export :
  is_Some (_bw_session_id (self (unlocked_state o1_fails))) /\
  exists listing,
    fst (Bitwarden.orgs (unlocked_state o1_fails)) = Ok (Some listing) /\
    map organization_target (selected listing) = [Organization "o1"; Organization "o3"] /\
    fst (Bitwarden.exportAll "backups" "json" None (unlocked_state o1_fails)) = Ok false /\
    targets (trace (os (snd (Bitwarden.exportAll "backups" "json" None
                               (unlocked_state o1_fails)))))
    = [PersonalVault; Organization "o1"].
Proof.
  split; [now exists "tok"|].
  eexists. split; [vm_compute; reflexivity|].
  split; [vm_compute; reflexivity|].
  split; vm_compute; reflexivity.
Qed.

(* ===================================================================== *)
(** * What a method leaves alone                                           *)
(* ===================================================================== *)

Section QuietRules.
Context (R : State -> State -> Prop) `{!Quiet R}.

Lemma quiet_ret {A} (a : A) : keeps R (ret a).
Proof. intros s r s' [= <- <-]. apply still_refl. Qed.

Lemma quiet_raise {A} (e : exn) : keeps R (@raise A e).
Proof. intros s r s' [= <- <-]. apply still_refl. Qed.

Lemma quiet_lift {A} (x : result A) : keeps R (lift x).
Proof. intros s r s' [= <- <-]. apply still_refl. Qed.

Lemma quiet_get_os : keeps R get_os.
Proof. intros s r s' [= <- <-]. apply still_refl. Qed.

Lemma quiet_get_self : keeps R get_self.
Proof. intros s r s' [= <- <-]. apply still_refl. Qed.

Lemma quiet_bind {A B} (m : M A) (k : A -> M B) :
  keeps R m -> (forall a, keeps R (k a)) -> keeps R (bind m k).
Proof.
  intros Hm Hk s r s' H. unfold bind in H.
  destruct (m s) as [[a|e] s1] eqn:E.
  - eapply still_trans; [eapply Hm, E | eapply Hk, H].
  - injection H as <- <-. eapply Hm, E.
Qed.

Lemma quiet_for_each {A} (xs : list A) (body : A -> M unit) :
  (forall x, keeps R (body x)) -> keeps R (for_each xs body).
Proof.
  intros Hb. induction xs as [|x xs IH]; cbn [for_each].
  - apply quiet_ret.
  - apply quiet_bind; [apply Hb | intros _; exact IH].
Qed.

Lemma quiet_modify_os (f : World -> World) :
  (forall w, environ (f w) = environ w) -> keeps R (modify_os f).
Proof. intros Hf s r s' [= <- <-]. apply still_world, Hf. Qed.

Lemma quiet_sleep (seconds : Q) : keeps R (sleep seconds).
Proof. now apply quiet_modify_os. Qed.

Lemma quiet_print (text : string) : keeps R (print text).
Proof. now apply quiet_modify_os. Qed.

Lemma quiet_perform (command : list json) : keeps R (performCommandLineOperation command).
Proof.
  unfold performCommandLineOperation.
  apply quiet_bind; [apply quiet_lift | intros cmd].
  apply quiet_bind; [apply quiet_get_os | intros w].
  destruct (popen w (spawned w) cmd); [|apply quiet_raise].
  apply quiet_bind; [now apply quiet_modify_os | intros _; apply quiet_ret].
Qed.

Lemma quiet_json_loads (b : bytes) : keeps R (json_loads b).
Proof. unfold json_loads. destruct (loads b); [apply quiet_ret | apply quiet_raise]. Qed.

Lemma quiet_decode_utf8 (b : bytes) : keeps R (decode_utf8 b).
Proof. unfold decode_utf8. destruct (decode b); [apply quiet_ret | apply quiet_raise]. Qed.

Lemma quiet_path_exists (p : string) : keeps R (path_exists p).
Proof. apply quiet_bind; [apply quiet_get_os | intros w; apply quiet_ret]. Qed.

Lemma quiet_path_isdir (p : string) : keeps R (path_isdir p).
Proof. apply quiet_bind; [apply quiet_get_os | intros w; apply quiet_ret]. Qed.

Lemma quiet_makedirs (p : string) : keeps R (makedirs p).
Proof.
  apply quiet_bind; [apply quiet_get_os | intros w].
  destruct (_ || _); [apply quiet_raise | now apply quiet_modify_os].
Qed.

Lemma quiet_datetime_now : keeps R datetime_now.
Proof. apply quiet_bind; [apply quiet_get_os | intros w; apply quiet_ret]. Qed.

Lemma quiet_void {A} (m : M A) : keeps R m -> keeps R (void m).
Proof. intros H. apply quiet_bind; [exact H | intros _; apply quiet_ret]. Qed.

End QuietRules.

Create HintDb quiet.

#[local] Hint Resolve quiet_ret quiet_raise quiet_lift quiet_get_os quiet_get_self
  quiet_sleep quiet_print quiet_perform quiet_json_loads quiet_decode_utf8
  quiet_path_exists quiet_path_isdir quiet_makedirs quiet_datetime_now : quiet.

#[local] Instance same_self_quiet : Quiet same_self.
Proof.
  split; unfold same_self.
  - reflexivity.
  - intros a b c Hab Hbc. now rewrite Hbc.
  - reflexivity.
Qed.

#[local] Instance same_environ_quiet : Quiet same_environ.
Proof.
  split; unfold same_environ.
  - reflexivity.
  - intros a b c Hab Hbc. now rewrite Hbc.
  - intros s w' H. exact H.
Qed.

(** Writing to [os.environ] leaves the instance alone, and assigning the
    session id leaves the environment alone. *)
Lemma environ_set_same_self (key : string) (value : json) :
  keeps same_self (environ_set key value).
Proof.
  unfold environ_set. apply quiet_bind; [apply _ | apply quiet_lift; apply _ | intros v].
  destruct (has_nul v); [apply quiet_raise; apply _|]. now intros s r s' [= <- <-].
Qed.

Lemma environ_del_same_self (key : string) : keeps same_self (environ_del key).
Proof.
  unfold environ_del. apply quiet_bind; [apply _ | apply quiet_get_os; apply _ | intros w].
  destruct (environ w !! key) as [x|]; [now intros s r s' [= <- <-] | apply quiet_raise; apply _].
Qed.

Lemma set_session_same_environ (sid : option string) :
  keeps same_environ (Bitwarden.set_session sid).
Proof. intros s r s'. rewrite set_session_run. now intros [= <- <-]. Qed.

#[local] Hint Resolve environ_set_same_self environ_del_same_self
  set_session_same_environ : quiet.

Ltac quiet_step :=
  match goal with
  | |- Quiet _ => typeclasses eauto
  | |- forall _, keeps _ _ => intros ?
  | |- keeps _ (bind _ _) => eapply quiet_bind
  | |- keeps _ (void _) => eapply quiet_void
  | |- keeps _ (for_each _ _) => eapply quiet_for_each
  | |- keeps _ (match ?x with _ => _ end) => destruct x eqn:?
  | |- keeps _ _ => solve [eauto with quiet typeclass_instances]
  end.

Ltac quiet := repeat quiet_step.

Section QuietMethods.
Context (R : State -> State -> Prop) `{!Quiet R}.

Lemma status_quiet : keeps R Bitwarden.status.
Proof. unfold Bitwarden.status. quiet. Qed.

Lemma serverUrl_quiet : keeps R Bitwarden.serverUrl.
Proof. unfold Bitwarden.serverUrl. quiet. Qed.

Lemma serverUrl_setter_quiet (url : json) : keeps R (Bitwarden.serverUrl_setter url).
Proof. unfold Bitwarden.serverUrl_setter. pose proof status_quiet. quiet. Qed.

Lemma isClientLatest_quiet : keeps R Bitwarden.isClientLatest.
Proof. unfold Bitwarden.isClientLatest. quiet. Qed.

Lemma sync_quiet : keeps R Bitwarden.sync.
Proof. unfold Bitwarden.sync. quiet. Qed.

Lemma lock_quiet : keeps R Bitwarden.lock.
Proof. unfold Bitwarden.lock. quiet. Qed.

Lemma items_quiet : keeps R Bitwarden.items.
Proof. unfold Bitwarden.items. quiet. Qed.

Lemma getitem_quiet (name : json) : keeps R (Bitwarden.__getitem__ name).
Proof. unfold Bitwarden.__getitem__. quiet. Qed.

Lemma orgs_quiet : keeps R Bitwarden.orgs.
Proof. unfold Bitwarden.orgs. quiet. Qed.

Lemma collections_quiet : keeps R Bitwarden.collections.
Proof. unfold Bitwarden.collections. quiet. Qed.

Lemma exportPersonalVault_quiet (path format : string) (pw : option string) :
  keeps R (Bitwarden.exportPersonalVault path format pw).
Proof. unfold Bitwarden.exportPersonalVault. quiet. Qed.

Lemma exportCollections_quiet (path : string) (o : json) (format : string)
    (pw : option string) :
  keeps R (Bitwarden.exportCollections path o format pw).
Proof. unfold Bitwarden.exportCollections. quiet. Qed.

Lemma exportAll_loop_quiet (l : list BitwardenOrganization.t) (st : json)
    (dir ts format : string) (pw : option string) :
  keeps R (Bitwarden.exportAll_loop l st dir ts format pw).
Proof.
  induction l as [|org l IH]; cbn [Bitwarden.exportAll_loop].
  - quiet.
  - pose proof exportCollections_quiet. quiet.
Qed.

Lemma exportAll_quiet (dir format : string) (pw : option string) :
  keeps R (Bitwarden.exportAll dir format pw).
Proof.
  unfold Bitwarden.exportAll.
  pose proof status_quiet. pose proof orgs_quiet. pose proof exportPersonalVault_quiet.
  pose proof exportAll_loop_quiet. quiet.
Qed.

End QuietMethods.

Lemma loginWithApiKey_same_self (i k : json) (n : Z) :
  keeps same_self (Bitwarden.loginWithApiKey i k n).
Proof.
  unfold Bitwarden.loginWithApiKey. pose proof (status_quiet same_self).
  assert (forall r nr, keeps same_self (Bitwarden.loginWithApiKey_loop r nr)).
  { induction r as [|r IH]; intros nr; cbn [Bitwarden.loginWithApiKey_loop].
    - quiet.
    - specialize (IH (nr + 1)). quiet. }
  quiet.
Qed.

Lemma extract_same_environ (stdout : bytes) :
  keeps same_environ (Bitwarden.__extractSessionFromStdOut__ stdout).
Proof. unfold Bitwarden.__extractSessionFromStdOut__, Bitwarden.extract_line. quiet. Qed.

Lemma loginWithPassword_same_environ (u : json) (p : string) (n : Z) :
  keeps same_environ (Bitwarden.loginWithPassword u p n).
Proof.
  unfold Bitwarden.loginWithPassword. pose proof (status_quiet same_environ).
  pose proof extract_same_environ. pose proof (sync_quiet same_environ).
  assert (forall r nr, keeps same_environ (Bitwarden.loginWithPassword_loop u p r nr)).
  { induction r as [|r IH]; intros nr; cbn [Bitwarden.loginWithPassword_loop].
    - quiet.
    - specialize (IH (nr + 1)). quiet. }
  quiet.
Qed.

Lemma logout_same_environ : keeps same_environ Bitwarden.logout.
Proof. unfold Bitwarden.logout. quiet. Qed.

Ltac unvoid :=
  match goal with
  | |- keeps _ (void _) => apply quiet_void; [typeclasses eauto|]
  | _ => idtac
  end.

(** X1: Of the methods that are called on an instance that exists, which are
    all the methods but the constructor [__init__], only
    [__extractSessionFromStdOut__], [loginWithPassword], [logout] and
    [unlock] ever change an attribute of the instance, and only
    [loginWithApiKey] and [unlock] ever change [os.environ]; this holds
    whether the call returns or raises.  In particular [lock] keeps the
    session token, and [loginWithApiKey] stores none. *)
Theorem call_effects (c : call) (s s' : State) (r : result unit) :
  perform_call c s = (r, s') ->
  (assigns_session c = false -> self s' = self s) /\
  (edits_environ c = false -> environ (os s') = environ (os s)).
Proof.
  intros H. split; intros Hc.
  - change (same_self s s'). revert s r s' H. change (keeps same_self (perform_call c)).
    destruct c; try discriminate Hc; cbn [perform_call]; unvoid;
      eauto using status_quiet, serverUrl_quiet, serverUrl_setter_quiet,
        isClientLatest_quiet, sync_quiet, lock_quiet, items_quiet, getitem_quiet,
        orgs_quiet, collections_quiet, exportPersonalVault_quiet,
        exportCollections_quiet, exportAll_quiet, loginWithApiKey_same_self
        with typeclass_instances.
  - change (same_environ s s'). revert s r s' H.
    change (keeps same_environ (perform_call c)).
    destruct c; try discriminate Hc; cbn [perform_call]; unvoid;
      eauto using status_quiet, serverUrl_quiet, serverUrl_setter_quiet,
        isClientLatest_quiet, sync_quiet, lock_quiet, items_quiet, getitem_quiet,
        orgs_quiet, collections_quiet, exportPersonalVault_quiet,
        exportCollections_quiet, exportAll_quiet, loginWithPassword_same_environ,
        extract_same_environ, logout_same_environ
        with typeclass_instances.
Qed.

(** [lock] on an instance that holds a token. *)
Lemma call_effects_lock :
  (assigns_session Call_lock = false ->
   self (snd (perform_call Call_lock (unlocked_state never)))
   = self (unlocked_state never)) /\
  (edits_environ Call_lock = false ->
   environ (os (snd (perform_call Call_lock (unlocked_state never))))
   = environ (os (unlocked_state never))).
Proof.
  apply (call_effects Call_lock (unlocked_state never) _
           (fst (perform_call Call_lock (unlocked_state never)))).
  vm_compute. reflexivity.
Defined.

(* ===================================================================== *)
(** * Running a method step by step                                        *)
(* ===================================================================== *)

Lemma bind_ok {A B} (m : M A) (k : A -> M B) (s s1 : State) (a : A) :
  m s = (Ok a, s1) -> bind m k s = k a s1.
Proof. intros H. unfold bind. now rewrite H. Qed.

Lemma bind_raise {A B} (m : M A) (k : A -> M B) (s s1 : State) (e : exn) :
  m s = (Raise e, s1) -> bind m k s = (Raise e, s1).
Proof. intros H. unfold bind. now rewrite H. Qed.

Lemma perform_spawn_error (command : list json) (cmd : list string) (s : State) (e : exn) :
  as_strs command = Ok cmd ->
  answer s 0 cmd = SpawnError e ->
  performCommandLineOperation command s = (Raise e, s).
Proof.
  unfold answer. rewrite Nat.add_0_r. intros Hs Ha.
  unfold performCommandLineOperation, bind, lift, get_os. now rewrite Hs, Ha.
Qed.

Lemma status_run (s : State) (code : Z) (out err : bytes) :
  answer s 0 (status_cmd (self s)) = Exited code out err ->
  Bitwarden.status s
  = ((if code =? 0 then
        match loads out with Some v => Ok v | None => Raise JSONDecodeError end
      else Ok JNull),
     spawn_step (status_cmd (self s)) s).
Proof.
  intros Ha. unfold Bitwarden.status. unfold bind at 1. cbn [get_self].
  unfold bind at 1.
  erewrite (perform_run _ _ s code out err); [|apply status_as_strs|exact Ha].
  destruct (code =? 0); [|reflexivity].
  unfold json_loads. now destruct (loads out).
Qed.

Lemma environ_set_run (key value : string) (s : State) :
  has_nul value = false ->
  environ_set key (JStr value) s
  = (Ok tt, mkState (set_environ (<[key := value]> (environ (os s))) (os s)) (self s)).
Proof. intros H. unfold environ_set, bind, lift. cbn [as_str]. now rewrite H. Qed.

Lemma environ_set_ok (key : string) (value : json) (s s' : State) :
  environ_set key value s = (Ok tt, s') ->
  exists v, value = JStr v /\ has_nul v = false /\
    s' = mkState (set_environ (<[key := v]> (environ (os s))) (os s)) (self s).
Proof.
  unfold environ_set, bind, lift. destruct value; try discriminate. cbn [as_str].
  destruct (has_nul s0) eqn:E; [discriminate|]. intros [= <-]. now exists s0.
Qed.

Lemma environ_del_ok (key : string) (s s' : State) :
  environ_del key s = (Ok tt, s') ->
  s' = mkState (set_environ (delete key (environ (os s))) (os s)) (self s).
Proof.
  unfold environ_del, bind, get_os. destruct (environ (os s) !! key); [|discriminate].
  now intros [= <-].
Qed.

Lemma extract_lines_ok (lines : list string) (s s' : State) :
  for_each lines Bitwarden.extract_line s = (Ok tt, s') ->
  forall line, In line (List.filter (contains "export") lines) ->
               index "="%char line <> None.
Proof.
  revert s. induction lines as [|l lines IH]; intros s H line Hin; [destruct Hin|].
  cbn [for_each List.filter] in *. apply bind_inv in H as ([] & s1 & Hl & H).
  destruct (contains "export" l) eqn:E.
  - destruct Hin as [<-|Hin]; [|now apply (IH s1)].
    unfold Bitwarden.extract_line in Hl. rewrite E in Hl.
    destruct (index "="%char l); [discriminate | discriminate Hl].
  - now apply (IH s1).
Qed.

Lemma extractSession_ok (stdout : bytes) (s s' : State) :
  Bitwarden.__extractSessionFromStdOut__ stdout s = (Ok tt, s') ->
  exists content, decode stdout = Some content /\
    s' = assigned_from (export_lines content) s.
Proof.
  intros H. pose proof H as H0.
  unfold Bitwarden.__extractSessionFromStdOut__, decode_utf8 in H.
  destruct (decode stdout) as [content|] eqn:Hd; [|discriminate H].
  unfold bind at 1 in H. cbn [ret] in H.
  exists content. split; [reflexivity|].
  rewrite (extractSession_run stdout content s Hd) in H0.
  - now injection H0 as <-.
  - exact (extract_lines_ok _ _ _ H).
Qed.

Lemma assigned_from_os (ls : list string) (s : State) : os (assigned_from ls s) = os s.
Proof. unfold assigned_from. now destruct (last ls). Qed.

Lemma assigned_from_self (ls : list string) (s t : State) :
  self s = self t -> self (assigned_from ls s) = self (assigned_from ls t).
Proof. intros H. unfold assigned_from. destruct (last ls); cbn; now rewrite H. Qed.

(* ===================================================================== *)
(** * Unlocking, locking and logging out                                   *)
(* ===================================================================== *)

(** X2: [unlock] asks for the status first: on a vault that is unlocked
    already it returns [True], and on one that is logged out it raises
    InvalidState; either way only the status query has run, the password
    has gone nowhere and no session token has been stored. *)
Theorem unlock_by_status (password : string) (s s1 : State) (st : json) :
  Bitwarden.status s = (Ok st, s1) ->
  (getitem st "status" = Ok (JStr "unlocked") ->
   Bitwarden.unlock password s = (Ok true, spawn_step (status_cmd (self s)) s)) /\
  (getitem st "status" = Ok (JStr "unauthenticated") ->
   Bitwarden.unlock password s
   = (Raise InvalidStateException, spawn_step (status_cmd (self s)) s)).
Proof.
  intros Hst. pose proof (status_inv _ _ _ Hst) as ->.
  split; intros Hg; unfold Bitwarden.unlock;
    rewrite (bind_ok _ _ _ _ _ Hst); unfold bind, lift; rewrite Hg; reflexivity.
Qed.

Lemma unlock_by_status_unlocked :
  Bitwarden.unlock "pw" (unlocked_state never)
  = (Ok true, spawn_step (status_cmd (self (unlocked_state never))) (unlocked_state never)).
Proof.
  refine (proj1 (unlock_by_status "pw" (unlocked_state never)
                   (snd (Bitwarden.status (unlocked_state never)))
                   (status_document "https://vault.example.org" "unlocked" (Some "a@b.c"))
                   _) _).
  - vm_compute. reflexivity.
  - vm_compute. reflexivity.
Defined.

(** X3: When [bw status] reports a vault that is not unlocked and [unlock]
    returns, the [bw unlock] process ran once, right after the status
    query, with the password in [BW_PASSWORD]; the variable is deleted
    afterwards, so a [BW_PASSWORD] the process had before is gone too.  The
    result tells whether the exit code was 0, in which case the token comes
    from the output, and otherwise the instance is as it was. *)
Theorem unlock_password_in_environment (password : string) (s s1 s' : State)
    (st v : json) (r : bool) :
  Bitwarden.status s = (Ok st, s1) ->
  getitem st "status" = Ok v ->
  eq v (JStr "unlocked") = false ->
  Bitwarden.unlock password s = (Ok r, s') ->
  exists code out err,
    answer s 1 (unlock_cmd (self s)) = Exited code out err /\
    r = (code =? 0) /\
    environ (os s') = delete "BW_PASSWORD" (environ (os s)) /\
    trace (os s')
    = (trace (os s)
       ++ [Spawn (status_cmd (self s)) (environ (os s));
           Spawn (unlock_cmd (self s))
             (<["BW_PASSWORD" := password]> (environ (os s)))])%list /\
    (code <> 0 -> self s' = self s) /\
    (code = 0 -> exists content, decode out = Some content /\
                   self s' = self (assigned_from (export_lines content) s)).
Proof.
  intros Hst Hg Hu H. pose proof (status_inv _ _ _ Hst) as ->.
  unfold Bitwarden.unlock in H. rewrite (bind_ok _ _ _ _ _ Hst) in H.
  unfold bind at 1, lift in H. rewrite Hg, Hu in H.
  apply bind_inv in H as (v' & s1 & Hv & H). injection Hv as _ <-.
  destruct (eq v' (JStr "unauthenticated")); [discriminate H|].
  apply bind_inv in H as ([] & s1 & He & H).
  apply environ_set_ok in He as (p & [= <-] & Hn & ->).
  apply bind_inv in H as (b & s1 & Hb & H). injection Hb as <- <-.
  apply bind_inv in H as ([[code out] err] & s1 & Hp & H).
  apply perform_inv in Hp as (cmd & Hc & Ha & ->). injection Hc as <-.
  assert (Ha' : answer s 1 (unlock_cmd (self s)) = Exited code out err).
  { unfold answer in *. cbn in Ha.
    replace (spawned (os s) + 1)%nat with (S (spawned (os s)) + 0)%nat by lia.
    exact Ha. }
  clear Ha.
  apply bind_inv in H as ([] & s1 & Hd & H). apply environ_del_ok in Hd as ->.
  exists code, out, err. split; [exact Ha'|].
  destruct (code =? 0) eqn:Ec.
  - apply bind_inv in H as ([] & s2 & Hx & H). injection H as <- <-.
    apply extractSession_ok in Hx as (content & Hdec & ->).
    split; [reflexivity|]. apply Z.eqb_eq in Ec. subst code.
    rewrite assigned_from_os. cbn. rewrite delete_insert_eq.
    split; [reflexivity|]. split; [now rewrite <- app_assoc|].
    split; [intros N; now destruct N|]. intros _.
    exists content. split; [exact Hdec|]. now apply assigned_from_self.
  - injection H as <- <-. split; [reflexivity|]. apply Z.eqb_neq in Ec.
    cbn. rewrite delete_insert_eq.
    split; [reflexivity|]. split; [now rewrite <- app_assoc|].
    split; [reflexivity|]. intros E. now destruct Ec.
Qed.

(** A locked vault whose [bw unlock] prints the session [abc123]: the
    process sees the password, and the [BW_PASSWORD] that was there before
    the call is gone after it. *)
Lemma unlock_locked_vault :
  environ (os locked_vault) !! "BW_PASSWORD" = Some "old" /\
  exists code out err,
    answer locked_vault 1 (unlock_cmd (self locked_vault)) = Exited code out err /\
    true = (code =? 0) /\
    environ (os (snd (Bitwarden.unlock "pw" locked_vault)))
    = delete "BW_PASSWORD" (environ (os locked_vault)) /\
    trace (os (snd (Bitwarden.unlock "pw" locked_vault)))
    = (trace (os locked_vault)
       ++ [Spawn (status_cmd (self locked_vault)) (environ (os locked_vault));
           Spawn (unlock_cmd (self locked_vault))
             (<["BW_PASSWORD" := "pw"]> (environ (os locked_vault)))])%list /\
    (code <> 0 -> self (snd (Bitwarden.unlock "pw" locked_vault)) = self locked_vault) /\
    (code = 0 -> exists content, decode out = Some content /\
       self (snd (Bitwarden.unlock "pw" locked_vault))
       = self (assigned_from (export_lines content) locked_vault)).
Proof.
  split; [reflexivity|].
  apply (unlock_password_in_environment "pw" locked_vault
           (snd (Bitwarden.status locked_vault)) _
           (status_document "https://vault.example.org" "locked" (Some "a@b.c"))
           (JStr "locked") true).
  - vm_compute. reflexivity.
  - vm_compute. reflexivity.
  - reflexivity.
  - vm_compute. reflexivity.
Defined.

(** X4: There is no [try]/[finally] around the process: when [bw unlock]
    cannot be spawned, the exception of [Popen] propagates and
    [BW_PASSWORD] stays in the environment with the password in it. *)
Theorem unlock_spawn_error_keeps_password (password : string) (s s1 : State)
    (st v : json) (e : exn) :
  Bitwarden.status s = (Ok st, s1) ->
  getitem st "status" = Ok v ->
  eq v (JStr "unlocked") = false ->
  eq v (JStr "unauthenticated") = false ->
  has_nul password = false ->
  answer s 1 (unlock_cmd (self s)) = SpawnError e ->
  exists s',
    Bitwarden.unlock password s = (Raise e, s') /\
    environ (os s') = <["BW_PASSWORD" := password]> (environ (os s)) /\
    trace (os s') = (trace (os s) ++ [Spawn (status_cmd (self s)) (environ (os s))])%list.
Proof.
  intros Hst Hg Hu Ha Hn Hp. pose proof (status_inv _ _ _ Hst) as ->.
  eexists. unfold Bitwarden.unlock. rewrite (bind_ok _ _ _ _ _ Hst).
  unfold bind at 1, lift. rewrite Hg, Hu.
  unfold bind at 1. rewrite Ha.
  rewrite (bind_ok _ _ _ _ _ (environ_set_run _ _ _ Hn)).
  unfold bind at 1. cbn [get_self].
  erewrite bind_raise.
  2: { apply (perform_spawn_error _ (unlock_cmd (self s))); [reflexivity|].
       unfold answer in *. cbn.
       replace (S (spawned (os s) + 0))%nat with (spawned (os s) + 1)%nat by lia.
       exact Hp. }
  split; [reflexivity|]. split; reflexivity.
Qed.

Lemma unlock_spawn_error_example :
  exists s',
    Bitwarden.unlock "pw" (locked_state (SpawnError OSError)) = (Raise OSError, s') /\
    environ (os s')
    = <["BW_PASSWORD" := "pw"]> (environ (os (locked_state (SpawnError OSError)))) /\
    trace (os s')
    = (trace (os (locked_state (SpawnError OSError)))
       ++ [Spawn (status_cmd (self (locked_state (SpawnError OSError))))
             (environ (os (locked_state (SpawnError OSError))))])%list.
Proof.
  apply (unlock_spawn_error_keeps_password "pw" (locked_state (SpawnError OSError))
           (snd (Bitwarden.status (locked_state (SpawnError OSError))))
           (status_document "https://vault.example.org" "locked" (Some "a@b.c"))
           (JStr "locked")).
  - vm_compute. reflexivity.
  - vm_compute. reflexivity.
  - reflexivity.
  - reflexivity.
  - reflexivity.
  - reflexivity.
Defined.

(** X5: [logout] forgets the session token whatever [bw logout] exits with:
    from then on [sync] raises VaultNotUnlocked, the listings are [None]
    and the exports return [False], none of them running [bw]. *)
Theorem logout_forgets_session (s : State) :
  spawns (answer s 0 (logout_cmd (self s))) ->
  let s' := with_session None (spawn_step (logout_cmd (self s)) s) in
  Bitwarden.logout s = (Ok tt, s') /\
  Bitwarden.sync s' = (Raise VaultNotUnlockedException, s') /\
  Bitwarden.items s' = (Ok None, s') /\
  Bitwarden.orgs s' = (Ok None, s') /\
  Bitwarden.collections s' = (Ok None, s') /\
  (forall name, Bitwarden.__getitem__ name s' = (Ok [], s')) /\
  (forall path format pw, Bitwarden.exportPersonalVault path format pw s' = (Ok false, s')) /\
  (forall path o format pw,
     Bitwarden.exportCollections path o format pw s' = (Ok false, s')).
Proof.
  intros (code & out & err & Ha) s'. split.
  - unfold Bitwarden.logout. unfold bind at 1. cbn [get_self].
    erewrite bind_ok; [|apply (perform_run _ (logout_cmd (self s)) s code out err);
                        [reflexivity | exact Ha]].
    now rewrite set_session_run.
  - repeat split; reflexivity.
Qed.

Lemma logout_forgets_session_example :
  Bitwarden.logout (unlocked_state never)
  = (Ok tt, with_session None
              (spawn_step (logout_cmd (self (unlocked_state never))) (unlocked_state never)))
  /\ Bitwarden.sync (with_session None
       (spawn_step (logout_cmd (self (unlocked_state never))) (unlocked_state never)))
     = (Raise VaultNotUnlockedException,
        with_session None
          (spawn_step (logout_cmd (self (unlocked_state never))) (unlocked_state never))).
Proof.
  pose proof (logout_forgets_session (unlocked_state never)) as H.
  cbv zeta in H. destruct H as (H1 & H2 & _).
  - exists 0, (text_output EmptyString), (text_output EmptyString). reflexivity.
  - split; [exact H1 | exact H2].
Defined.

(* ===================================================================== *)
(** * Login: the guard, the credentials and the backoff                    *)
(* ===================================================================== *)

(** X6: The two logins and the [serverUrl] setter refuse to run unless
    [bw status] reports [unauthenticated]: they raise InvalidState after
    the status query alone, with no attempt made and the environment as it
    was. *)
Theorem login_needs_unauthenticated (s s1 : State) (st v : json) :
  Bitwarden.status s = (Ok st, s1) ->
  getitem st "status" = Ok v ->
  ne v (JStr "unauthenticated") = true ->
  s1 = spawn_step (status_cmd (self s)) s /\
  (forall u p n, Bitwarden.loginWithPassword u p n s = (Raise InvalidStateException, s1)) /\
  (forall i k n, Bitwarden.loginWithApiKey i k n s = (Raise InvalidStateException, s1)) /\
  (forall url, Bitwarden.serverUrl_setter url s = (Raise InvalidStateException, s1)).
Proof.
  intros Hst Hg Hne. split; [now apply status_inv in Hst|].
  repeat split; intros;
    unfold Bitwarden.loginWithPassword, Bitwarden.loginWithApiKey,
      Bitwarden.serverUrl_setter;
    rewrite (bind_ok _ _ _ _ _ Hst); unfold bind, lift; now rewrite Hg, Hne.
Qed.

Lemma login_on_unlocked_vault :
  snd (Bitwarden.status (unlocked_state never))
  = spawn_step (status_cmd (self (unlocked_state never))) (unlocked_state never) /\
  (forall u p n,
     Bitwarden.loginWithPassword u p n (unlocked_state never)
     = (Raise InvalidStateException, snd (Bitwarden.status (unlocked_state never)))) /\
  (forall i k n,
     Bitwarden.loginWithApiKey i k n (unlocked_state never)
     = (Raise InvalidStateException, snd (Bitwarden.status (unlocked_state never)))) /\
  (forall url,
     Bitwarden.serverUrl_setter url (unlocked_state never)
     = (Raise InvalidStateException, snd (Bitwarden.status (unlocked_state never)))).
Proof.
  apply (login_needs_unauthenticated (unlocked_state never) _
           (status_document "https://vault.example.org" "unlocked" (Some "a@b.c"))
           (JStr "unlocked")).
  - vm_compute. reflexivity.
  - vm_compute. reflexivity.
  - reflexivity.
Defined.

(** X7: When [bw status] exits with another code than 0 the [status] property
    is [None], and what subscripts it raises TypeError, not InvalidState:
    the logins, the [serverUrl] setter and [unlock] all do, after the status
    query alone. *)
Theorem status_failure_raises_TypeError (s : State) (code : Z) (out err : bytes) :
  answer s 0 (status_cmd (self s)) = Exited code out err ->
  code <> 0 ->
  Bitwarden.status s = (Ok JNull, spawn_step (status_cmd (self s)) s) /\
  (forall u p n,
     Bitwarden.loginWithPassword u p n s
     = (Raise TypeError, spawn_step (status_cmd (self s)) s)) /\
  (forall i k n,
     Bitwarden.loginWithApiKey i k n s
     = (Raise TypeError, spawn_step (status_cmd (self s)) s)) /\
  (forall url,
     Bitwarden.serverUrl_setter url s
     = (Raise TypeError, spawn_step (status_cmd (self s)) s)) /\
  (forall p, Bitwarden.unlock p s = (Raise TypeError, spawn_step (status_cmd (self s)) s)).
Proof.
  intros Ha Hc.
  assert (Hst : Bitwarden.status s = (Ok JNull, spawn_step (status_cmd (self s)) s)).
  { rewrite (status_run s code out err Ha). apply Z.eqb_neq in Hc. now rewrite Hc. }
  split; [exact Hst|].
  repeat split; intros;
    unfold Bitwarden.loginWithPassword, Bitwarden.loginWithApiKey,
      Bitwarden.serverUrl_setter, Bitwarden.unlock;
    rewrite (bind_ok _ _ _ _ _ Hst); reflexivity.
Qed.

Lemma status_failure_example :
  Bitwarden.status (fresh (quiet_world broken_bw))
  = (Ok JNull, spawn_step (status_cmd (self (fresh (quiet_world broken_bw))))
                 (fresh (quiet_world broken_bw))) /\
  (forall u p n,
     Bitwarden.loginWithPassword u p n (fresh (quiet_world broken_bw))
     = (Raise TypeError, spawn_step (status_cmd (self (fresh (quiet_world broken_bw))))
                           (fresh (quiet_world broken_bw)))) /\
  (forall i k n,
     Bitwarden.loginWithApiKey i k n (fresh (quiet_world broken_bw))
     = (Raise TypeError, spawn_step (status_cmd (self (fresh (quiet_world broken_bw))))
                           (fresh (quiet_world broken_bw)))) /\
  (forall url,
     Bitwarden.serverUrl_setter url (fresh (quiet_world broken_bw))
     = (Raise TypeError, spawn_step (status_cmd (self (fresh (quiet_world broken_bw))))
                           (fresh (quiet_world broken_bw)))) /\
  (forall p,
     Bitwarden.unlock p (fresh (quiet_world broken_bw))
     = (Raise TypeError, spawn_step (status_cmd (self (fresh (quiet_world broken_bw))))
                           (fresh (quiet_world broken_bw)))).
Proof.
  apply (status_failure_raises_TypeError (fresh (quiet_world broken_bw)) 1
           (text_output EmptyString) (text_output EmptyString)).
  - reflexivity.
  - discriminate.
Defined.

(** X8: With [retry_count] zero or negative the loops do not run: both logins
    return [False] with no login attempted.  [loginWithApiKey] has still
    written its two variables and deleted them again. *)
Theorem login_without_attempts (retry_count : Z) (s s1 : State) (st : json) :
  retry_count <= 0 ->
  Bitwarden.status s = (Ok st, s1) ->
  getitem st "status" = Ok (JStr "unauthenticated") ->
  (forall u p, Bitwarden.loginWithPassword u p retry_count s = (Ok false, s1)) /\
  (forall client_id client_secret,
     has_nul client_id = false -> has_nul client_secret = false ->
     exists s',
       Bitwarden.loginWithApiKey (JStr client_id) (JStr client_secret) retry_count s
       = (Ok false, s') /\
       trace (os s') = trace (os s1) /\
       self s' = self s1 /\
       environ (os s')
       = delete "BW_CLIENTSECRET" (delete "BW_CLIENTID" (environ (os s)))).
Proof.
  intros Hn Hst Hg. pose proof (status_inv _ _ _ Hst) as ->.
  assert (Z.to_nat retry_count = O) as E by lia.
  split.
  - intros u p. unfold Bitwarden.loginWithPassword.
    rewrite (bind_ok _ _ _ _ _ Hst). unfold bind, lift. rewrite Hg, E. reflexivity.
  - intros cid cs Hi Hs. eexists. unfold Bitwarden.loginWithApiKey.
    rewrite (bind_ok _ _ _ _ _ Hst). unfold bind at 1, lift. rewrite Hg, E.
    cbn [ne eq negb String.eqb Ascii.eqb Bool.eqb].
    rewrite (bind_ok _ _ _ _ _ (environ_set_run _ _ _ Hi)).
    rewrite (bind_ok _ _ _ _ _ (environ_set_run _ _ _ Hs)).
    cbn [Bitwarden.loginWithApiKey_loop]. unfold bind at 1. cbn [ret].
    unfold environ_del. unfold bind at 1. unfold bind at 1. cbn [get_os os environ set_environ].
    rewrite lookup_insert_ne by discriminate. rewrite lookup_insert_eq.
    cbn [modify_os]. unfold bind at 1. unfold bind at 1.
    cbn [get_os os environ set_environ].
    rewrite lookup_delete_ne by discriminate. rewrite lookup_insert_eq.
    cbn [modify_os ret os environ set_environ self trace].
    split; [reflexivity|]. split; [reflexivity|]. split; [reflexivity|].
    apply apikey_environ_removed.
Qed.

Lemma login_without_attempts_example :
  (forall u p,
     Bitwarden.loginWithPassword u p 0 (fresh (quiet_world never_logs_in))
     = (Ok false, snd (Bitwarden.status (fresh (quiet_world never_logs_in))))) /\
  (forall client_id client_secret,
     has_nul client_id = false -> has_nul client_secret = false ->
     exists s',
       Bitwarden.loginWithApiKey (JStr client_id) (JStr client_secret) 0
         (fresh (quiet_world never_logs_in))
       = (Ok false, s') /\
       trace (os s') = trace (os (snd (Bitwarden.status (fresh (quiet_world never_logs_in)))))
       /\ self s' = self (snd (Bitwarden.status (fresh (quiet_world never_logs_in)))) /\
       environ (os s')
       = delete "BW_CLIENTSECRET"
           (delete "BW_CLIENTID" (environ (os (fresh (quiet_world never_logs_in)))))).
Proof.
  apply (login_without_attempts 0 (fresh (quiet_world never_logs_in)) _
           (status_document "https://vault.example.org" "unauthenticated" None)).
  - lia.
  - vm_compute. reflexivity.
  - vm_compute. reflexivity.
Defined.

(** ** The backoff *)

Lemma half_seconds_eq (n : Z) : (half_seconds n == inject_Z n / 2)%Q.
Proof. unfold half_seconds. rewrite Qred_correct. field. Qed.

Lemma sleeps_attempts_trace (cmd : list string) (env : gmap string string) (k : nat)
    (nr : Z) :
  (total_sleep (attempts_trace cmd env k nr)
   == inject_Z (Z.of_nat k * (2 * nr + Z.of_nat k - 1)) / 4)%Q.
Proof.
  revert nr. induction k as [|k IH]; intros nr.
  - cbn [attempts_trace Z.of_nat Z.mul]. reflexivity.
  - cbn [attempts_trace]. unfold total_sleep, sleeps in *. cbn [omap list_omap fold_right].
    fold (sleeps (attempts_trace cmd env k (nr + 1))).
    rewrite (IH (nr + 1)), half_seconds_eq.
    replace (Z.of_nat (S k) * (2 * nr + Z.of_nat (S k) - 1))
      with (2 * nr + Z.of_nat k * (2 * (nr + 1) + Z.of_nat k - 1)) by lia.
    rewrite inject_Z_plus, (inject_Z_mult 2 nr). field.
Qed.

Lemma total_sleep_app (a b : list event) :
  (total_sleep (a ++ b) == total_sleep a + total_sleep b)%Q.
Proof.
  unfold total_sleep, sleeps. rewrite omap_app.
  induction (omap _ a) as [|q l IH]; cbn [app fold_right].
  - ring.
  - rewrite IH. ring.
Qed.

Lemma spawn_count_attempts_trace (cmd : list string) (env : gmap string string) (k : nat)
    (nr : Z) :
  spawn_count cmd (attempts_trace cmd env k nr) = k.
Proof.
  revert nr. induction k as [|k IH]; intros nr; [reflexivity|].
  cbn [attempts_trace]. unfold spawn_count in *. cbn [List.filter].
  rewrite bool_decide_eq_true_2 by reflexivity. cbn [length]. now rewrite IH.
Qed.

(** X9: When [loginWithPassword] returns [False], every one of the
    [retry_count] attempts was made, and the sleeps after them add up to
    [retry_count * (retry_count + 1) / 4] seconds: 7.5 seconds for the
    default of 5 attempts. *)
Theorem loginWithPassword_total_backoff (u pw : string) (retry_count : Z) (s s' : State) :
  Bitwarden.loginWithPassword (JStr u) pw retry_count s = (Ok false, s') ->
  exists new,
    trace (os s') = (trace (os s) ++ Spawn (status_cmd (self s)) (environ (os s)) :: new)%list /\
    spawn_count (login_cmd (self s) u pw) new = Z.to_nat retry_count /\
    (total_sleep new
     == inject_Z (Z.max retry_count 0 * (Z.max retry_count 0 + 1)) / 4)%Q.
Proof.
  intros H. unfold Bitwarden.loginWithPassword in H.
  apply bind_inv in H as (st & s1 & Hst & H). apply status_inv in Hst as ->.
  apply bind_inv in H as (v & s1 & Hv & H). injection Hv as _ <-.
  destruct (ne v (JStr "unauthenticated")); [discriminate H|].
  apply loginWithPassword_loop_false in H as [-> _].
  cbn [self spawn_step].
  exists (attempts_trace (login_cmd (self s) u pw) (environ (os s)) (Z.to_nat retry_count) 1).
  destruct (failed_attempts_facts (login_cmd (self s) u pw) (Z.to_nat retry_count) 1
              (spawn_step (status_cmd (self s)) s)) as (_ & _ & _ & _ & Ht).
  split; [|split].
  - cbn [self spawn_step] in Ht. rewrite Ht. cbn. now rewrite <- app_assoc.
  - apply spawn_count_attempts_trace.
  - rewrite sleeps_attempts_trace.
    replace (Z.of_nat (Z.to_nat retry_count)) with (Z.max retry_count 0) by lia.
    replace (2 * 1 + Z.max retry_count 0 - 1) with (Z.max retry_count 0 + 1) by lia.
    reflexivity.
Qed.

Lemma loginWithPassword_total_backoff_example :
  exists new,
    trace (os (snd (Bitwarden.loginWithPassword (JStr "a@b.c") "pw" 5
                      (fresh (quiet_world never_logs_in)))))
    = (trace (os (fresh (quiet_world never_logs_in)))
       ++ Spawn (status_cmd (self (fresh (quiet_world never_logs_in))))
            (environ (os (fresh (quiet_world never_logs_in)))) :: new)%list /\
    spawn_count (login_cmd (self (fresh (quiet_world never_logs_in))) "a@b.c" "pw") new
    = Z.to_nat 5 /\
    (total_sleep new == inject_Z (Z.max 5 0 * (Z.max 5 0 + 1)) / 4)%Q.
Proof.
  apply (loginWithPassword_total_backoff "a@b.c" "pw" 5 (fresh (quiet_world never_logs_in))).
  vm_compute. reflexivity.
Defined.

(** ** The credentials of [loginWithApiKey] *)

(** X10: The two variables are written one after the other with nothing to
    undo the first: when [client_secret] is not a string (a [null] of the
    configuration file, say), the second assignment raises TypeError and
    [BW_CLIENTID] stays in the environment; no login was attempted. *)
Theorem loginWithApiKey_bad_secret_keeps_clientid (client_id : string)
    (client_secret : json) (retry_count : Z) (s s1 : State) (st : json) :
  Bitwarden.status s = (Ok st, s1) ->
  getitem st "status" = Ok (JStr "unauthenticated") ->
  has_nul client_id = false ->
  (forall v, client_secret <> JStr v) ->
  exists s',
    Bitwarden.loginWithApiKey (JStr client_id) client_secret retry_count s
    = (Raise TypeError, s') /\
    environ (os s') = <["BW_CLIENTID" := client_id]> (environ (os s)) /\
    trace (os s') = (trace (os s) ++ [Spawn (status_cmd (self s)) (environ (os s))])%list.
Proof.
  intros Hst Hg Hn Hs. pose proof (status_inv _ _ _ Hst) as ->.
  eexists. unfold Bitwarden.loginWithApiKey.
  rewrite (bind_ok _ _ _ _ _ Hst). unfold bind at 1, lift. rewrite Hg.
  cbn [ne eq negb String.eqb Ascii.eqb Bool.eqb].
  rewrite (bind_ok _ _ _ _ _ (environ_set_run _ _ _ Hn)).
  erewrite bind_raise.
  2: { unfold environ_set, bind, lift.
       destruct client_secret as [| | |v| |]; try reflexivity. now destruct (Hs v). }
  split; [reflexivity|]. split; reflexivity.
Qed.

Lemma loginWithApiKey_null_secret :
  exists s',
    Bitwarden.loginWithApiKey (JStr "cid") JNull 5 (fresh (quiet_world never_logs_in))
    = (Raise TypeError, s') /\
    environ (os s')
    = <["BW_CLIENTID" := "cid"]> (environ (os (fresh (quiet_world never_logs_in)))) /\
    trace (os s')
    = (trace (os (fresh (quiet_world never_logs_in)))
       ++ [Spawn (status_cmd (self (fresh (quiet_world never_logs_in))))
             (environ (os (fresh (quiet_world never_logs_in))))])%list.
Proof.
  apply (loginWithApiKey_bad_secret_keeps_clientid "cid" JNull 5
           (fresh (quiet_world never_logs_in))
           (snd (Bitwarden.status (fresh (quiet_world never_logs_in))))
           (status_document "https://vault.example.org" "unauthenticated" None)).
  - vm_compute. reflexivity.
  - vm_compute. reflexivity.
  - reflexivity.
  - discriminate.
Defined.

(** X11: [loginWithApiKey] stores no session token, whatever it returns or
    raises: on an instance that held none, [sync] still raises
    VaultNotUnlocked afterwards, the listing of organizations is [None] and
    [exportAll] prints its session error and returns [False]. *)
Theorem loginWithApiKey_stores_no_session (client_id client_secret : json)
    (retry_count : Z) (s s' : State) (r : result bool) :
  Bitwarden.loginWithApiKey client_id client_secret retry_count s = (r, s') ->
  _bw_session_id (self s) = None ->
  _bw_session_id (self s') = None /\
  Bitwarden.sync s' = (Raise VaultNotUnlockedException, s') /\
  Bitwarden.orgs s' = (Ok None, s') /\
  (forall dir format pw,
     Bitwarden.exportAll dir format pw s'
     = (Ok false, mkState (log (Print "ERROR: BW Session Error") (os s')) (self s'))).
Proof.
  intros H Hs. apply loginWithApiKey_same_self in H. unfold same_self in H.
  assert (E : _bw_session_id (self s') = None) by now rewrite H.
  split; [exact E|].
  unfold Bitwarden.sync, Bitwarden.orgs, Bitwarden.exportAll, bind, get_self.
  rewrite E. repeat split; reflexivity.
Qed.

Lemma loginWithApiKey_then_sync :
  _bw_session_id (self (snd (Bitwarden.loginWithApiKey (JStr "cid") (JStr "csec") 5
                               (logged_out example_stdout)))) = None /\
  Bitwarden.sync (snd (Bitwarden.loginWithApiKey (JStr "cid") (JStr "csec") 5
                         (logged_out example_stdout)))
  = (Raise VaultNotUnlockedException,
     snd (Bitwarden.loginWithApiKey (JStr "cid") (JStr "csec") 5
            (logged_out example_stdout))) /\
  Bitwarden.orgs (snd (Bitwarden.loginWithApiKey (JStr "cid") (JStr "csec") 5
                         (logged_out example_stdout)))
  = (Ok None,
     snd (Bitwarden.loginWithApiKey (JStr "cid") (JStr "csec") 5
            (logged_out example_stdout))) /\
  (forall dir format pw,
     Bitwarden.exportAll dir format pw
       (snd (Bitwarden.loginWithApiKey (JStr "cid") (JStr "csec") 5
               (logged_out example_stdout)))
     = (Ok false,
        mkState (log (Print "ERROR: BW Session Error")
                   (os (snd (Bitwarden.loginWithApiKey (JStr "cid") (JStr "csec") 5
                               (logged_out example_stdout)))))
          (self (snd (Bitwarden.loginWithApiKey (JStr "cid") (JStr "csec") 5
                        (logged_out example_stdout)))))).
Proof.
  apply (loginWithApiKey_stores_no_session (JStr "cid") (JStr "csec") 5
           (logged_out example_stdout) _ (Ok true)).
  - vm_compute. reflexivity.
  - reflexivity.
Defined.

(* ===================================================================== *)
(** * Token extraction: the failures                                       *)
(* ===================================================================== *)

Lemma extract_lines_app (l1 l2 : list string) (s : State) :
  for_each (l1 ++ l2) Bitwarden.extract_line s
  = (for_each l1 Bitwarden.extract_line ;;; for_each l2 Bitwarden.extract_line) s.
Proof.
  revert s. induction l1 as [|l l1 IH]; intros s; cbn [app for_each].
  - reflexivity.
  - unfold bind in *. destruct (Bitwarden.extract_line l s) as [[[]|e] s1]; [|reflexivity].
    apply IH.
Qed.

(** X12: A line that contains [export] but no [=] makes the extraction raise
    ValueError; the lines before it have had their effect by then, so the
    instance is left holding the token of the last of them. *)
Theorem extractSession_line_without_equals (stdout : bytes) (content : string)
    (before after : list string) (line : string) (s : State) :
  decode stdout = Some content ->
  split_lines content = (before ++ line :: after)%list ->
  (forall l, In l (List.filter (contains "export") before) -> index "="%char l <> None) ->
  contains "export" line = true ->
  index "="%char line = None ->
  Bitwarden.__extractSessionFromStdOut__ stdout s
  = (Raise ValueError, assigned_from (List.filter (contains "export") before) s).
Proof.
  intros Hd Hl Hb Hc Hi.
  unfold Bitwarden.__extractSessionFromStdOut__, decode_utf8. rewrite Hd.
  unfold bind at 1. cbn [ret]. rewrite Hl, extract_lines_app.
  unfold bind at 1. rewrite (extract_lines_run before s Hb).
  cbn [for_each]. unfold bind at 1, Bitwarden.extract_line at 1. now rewrite Hc, Hi.
Qed.

Lemma extractSession_line_without_equals_example :
  Bitwarden.__extractSessionFromStdOut__ (text_output export_without_equals)
    (fresh (quiet_world no_answer))
  = (Raise ValueError,
     assigned_from
       (List.filter (contains "export") ["export A=" ++ dquote ++ "first" ++ dquote])
       (fresh (quiet_world no_answer))).
Proof.
  apply (extractSession_line_without_equals (text_output export_without_equals)
           export_without_equals ["export A=" ++ dquote ++ "first" ++ dquote] []
           "nothing was exported").
  - reflexivity.
  - vm_compute. reflexivity.
  - vm_compute. intros l [<-|[]]. discriminate.
  - vm_compute. reflexivity.
  - reflexivity.
Defined.

(* ===================================================================== *)
(** * Items                                                                *)
(* ===================================================================== *)

(** X13: The [items] property never yields an item: it runs [bw list items],
    parses the output and drops it, so that it is [[]] whenever a session
    is held (and [None] otherwise). *)
Theorem items_is_always_empty (s s' : State) (r : option (list (option item))) :
  Bitwarden.items s = (Ok r, s') ->
  r = match _bw_session_id (self s) with Some _ => Some [] | None => None end.
Proof.
  unfold Bitwarden.items. unfold bind at 1. cbn [get_self].
  destruct (_bw_session_id (self s)) as [sid|]; [|now intros [= <- _]].
  intros H. apply bind_inv in H as ([[code out] err] & s1 & _ & H).
  apply bind_inv in H as ([] & s2 & _ & H). now injection H as <- _.
Qed.

Lemma items_of_a_vault_with_an_item :
  fst (Bitwarden.items items_state) = Ok (Some []) /\
  Some [] = match _bw_session_id (self items_state) with
            | Some _ => Some []
            | None => @None (list (option item))
            end.
Proof.
  split; [vm_compute; reflexivity|].
  apply (items_is_always_empty items_state (snd (Bitwarden.items items_state))).
  vm_compute. reflexivity.
Defined.

(** X14: [get_bitwarden_item] builds a card, a login or a note for the types 3,
    1 and 2, and only these constructors can raise; for every other type,
    identity (4) included, it falls off its end and returns [None] without
    reading anything else of the document. *)
Theorem get_bitwarden_item_by_type (conf : json) (t : Z) :
  getitem conf "type" = Ok (JInt t) ->
  match get_bitwarden_item conf with
  | Ok (Some (Card _)) => t = ItemTypes_value CARD
  | Ok (Some (Login _)) => t = ItemTypes_value LOGIN
  | Ok (Some (Note _)) => t = ItemTypes_value NOTE
  | Ok (Some (Item _)) => False
  | Ok None => t <> ItemTypes_value CARD /\ t <> ItemTypes_value LOGIN
               /\ t <> ItemTypes_value NOTE
  | Raise _ => t = ItemTypes_value CARD \/ t = ItemTypes_value LOGIN
               \/ t = ItemTypes_value NOTE
  end.
Proof.
  intros Ht. unfold get_bitwarden_item. rewrite Ht. cbn [rbind eq].
  destruct (t =? ItemTypes_value CARD) eqn:E3.
  { apply Z.eqb_eq in E3. destruct (BitwardenCard.__init__ conf); cbn [rbind]; auto. }
  destruct (t =? ItemTypes_value LOGIN) eqn:E1.
  { apply Z.eqb_eq in E1. destruct (BitwardenLogin.__init__ conf); cbn [rbind]; auto. }
  destruct (t =? ItemTypes_value NOTE) eqn:E2.
  { apply Z.eqb_eq in E2. destruct (BitwardenItem.__init__ conf); cbn [rbind]; auto. }
  apply Z.eqb_neq in E1, E2, E3. auto.
Qed.

Lemma get_bitwarden_item_identity :
  get_bitwarden_item identity_document = Ok None /\
  match get_bitwarden_item identity_document with
  | Ok (Some (Card _)) => 4 = ItemTypes_value CARD
  | Ok (Some (Login _)) => 4 = ItemTypes_value LOGIN
  | Ok (Some (Note _)) => 4 = ItemTypes_value NOTE
  | Ok (Some (Item _)) => False
  | Ok None => 4 <> ItemTypes_value CARD /\ 4 <> ItemTypes_value LOGIN
               /\ 4 <> ItemTypes_value NOTE
  | Raise _ => 4 = ItemTypes_value CARD \/ 4 = ItemTypes_value LOGIN
               \/ 4 = ItemTypes_value NOTE
  end.
Proof.
  split; [vm_compute; reflexivity|].
  apply (get_bitwarden_item_by_type identity_document 4).
  vm_compute. reflexivity.
Defined.

(** ** Equality across classes *)

(** X15: The [__eq__] of a login or of a card reads attributes that only its
    own class has: against an item of another class it returns [False]
    when name or notes differ and raises AttributeError when they agree, so
    it never returns [True].  The [__eq__] of a note (the parent's) compares
    name and notes with an item of any class, so that a note can equal a
    login that cannot be compared with the note.  Against [None] every
    [__eq__] returns [False]. *)
Theorem eq_across_classes :
  (forall (l : BitwardenLogin.t) (o : item),
     (forall l', o <> Login l') ->
     __eq__ (Login l) (Some o)
     = if base_match (BitwardenLogin.base l) (item_base o)
       then Raise AttributeError else Ok false) /\
  (forall (c : BitwardenCard.t) (o : item),
     (forall c', o <> Card c') ->
     __eq__ (Card c) (Some o)
     = if base_match (BitwardenCard.base c) (item_base o)
       then Raise AttributeError else Ok false) /\
  (forall (n : BitwardenItem.t) (o : item),
     __eq__ (Note n) (Some o) = Ok (base_match n (item_base o))) /\
  (forall x : item, __eq__ x None = Ok false).
Proof.
  repeat split.
  - intros l o Ho. cbn [__eq__]. unfold BitwardenLogin__eq__.
    rewrite BitwardenItem_eq_run. cbn [rbind item_base].
    destruct (base_match (BitwardenLogin.base l) (item_base o)); [|reflexivity].
    cbn [negb]. destruct o as [i|c|n|l']; try reflexivity. now destruct (Ho l').
  - intros c o Ho. cbn [__eq__]. unfold BitwardenCard__eq__.
    rewrite BitwardenItem_eq_run. cbn [rbind item_base].
    destruct (base_match (BitwardenCard.base c) (item_base o)); [|reflexivity].
    cbn [negb]. destruct o as [i|c'|n|l']; try reflexivity. now destruct (Ho c').
  - intros n o. cbn [__eq__]. now rewrite BitwardenItem_eq_run.
  - intros [i|c|n|l]; reflexivity.
Qed.

Lemma eq_login_and_note :
  __eq__ (Login (login_with_id "1" "f1")) (Some (Note webmail_note))
  = (if base_match (BitwardenLogin.base (login_with_id "1" "f1"))
          (item_base (Note webmail_note))
     then Raise AttributeError else Ok false) /\
  __eq__ (Login (login_with_id "1" "f1")) (Some (Note webmail_note)) = Raise AttributeError /\
  __eq__ (Note webmail_note) (Some (Login (login_with_id "1" "f1"))) = Ok true.
Proof.
  split; [|split; reflexivity].
  apply (proj1 eq_across_classes (login_with_id "1" "f1") (Note webmail_note)).
  discriminate.
Defined.

(* ===================================================================== *)
(** * Exports: the command lines                                           *)
(* ===================================================================== *)

Lemma password_args_strs (pw : option string) :
  as_strs (Bitwarden.password_args pw) = Ok (password_strs pw).
Proof.
  unfold Bitwarden.password_args, password_strs.
  destruct pw as [p|]; [destruct (String.eqb p EmptyString)|]; reflexivity.
Qed.

Lemma as_strs_app (l1 l2 : list json) (c1 c2 : list string) :
  as_strs l1 = Ok c1 -> as_strs l2 = Ok c2 -> as_strs (l1 ++ l2) = Ok (c1 ++ c2)%list.
Proof.
  revert c1. induction l1 as [|v l1 IH]; intros c1 H1 H2.
  - now injection H1 as <-.
  - cbn [app as_strs] in *. destruct (as_str v) as [x|e]; [|discriminate H1].
    destruct (as_strs l1) as [c|e]; [|discriminate H1]. injection H1 as <-.
    now rewrite (IH c eq_refl H2).
Qed.

Lemma as_strs_app_inv (l1 l2 : list json) (c : list string) :
  as_strs (l1 ++ l2) = Ok c ->
  exists c1 c2, as_strs l1 = Ok c1 /\ as_strs l2 = Ok c2 /\ c = (c1 ++ c2)%list.
Proof.
  revert c. induction l1 as [|v l1 IH]; intros c H.
  - now exists [], c.
  - cbn [app as_strs] in *. destruct (as_str v) as [x|e].
    + destruct (as_strs (l1 ++ l2)) as [c'|e] eqn:E; [|discriminate H].
      injection H as <-. destruct (IH c' eq_refl) as (c1 & c2 & -> & H2 & ->).
      now exists (x :: c1), c2.
    + destruct (as_strs (l1 ++ l2)); discriminate H.
Qed.

(** The test that comes before the command line of an export. *)
Lemma export_checks (format : string) (pw : option string) :
  Bitwarden.known_format format = true ->
  (format = "encrypted_json" -> pw <> None) ->
  String.eqb format "encrypted_json"
  && match pw with None => true | Some _ => false end = false.
Proof.
  intros _ H. destruct (String.eqb_spec format "encrypted_json") as [E|E]; [|reflexivity].
  destruct pw; [reflexivity | now destruct (H E)].
Qed.

Lemma exportPersonalVault_run (path format : string) (pw : option string) (s : State)
    (sid : string) (code : Z) (out err : bytes) :
  _bw_session_id (self s) = Some sid ->
  Bitwarden.known_format format = true ->
  (format = "encrypted_json" -> pw <> None) ->
  answer s 0 (export_personal_cmd (self s) format path sid pw) = Exited code out err ->
  Bitwarden.exportPersonalVault path format pw s
  = (Ok (code =? 0), spawn_step (export_personal_cmd (self s) format path sid pw) s).
Proof.
  intros Hs Hk Hp Ha. unfold Bitwarden.exportPersonalVault. unfold bind at 1.
  cbn [get_self]. rewrite Hs, Hk, (export_checks _ _ Hk Hp). cbn [negb].
  erewrite bind_ok.
  2: { apply (perform_run _ (export_personal_cmd (self s) format path sid pw) s code out err);
       [|exact Ha].
       unfold export_personal_cmd, export_to_cmd.
       apply (as_strs_app [_; _; _; _; _; _; _; _] _ [_; _; _; _; _; _; _; _]);
         [reflexivity | apply password_args_strs]. }
  cbv beta iota. now destruct (code =? 0).
Qed.

Lemma exportPersonalVault_true (path format : string) (pw : option string) (s s1 : State) :
  Bitwarden.exportPersonalVault path format pw s = (Ok true, s1) ->
  exists sid,
    _bw_session_id (self s) = Some sid /\
    s1 = spawn_step (export_personal_cmd (self s) format path sid pw) s.
Proof.
  unfold Bitwarden.exportPersonalVault. unfold bind at 1. cbn [get_self].
  destruct (_bw_session_id (self s)) as [sid|]; [|discriminate].
  destruct (negb _); [discriminate|]. destruct (_ && _); [discriminate|].
  intros H. apply bind_inv in H as ([[c o] e] & s2 & Hp & H).
  apply perform_inv in Hp as (cmd & Hc & _ & ->).
  destruct (c =? 0); [|discriminate]. injection H as <-.
  exists sid. split; [reflexivity|]. f_equal.
  apply as_strs_app_inv in Hc as (c1 & c2 & H1 & H2 & ->).
  injection H1 as <-. rewrite password_args_strs in H2. now injection H2 as <-.
Qed.

Lemma exportCollections_true (path : string) (oid : json) (format : string)
    (pw : option string) (s s1 : State) :
  Bitwarden.exportCollections path oid format pw s = (Ok true, s1) ->
  exists sid id,
    _bw_session_id (self s) = Some sid /\ oid = JStr id /\
    s1 = spawn_step (export_organization_cmd (self s) format path sid id pw) s.
Proof.
  unfold Bitwarden.exportCollections. unfold bind at 1. cbn [get_self].
  destruct (_bw_session_id (self s)) as [sid|]; [|discriminate].
  destruct (negb _); [discriminate|]. destruct (_ && _); [discriminate|].
  intros H. apply bind_inv in H as ([[c o] e] & s2 & Hp & H).
  apply perform_inv in Hp as (cmd & Hc & _ & ->).
  destruct (c =? 0); [|discriminate]. injection H as <-.
  apply as_strs_app_inv in Hc as (c1 & c2 & H1 & H2 & ->).
  rewrite password_args_strs in H2. injection H2 as <-.
  destruct oid as [| | |id| |]; try discriminate H1.
  exists sid, id. split; [reflexivity|]. split; [reflexivity|].
  injection H1 as <-. reflexivity.
Qed.

Lemma orgs_listing (s s2 : State) (listing : list BitwardenOrganization.t) :
  Bitwarden.orgs s = (Ok (Some listing), s2) ->
  exists sid,
    _bw_session_id (self s) = Some sid /\
    s2 = spawn_step (list_organizations_cmd (self s) sid) s.
Proof.
  unfold Bitwarden.orgs. unfold bind at 1. cbn [get_self].
  destruct (_bw_session_id (self s)) as [sid|]; [|discriminate].
  intros H. exists sid. split; [reflexivity|].
  apply bind_inv in H as ([[c o] e] & s1 & Hp & H).
  apply perform_inv in Hp as (cmd & Hc & _ & ->). injection Hc as <-.
  destruct (c =? 0); [|now injection H as _ <-].
  apply bind_inv in H as (l & s1 & Hl & H).
  unfold json_loads in Hl. destruct (loads o); [|discriminate Hl]. injection Hl as _ <-.
  apply bind_inv in H as (os' & s1 & Hm & H). unfold lift in Hm.
  injection Hm as _ <-. now injection H as _ <-.
Qed.

Lemma makedirs_if_missing_ok (ex : bool) (dir : string) (s s1 : State) :
  (if negb ex then makedirs dir else ret tt) s = (Ok tt, s1) ->
  s1 = s \/ s1 = mkState (set_fs (<[dir := Dir]> (fs (os s))) (os s)) (self s).
Proof.
  destruct (negb ex); [|left; now injection H as <-].
  unfold makedirs, bind, get_os. destruct (_ || _); [discriminate|].
  right. now injection H as <-.
Qed.

(** The organizations that the loop of [exportAll] exports, as events. *)
Lemma exportAll_loop_commands (l : list BitwardenOrganization.t) (st email : json)
    (dir ts format sid : string) (pw : option string) (s s' : State) :
  Bitwarden.exportAll_loop l st dir ts format pw s = (Ok true, s') ->
  getitem st "userEmail" = Ok email ->
  _bw_session_id (self s) = Some sid ->
  self s' = self s /\ environ (os s') = environ (os s) /\ fs (os s') = fs (os s) /\
  trace (os s')
  = (trace (os s)
     ++ map (fun org =>
               Spawn (export_organization_cmd (self s) format
                        (path_join dir
                           (Bitwarden.org_filename email (BitwardenOrganization.name org)
                              ts format))
                        sid (str (BitwardenOrganization.id org)) pw)
                 (environ (os s)))
          (selected l))%list.
Proof.
  intros H He. revert s H. induction l as [|org l IH]; intros s H Hs;
    cbn [Bitwarden.exportAll_loop selected List.filter] in *.
  - injection H as <-. now rewrite app_nil_r.
  - fold (selected l) in *.
    destruct (Bitwarden.owner_or_admin (BitwardenOrganization.type org));
      cbn [negb] in H; [|now apply IH].
    apply bind_inv in H as (email' & s1 & Hm & H). unfold lift in Hm. rewrite He in Hm.
    injection Hm as <- <-.
    apply bind_inv in H as (ok & s2 & Hx & H).
    destruct ok; cbn [negb] in H; [|discriminate].
    apply exportCollections_true in Hx as (sid' & id & Hs' & Hid & ->).
    rewrite Hs in Hs'. injection Hs' as <-.
    apply IH in H as (H1 & H2 & H4 & H3); [|exact Hs].
    cbn [self os environ spawn_step] in H1, H2, H3, H4.
    split; [exact H1|]. split; [exact H2|]. split; [exact H4|].
    rewrite H3. cbn [map trace os spawn_step count_spawn log]. rewrite Hid. cbn [str].
    now rewrite <- app_assoc.
Qed.

Lemma status_ok_answer (s s' : State) (st : json) :
  Bitwarden.status s = (Ok st, s') ->
  st = JNull \/
  exists out err,
    answer s 0 (status_cmd (self s)) = Exited 0 out err /\ loads out = Some st.
Proof.
  unfold Bitwarden.status. unfold bind at 1. cbn [get_self]. intros H.
  apply bind_inv in H as ([[c o] e] & s1 & Hp & H).
  apply perform_inv in Hp as (cmd & Hc & Ha & ->). cbn [fst snd] in Ha.
  rewrite status_as_strs in Hc. injection Hc as <-.
  destruct (c =? 0) eqn:Ec; [|left; now injection H as <- _].
  apply Z.eqb_eq in Ec. subst c. right. exists o, e. split; [exact Ha|].
  unfold json_loads in H. destruct (loads o); [|discriminate H]. now injection H as <- _.
Qed.

(** X16: When [exportAll] returns [True] it has run exactly these processes, in
    this order and all in the environment of the call: the status query,
    the export of the personal vault, the listing of the organizations
    and one export for each organization of that listing of which the
    account is owner or admin.  Every file goes into [dir_path] under a
    name made of the [userEmail] of the document that [bw status] printed,
    the name of the organization and one time stamp, read once after the
    status query; [--password] is passed unless the password is [None] or
    empty; [dir_path] is a directory by then. *)
Theorem exportAll_commands (dir format : string) (pw : option string) (s s' : State) :
  Bitwarden.exportAll dir format pw s = (Ok true, s') ->
  exists (sid : string) (out err : bytes) (st email : json)
         (listing : list BitwardenOrganization.t),
    _bw_session_id (self s) = Some sid /\
    answer s 0 (status_cmd (self s)) = Exited 0 out err /\
    loads out = Some st /\
    getitem st "userEmail" = Ok email /\
    listed s listing /\
    fs (os s') !! dir = Some Dir /\
    trace (os s')
    = (trace (os s)
       ++ Spawn (status_cmd (self s)) (environ (os s))
       :: Spawn (export_personal_cmd (self s) format
                   (path_join dir
                      (Bitwarden.personal_filename email
                         (strftime_Ymd_HM (now (os s) (length (trace (os s)) + 1)%nat))
                         format))
                   sid pw) (environ (os s))
       :: Spawn (list_organizations_cmd (self s) sid) (environ (os s))
       :: map (fun org =>
                 Spawn (export_organization_cmd (self s) format
                          (path_join dir
                             (Bitwarden.org_filename email (BitwardenOrganization.name org)
                                (strftime_Ymd_HM
                                   (now (os s) (length (trace (os s)) + 1)%nat))
                                format))
                          sid (str (BitwardenOrganization.id org)) pw)
                   (environ (os s)))
            (selected listing))%list.
Proof.
  intros H. unfold Bitwarden.exportAll in H. unfold bind at 1 in H. cbn [get_self] in H.
  destruct (_bw_session_id (self s)) as [sid|] eqn:Es; [|discriminate H].
  apply bind_inv in H as (ex & sa & Hex & H). injection Hex as _ <-.
  apply bind_inv in H as ([] & sb & Hmk & H).
  apply bind_inv in H as (isd & sc & Hd & H). injection Hd as Hd <-.
  destruct isd; cbn [negb] in H; [|discriminate H].
  assert (Hb : trace (os sb) = trace (os s) /\ now (os sb) = now (os s)
               /\ environ (os sb) = environ (os s) /\ self sb = self s
               /\ popen (os sb) = popen (os s) /\ spawned (os sb) = spawned (os s)).
  { apply makedirs_if_missing_ok in Hmk as [->| ->]; repeat split; reflexivity. }
  destruct Hb as (Tb & Nb & Eb & Sb & Pb & Cb).
  apply bind_inv in H as (st & sd & Hst & H).
  pose proof (status_ok_answer _ _ _ Hst) as Hans.
  apply status_inv in Hst as ->.
  apply bind_inv in H as (now' & se & Hn & H). injection Hn as <- <-.
  apply bind_inv in H as (email & sf & He & H).
  unfold lift in He. injection He as He <-.
  destruct Hans as [->|(out & err & Ha & Hl)]; [discriminate He|].
  apply bind_inv in H as (ok & sg & Hp & H).
  destruct ok; cbn [negb] in H; [|discriminate H].
  apply exportPersonalVault_true in Hp as (sid' & Hs' & ->).
  cbn [self spawn_step] in Hs'. rewrite Sb, Es in Hs'. injection Hs' as <-.
  apply bind_inv in H as (ol & sh & Ho & H).
  destruct ol as [listing|]; [|discriminate H].
  pose proof Ho as Ho'.
  apply orgs_listing in Ho as (sid' & Hs' & ->).
  cbn [self spawn_step] in Hs'. rewrite Sb, Es in Hs'. injection Hs' as <-.
  apply (exportAll_loop_commands _ _ email _ _ _ sid) in H as (H1 & H2 & H4 & H3);
    [|exact He|cbn [self spawn_step]; now rewrite Sb].
  exists sid, out, err, st, email, listing. split; [reflexivity|].
  split; [unfold answer in *; now rewrite <- Pb, <- Cb, <- Sb|].
  split; [exact Hl|]. split; [exact He|].
  split.
  { eexists _, _. split; [|split; [|split; [|exact Ho']]].
    - exact Pb.
    - cbn. rewrite Cb. lia.
    - exact Sb. }
  split.
  - rewrite H4. cbn [fs os spawn_step count_spawn log].
    unfold get_os in Hd. cbn [os] in Hd.
    destruct (fs (os sb) !! dir) as [[|]|]; try discriminate Hd. reflexivity.
  - rewrite H3. cbn [self os environ trace spawn_step count_spawn log length].
    rewrite Sb, Eb, Tb, Nb, length_app. cbn [length].
    rewrite <- !app_assoc. reflexivity.
Qed.

(** The account [a@b.c] with the organizations [o1] (Acme, owner), [o2] (user)
    and [o3] (Lab, admin), exported at 07:05 on 9 March 2024. *)
Lemma exportAll_commands_example :
  trace (os (snd (Bitwarden.exportAll "backups" "json" None (unlocked_state never))))
  = [Spawn ["bw"; "status"; "--session"; "tok"] ∅;
     Spawn ["bw"; "export"; "--format"; "json"; "--output";
            "backups/a@b.c-20240309-0705.json"; "--session"; "tok"] ∅;
     Spawn ["bw"; "list"; "organizations"; "--session"; "tok"] ∅;
     Spawn ["bw"; "export"; "--format"; "json"; "--output";
            "backups/a@b.c-Acme-20240309-0705.json"; "--session"; "tok";
            "--organizationid"; "o1"] ∅;
     Spawn ["bw"; "export"; "--format"; "json"; "--output";
            "backups/a@b.c-Lab-20240309-0705.json"; "--session"; "tok";
            "--organizationid"; "o3"] ∅] /\
  exists (sid : string) (out err : bytes) (st email : json)
         (listing : list BitwardenOrganization.t),
    _bw_session_id (self (unlocked_state never)) = Some sid /\
    answer (unlocked_state never) 0 (status_cmd (self (unlocked_state never)))
    = Exited 0 out err /\
    loads out = Some st /\
    getitem st "userEmail" = Ok email /\
    listed (unlocked_state never) listing /\
    fs (os (snd (Bitwarden.exportAll "backups" "json" None (unlocked_state never))))
      !! "backups" = Some Dir /\
    trace (os (snd (Bitwarden.exportAll "backups" "json" None (unlocked_state never))))
    = (trace (os (unlocked_state never))
       ++ Spawn (status_cmd (self (unlocked_state never)))
            (environ (os (unlocked_state never)))
       :: Spawn (export_personal_cmd (self (unlocked_state never)) "json"
                   (path_join "backups"
                      (Bitwarden.personal_filename email
                         (strftime_Ymd_HM
                            (now (os (unlocked_state never))
                               (length (trace (os (unlocked_state never))) + 1)%nat))
                         "json"))
                   sid None) (environ (os (unlocked_state never)))
       :: Spawn (list_organizations_cmd (self (unlocked_state never)) sid)
            (environ (os (unlocked_state never)))
       :: map (fun org =>
                 Spawn (export_organization_cmd (self (unlocked_state never)) "json"
                          (path_join "backups"
                             (Bitwarden.org_filename email (BitwardenOrganization.name org)
                                (strftime_Ymd_HM
                                   (now (os (unlocked_state never))
                                      (length (trace (os (unlocked_state never))) + 1)%nat))
                                "json"))
                          sid (str (BitwardenOrganization.id org)) None)
                   (environ (os (unlocked_state never))))
            (selected listing))%list.
Proof.
  split; [vm_compute; reflexivity|].
  apply (exportAll_commands "backups" "json" None (unlocked_state never)).
  vm_compute. reflexivity.
Defined.

(** X17: An empty password counts as a password where [encrypted_json] asks
    for one ([== None]) and as none where the command line is built (its
    truth value): the export runs without [--password] and nothing is
    raised, for [encrypted_json] too. *)
Theorem export_with_empty_password (path format : string) (s : State) (sid : string)
    (code : Z) (out err : bytes) :
  _bw_session_id (self s) = Some sid ->
  Bitwarden.known_format format = true ->
  answer s 0 (export_to_cmd (self s) format path sid) = Exited code out err ->
  Bitwarden.exportPersonalVault path format (Some EmptyString) s
  = (Ok (code =? 0), spawn_step (export_to_cmd (self s) format path sid) s).
Proof.
  intros Hs Hk Ha.
  rewrite (exportPersonalVault_run path format (Some EmptyString) s sid code out err Hs Hk).
  - unfold export_personal_cmd. cbn [password_strs String.eqb]. now rewrite app_nil_r.
  - discriminate.
  - unfold export_personal_cmd. cbn [password_strs String.eqb]. now rewrite app_nil_r.
Qed.

Lemma export_encrypted_with_empty_password :
  Bitwarden.exportPersonalVault "out.json" "encrypted_json" (Some EmptyString)
    (unlocked_state never)
  = (Ok (0 =? 0),
     spawn_step (export_to_cmd (self (unlocked_state never)) "encrypted_json" "out.json" "tok")
       (unlocked_state never)).
Proof.
  apply (export_with_empty_password "out.json" "encrypted_json" (unlocked_state never) "tok" 0
           (text_output EmptyString) (text_output EmptyString)).
  - reflexivity.
  - reflexivity.
  - reflexivity.
Defined.

(** ** The order of the checks of [exportAll] *)

Lemma exportAll_prepared (dir format : string) (pw : option string) (s s1 : State)
    (sid : string) (st email : json) :
  _bw_session_id (self s) = Some sid ->
  fs (os s) !! dir = None ->
  makedirs_fails (os s) dir = false ->
  Bitwarden.status (mkState (set_fs (<[dir := Dir]> (fs (os s))) (os s)) (self s))
  = (Ok st, s1) ->
  getitem st "userEmail" = Ok email ->
  Bitwarden.exportAll dir format pw s
  = (ok <- Bitwarden.exportPersonalVault
             (path_join dir
                (Bitwarden.personal_filename email
                   (strftime_Ymd_HM (now (os s1) (length (trace (os s1))))) format))
             format pw ;;
     if negb ok then ret false
     else
       l <- Bitwarden.orgs ;;
       match l with
       | None => raise TypeError
       | Some l =>
           Bitwarden.exportAll_loop l st dir
             (strftime_Ymd_HM (now (os s1) (length (trace (os s1))))) format pw
       end) s1.
Proof.
  intros Hs Hf Hm Hst He. unfold Bitwarden.exportAll. unfold bind at 1. cbn [get_self].
  rewrite Hs. unfold bind at 1, path_exists at 1. unfold bind at 1. cbn [get_os ret].
  rewrite Hf. cbn [negb]. unfold bind at 1, makedirs. unfold bind at 1. cbn [get_os].
  rewrite bool_decide_eq_false_2 by (rewrite Hf; intros [x Hx]; discriminate Hx).
  rewrite Hm.
  cbn [orb modify_os]. unfold bind at 1, path_isdir at 1. unfold bind at 1.
  cbn [get_os ret os fs set_fs]. rewrite lookup_insert_eq. cbn [negb].
  rewrite (bind_ok _ _ _ _ _ Hst). unfold bind at 1, datetime_now. unfold bind at 1.
  cbn [get_os ret]. unfold bind at 1, lift. rewrite He. reflexivity.
Qed.

(** X18: [exportAll] looks at the session first, then at the directory, and at
    its [format] last, in the export of the personal vault.  Without a
    session, or with a path that is a file, it prints a message and
    returns [False] whatever the format; with an unknown format, or with
    [encrypted_json] and no password, it raises only after it has created
    the missing directory and asked [bw] for the status. *)
Theorem exportAll_validation_order (dir format : string) (pw : option string) (s : State) :
  (_bw_session_id (self s) = None ->
   Bitwarden.exportAll dir format pw s
   = (Ok false, mkState (log (Print "ERROR: BW Session Error") (os s)) (self s))) /\
  (forall sid,
     _bw_session_id (self s) = Some sid ->
     fs (os s) !! dir = Some File ->
     Bitwarden.exportAll dir format pw s
     = (Ok false, mkState (log (Print "ERROR: Not directory") (os s)) (self s))) /\
  (forall sid st email s1,
     _bw_session_id (self s) = Some sid ->
     fs (os s) !! dir = None ->
     makedirs_fails (os s) dir = false ->
     Bitwarden.status (mkState (set_fs (<[dir := Dir]> (fs (os s))) (os s)) (self s))
     = (Ok st, s1) ->
     getitem st "userEmail" = Ok email ->
     fs (os s1) !! dir = Some Dir /\
     trace (os s1) = (trace (os s) ++ [Spawn (status_cmd (self s)) (environ (os s))])%list /\
     (Bitwarden.known_format format = false ->
      Bitwarden.exportAll dir format pw s = (Raise InvalidArgumentsException, s1)) /\
     (format = "encrypted_json" -> pw = None ->
      Bitwarden.exportAll dir format pw s = (Raise NoEncryptionPasswordException, s1))).
Proof.
  repeat split.
  - intros Hs. unfold Bitwarden.exportAll, bind, get_self. now rewrite Hs.
  - intros sid Hs Hf. unfold Bitwarden.exportAll. unfold bind at 1. cbn [get_self].
    rewrite Hs. unfold bind at 1, path_exists at 1. unfold bind at 1. cbn [get_os ret].
    rewrite Hf. cbn [negb]. unfold bind at 1. cbn [ret].
    unfold bind at 1, path_isdir at 1. unfold bind at 1. cbn [get_os ret].
    rewrite Hf. reflexivity.
  - apply status_inv in H2 as ->. cbn. apply lookup_insert_eq.
  - now apply status_inv in H2 as ->.
  - intros Hk. rewrite (exportAll_prepared dir format pw s s1 sid st email) by assumption.
    pose proof (status_inv _ _ _ H2) as ->.
    unfold bind at 1, Bitwarden.exportPersonalVault. unfold bind at 1.
    cbn [get_self self spawn_step]. now rewrite H, Hk.
  - intros -> ->. rewrite (exportAll_prepared dir _ None s s1 sid st email) by assumption.
    pose proof (status_inv _ _ _ H2) as ->.
    unfold bind at 1, Bitwarden.exportPersonalVault. unfold bind at 1.
    cbn [get_self self spawn_step]. now rewrite H.
Qed.

(** ** A listing that fails *)

(** X19: [orgs] is [[]] when [bw list organizations] exits with another code
    than 0, and [exportAll] does not tell this from an account without
    organizations: it returns [True] with the personal vault alone
    exported. *)
Theorem exportAll_when_listing_fails (dir format : string) (pw : option string)
    (s s1 : State) (sid : string) (st email : json) (out err out' err' : bytes)
    (code' : Z) :
  _bw_session_id (self s) = Some sid ->
  fs (os s) !! dir = Some Dir ->
  Bitwarden.status s = (Ok st, s1) ->
  getitem st "userEmail" = Ok email ->
  Bitwarden.known_format format = true ->
  (format = "encrypted_json" -> pw <> None) ->
  answer s 1
    (export_personal_cmd (self s) format
       (path_join dir
          (Bitwarden.personal_filename email
             (strftime_Ymd_HM (now (os s) (length (trace (os s)) + 1)%nat)) format))
       sid pw)
  = Exited 0 out err ->
  answer s 2 (list_organizations_cmd (self s) sid) = Exited code' out' err' ->
  code' <> 0 ->
  Bitwarden.exportAll dir format pw s
  = (Ok true,
     spawn_step (list_organizations_cmd (self s) sid)
       (spawn_step
          (export_personal_cmd (self s) format
             (path_join dir
                (Bitwarden.personal_filename email
                   (strftime_Ymd_HM (now (os s) (length (trace (os s)) + 1)%nat)) format))
             sid pw)
          (spawn_step (status_cmd (self s)) s))).
Proof.
  intros Hs Hf Hst He Hk Hp Ha Hl Hc. pose proof (status_inv _ _ _ Hst) as ->.
  unfold Bitwarden.exportAll. unfold bind at 1. cbn [get_self].
  rewrite Hs. unfold bind at 1, path_exists at 1. unfold bind at 1. cbn [get_os ret].
  rewrite Hf. cbn [negb]. unfold bind at 1. cbn [ret].
  unfold bind at 1, path_isdir at 1. unfold bind at 1. cbn [get_os ret].
  rewrite Hf. cbn [negb].
  rewrite (bind_ok _ _ _ _ _ Hst). unfold bind at 1, datetime_now. unfold bind at 1.
  cbn [get_os ret]. unfold bind at 1, lift. rewrite He.
  cbn [os trace spawn_step count_spawn log now]. rewrite length_app. cbn [length].
  erewrite bind_ok.
  2: { apply (exportPersonalVault_run _ _ _ _ sid 0 out err); try assumption.
       rewrite answer_spawn_step. exact Ha. }
  cbn [Z.eqb negb].
  erewrite bind_ok.
  2: { unfold Bitwarden.orgs. unfold bind at 1. cbn [get_self self spawn_step].
       rewrite Hs.
       erewrite bind_ok.
       2: { apply (perform_run _ (list_organizations_cmd (self s) sid) _ code' out' err');
            [reflexivity|]. rewrite !answer_spawn_step. exact Hl. }
       cbv beta iota. apply Z.eqb_neq in Hc. rewrite Hc. reflexivity. }
  reflexivity.
Qed.

Lemma exportAll_when_listing_fails_example :
  Bitwarden.exportAll "backups" "json" None (unlocked_state listing_fails)
  = (Ok true,
     spawn_step (list_organizations_cmd (self (unlocked_state listing_fails)) "tok")
       (spawn_step
          (export_personal_cmd (self (unlocked_state listing_fails)) "json"
             (path_join "backups"
                (Bitwarden.personal_filename (JStr "a@b.c")
                   (strftime_Ymd_HM
                      (now (os (unlocked_state listing_fails))
                         (length (trace (os (unlocked_state listing_fails))) + 1)%nat))
                   "json"))
             "tok" None)
          (spawn_step (status_cmd (self (unlocked_state listing_fails)))
             (unlocked_state listing_fails)))).
Proof.
  apply (exportAll_when_listing_fails "backups" "json" None (unlocked_state listing_fails)
           (snd (Bitwarden.status (unlocked_state listing_fails))) "tok"
           (status_document "https://vault.example.org" "unlocked" (Some "a@b.c"))
           (JStr "a@b.c") (text_output EmptyString) (text_output EmptyString)
           (text_output EmptyString) (text_output EmptyString) 1).
  - reflexivity.
  - reflexivity.
  - vm_compute. reflexivity.
  - vm_compute. reflexivity.
  - reflexivity.
  - discriminate.
  - vm_compute. reflexivity.
  - vm_compute. reflexivity.
  - discriminate.
Defined.

Lemma exportAll_xml_creates_the_directory :
  Bitwarden.exportAll "backups" "xml" None unlocked_no_directory
  = (Raise InvalidArgumentsException,
     snd (Bitwarden.status
            (mkState (set_fs (<["backups" := Dir]> (fs (os unlocked_no_directory)))
                        (os unlocked_no_directory))
               (self unlocked_no_directory)))).
Proof.
  refine (proj1 (proj2 (proj2
            (proj2 (proj2 (exportAll_validation_order "backups" "xml" None
                             unlocked_no_directory))
               "tok"
               (status_document "https://vault.example.org" "unlocked" (Some "a@b.c"))
               (JStr "a@b.c") _ _ _ _ _ _))) _).
  - reflexivity.
  - reflexivity.
  - reflexivity.
  - vm_compute. reflexivity.
  - vm_compute. reflexivity.
  - reflexivity.
Defined.

(* ===================================================================== *)
(** * The constructor and the authenticators                               *)
(* ===================================================================== *)

Lemma eq_JNull (v : json) : eq v JNull = true -> v = JNull.
Proof. now destruct v. Qed.

(** X20: The constructor cannot point a [bw] that is logged in at another
    server: when the status reports a server URL other than the one asked
    for, the [serverUrl] setter runs, asks for the status again and raises
    InvalidState unless [bw] is logged out; no instance is obtained. *)
Theorem init_refuses_logged_in_other_server (bwCliLocation : string) (serverUrl : json)
    (w : World) (b : Bitwarden) (s1 s2 : State) (st st' u v : json) :
  Bitwarden.status (mkState w (mkBitwarden None None bwCliLocation)) = (Ok st, s1) ->
  getitem st "serverUrl" = Ok u ->
  ne u serverUrl = true ->
  Bitwarden.status s1 = (Ok st', s2) ->
  getitem st' "status" = Ok v ->
  ne v (JStr "unauthenticated") = true ->
  Bitwarden.__init__ bwCliLocation serverUrl JNull (mkState w b)
  = (Raise InvalidStateException, s2).
Proof.
  intros Hst Hu Hne Hst' Hv Hne'. unfold Bitwarden.__init__.
  unfold bind at 1. cbn [put_self os]. cbn [ne eq negb]. unfold bind at 1. cbn [ret].
  rewrite (bind_ok _ _ _ _ _ Hst). unfold bind at 1, lift. rewrite Hu, Hne.
  unfold Bitwarden.serverUrl_setter. rewrite (bind_ok _ _ _ _ _ Hst').
  unfold bind, lift. now rewrite Hv, Hne'.
Qed.

Lemma init_on_unlocked_vault_of_another_server :
  Bitwarden.__init__ "bw" (JStr "https://other.example.org") JNull (unlocked_state never)
  = (Raise InvalidStateException,
     snd (Bitwarden.status
            (snd (Bitwarden.status
                    (mkState (os (unlocked_state never)) (mkBitwarden None None "bw")))))).
Proof.
  apply (init_refuses_logged_in_other_server "bw" (JStr "https://other.example.org")
           (os (unlocked_state never)) (self (unlocked_state never))
           (snd (Bitwarden.status
                   (mkState (os (unlocked_state never)) (mkBitwarden None None "bw"))))
           _
           (status_document "https://vault.example.org" "unlocked" (Some "a@b.c"))
           (status_document "https://vault.example.org" "unlocked" (Some "a@b.c"))
           (JStr "https://vault.example.org") (JStr "unlocked")).
  - vm_compute. reflexivity.
  - vm_compute. reflexivity.
  - reflexivity.
  - vm_compute. reflexivity.
  - vm_compute. reflexivity.
  - reflexivity.
Defined.

(** X21: When the constructor returns, the instance holds no session token and
    no server URL; the environment is the one before the call when no
    certificate path was given, and else that one with
    [NODE_EXTRA_CA_CERTS] set, to stay, to the path, which is a string
    then; and [bw status] has printed a document with a [serverUrl]: when
    it equals the URL asked for, the status query is the only process that
    ran, and when it differs the status was asked for once more and [bw]
    was told [config server] with the URL, which is a string then. *)
Theorem init_effects (bwCliLocation : string) (serverUrl ca_cert_path : json)
    (w : World) (b : Bitwarden) (s' : State) :
  Bitwarden.__init__ bwCliLocation serverUrl ca_cert_path (mkState w b) = (Ok tt, s') ->
  self s' = mkBitwarden None None bwCliLocation /\
  (ca_cert_path = JNull /\ environ (os s') = environ w \/
   exists p, ca_cert_path = JStr p /\
             environ (os s') = <["NODE_EXTRA_CA_CERTS" := p]> (environ w)) /\
  exists (out err : bytes) (st u : json),
    answer (mkState w b) 0 [bwCliLocation; "status"] = Exited 0 out err /\
    loads out = Some st /\
    getitem st "serverUrl" = Ok u /\
    (ne u serverUrl = false /\
     trace (os s')
     = (trace w ++ [Spawn [bwCliLocation; "status"] (environ (os s'))])%list \/
     ne u serverUrl = true /\
     exists url,
       serverUrl = JStr url /\
       trace (os s')
       = (trace w ++ [Spawn [bwCliLocation; "status"] (environ (os s'));
                      Spawn [bwCliLocation; "status"] (environ (os s'));
                      Spawn [bwCliLocation; "config"; "server"; url]
                        (environ (os s'))])%list).
Proof.
  intros H. unfold Bitwarden.__init__ in H.
  unfold bind at 1 in H. cbn [put_self os] in H.
  apply bind_inv in H as ([] & s0 & He & H).
  assert (Hs0 : self s0 = mkBitwarden None None bwCliLocation /\ trace (os s0) = trace w /\
                popen (os s0) = popen w /\ spawned (os s0) = spawned w /\
                (ca_cert_path = JNull /\ environ (os s0) = environ w \/
                 exists p, ca_cert_path = JStr p /\
                           environ (os s0) = <["NODE_EXTRA_CA_CERTS" := p]> (environ w))).
  { destruct (ne ca_cert_path JNull) eqn:En.
    - apply environ_set_ok in He as (p & -> & _ & ->). cbn.
      repeat (split; [reflexivity|]). right. now exists p.
    - injection He as <-. cbn. repeat (split; [reflexivity|]). left.
      split; [|reflexivity]. apply eq_JNull. unfold ne in En.
      now destruct (eq ca_cert_path JNull). }
  destruct Hs0 as (Hself & Htr & Hpo & Hsp & Henv).
  apply bind_inv in H as (st & s1 & Hst & H).
  pose proof (status_ok_answer _ _ _ Hst) as Hans.
  apply status_inv in Hst as ->.
  apply bind_inv in H as (u & s1 & Hu & H). injection Hu as Hu <-.
  destruct Hans as [->|(out & err & Ha & Hl)]; [discriminate Hu|].
  assert (Hcmd : status_cmd (self s0) = [bwCliLocation; "status"]) by now rewrite Hself.
  rewrite Hcmd in Ha.
  assert (Ha' : answer (mkState w b) 0 [bwCliLocation; "status"] = Exited 0 out err).
  { unfold answer in *. cbn [os]. now rewrite <- Hpo, <- Hsp. }
  destruct (ne u serverUrl) eqn:En.
  - unfold Bitwarden.serverUrl_setter in H.
    apply bind_inv in H as (st' & s2 & Hst' & H). apply status_inv in Hst' as ->.
    apply bind_inv in H as (v & s2 & Hv & H). injection Hv as _ <-.
    destruct (ne v (JStr "unauthenticated")); [discriminate H|].
    apply bind_inv in H as (b' & s2 & Hb & H). injection Hb as <- <-.
    apply bind_inv in H as (r & s2 & Hp & H). injection H as <-.
    apply perform_inv in Hp as (cmd & Hc & _ & ->).
    cbn [self spawn_step] in Hc. read_cmd Hc.
    destruct serverUrl as [| | |url| |]; try discriminate Hc. injection Hc as <-.
    cbn [self os environ trace spawn_step count_spawn log].
    split; [exact Hself|]. split; [exact Henv|].
    exists out, err, st, u. split; [exact Ha'|]. split; [exact Hl|]. split; [exact Hu|].
    right. split; [exact En|]. exists url.
    split; [reflexivity|]. rewrite Hcmd, Hself, Htr. cbn [_bw_app_location].
    now rewrite <- !app_assoc.
  - injection H as <-. cbn [self os environ trace spawn_step count_spawn log].
    split; [exact Hself|]. split; [exact Henv|].
    exists out, err, st, u. split; [exact Ha'|]. split; [exact Hl|]. split; [exact Hu|].
    left. split; [exact En|]. now rewrite Hcmd, Htr.
Qed.

(** A [bw] that is logged out and set up for [https://old.example.org] is
    pointed at [https://vault.example.org]. *)
Lemma init_effects_example :
  trace (os configured_state)
  = [Spawn ["bw"; "status"] ∅; Spawn ["bw"; "status"] ∅;
     Spawn ["bw"; "config"; "server"; "https://vault.example.org"] ∅] /\
  self configured_state = mkBitwarden None None "bw" /\
  (JNull = JNull /\
   environ (os configured_state) = environ (os (fresh (quiet_world logged_out_bw))) \/
   exists p, JNull = JStr p /\
             environ (os configured_state)
             = <["NODE_EXTRA_CA_CERTS" := p]>
                 (environ (os (fresh (quiet_world logged_out_bw))))) /\
  exists (out err : bytes) (st u : json),
    answer (mkState (os (fresh (quiet_world logged_out_bw)))
              (self (fresh (quiet_world logged_out_bw)))) 0 ["bw"; "status"]
    = Exited 0 out err /\
    loads out = Some st /\
    getitem st "serverUrl" = Ok u /\
    (ne u (JStr "https://vault.example.org") = false /\
     trace (os configured_state)
     = (trace (os (fresh (quiet_world logged_out_bw)))
        ++ [Spawn ["bw"; "status"] (environ (os configured_state))])%list \/
     ne u (JStr "https://vault.example.org") = true /\
     exists url,
       JStr "https://vault.example.org" = JStr url /\
       trace (os configured_state)
       = (trace (os (fresh (quiet_world logged_out_bw)))
          ++ [Spawn ["bw"; "status"] (environ (os configured_state));
              Spawn ["bw"; "status"] (environ (os configured_state));
              Spawn ["bw"; "config"; "server"; url]
                (environ (os configured_state))])%list).
Proof.
  split; [vm_compute; reflexivity|].
  apply (init_effects "bw" (JStr "https://vault.example.org") JNull
           (os (fresh (quiet_world logged_out_bw)))
           (self (fresh (quiet_world logged_out_bw)))).
  vm_compute. reflexivity.
Defined.

(** ** The authenticators *)

(** X22: When all five attempts of the login fail, the authenticator of the
    API-key class raises AuthenticationFailed with the e-mail address of
    the account and the URL (KeyError if the account has no [email]);
    the one of the password class returns [False] and raises nothing. *)
Theorem unlockVault_after_failed_login (a : App.authenticator) (password : string)
    (s s' : State) :
  (forall client_id client_secret,
     App.class a = App.BitwardenApiKeyAuthenticator ->
     App.account a !! "client_id" = Some client_id ->
     App.account a !! "client_secret" = Some client_secret ->
     Bitwarden.loginWithApiKey client_id client_secret 5 s = (Ok false, s') ->
     App.unlockVault a password s
     = (Raise match App.account a !! "email" with
              | Some email => AuthenticationFailedException email (App.url a)
              | None => KeyError "email"
              end, s')) /\
  (forall email,
     App.class a = App.BitwardenPasswordAuthenticator ->
     App.account a !! "email" = Some email ->
     Bitwarden.loginWithPassword email password 5 s = (Ok false, s') ->
     App.unlockVault a password s = (Ok false, s')).
Proof.
  split.
  - intros cid cs Hc Hi Hs Hl. unfold App.unlockVault. rewrite Hc.
    unfold App.BitwardenApiKeyAuthenticator_unlockVault.
    unfold bind at 1, lift, lookup_key. rewrite Hi. unfold bind at 1. rewrite Hs.
    rewrite (bind_ok _ _ _ _ _ Hl). cbn [negb]. unfold bind.
    now destruct (App.account a !! "email").
  - intros email Hc He Hl. unfold App.unlockVault. rewrite Hc.
    unfold App.BitwardenPasswordAuthenticator_unlockVault.
    unfold bind at 1, lift, lookup_key. now rewrite He.
Qed.

Lemma unlockVault_api_key_rejected :
  App.unlockVault api_key_authenticator "pw" (fresh (quiet_world never_logs_in))
  = (Raise match App.account api_key_authenticator !! "email" with
           | Some email => AuthenticationFailedException email (App.url api_key_authenticator)
           | None => KeyError "email"
           end,
     snd (Bitwarden.loginWithApiKey (JStr "cid") (JStr "csec") 5
            (fresh (quiet_world never_logs_in)))).
Proof.
  apply (proj1 (unlockVault_after_failed_login api_key_authenticator "pw"
                  (fresh (quiet_world never_logs_in))
                  (snd (Bitwarden.loginWithApiKey (JStr "cid") (JStr "csec") 5
                          (fresh (quiet_world never_logs_in)))))
           (JStr "cid") (JStr "csec")).
  - reflexivity.
  - reflexivity.
  - reflexivity.
  - vm_compute. reflexivity.
Defined.

(* ===================================================================== *)
(** * Token extraction: the round trip                                     *)
(* ===================================================================== *)

Lemma split_lines_one (t : string) :
  index newline t = None -> split_lines t = [t].
Proof.
  induction t as [|c t IH]; [reflexivity|]. cbn [index split_lines].
  destruct (Ascii.eqb c newline); [discriminate|].
  destruct (index newline t); [discriminate|]. intros _. now rewrite IH.
Qed.

Lemma index_app_none (c : ascii) (a b : string) :
  index c a = None -> index c b = None -> index c (a ++ b) = None.
Proof.
  intros Ha Hb. induction a as [|d a IH]; [exact Hb|].
  change (String d a ++ b) with (String d (a ++ b)).
  cbn [index] in *. destruct (Ascii.eqb d c); [discriminate|].
  destruct (index c a); [discriminate|]. now rewrite IH.
Qed.

(** X23: Whatever token [bw] prints on its [export BW_SESSION] line, an [=] or a
    quote inside it included, is the token that the instance holds after
    the extraction. *)
Theorem extractSession_round_trip (tok : string) (s : State) :
  index newline tok = None ->
  Bitwarden.__extractSessionFromStdOut__ (text_output (session_line tok)) s
  = (Ok tt, with_session (Some tok) s).
Proof.
  intros Hn.
  assert (Hl : split_lines (session_line tok) = [session_line tok]).
  { apply split_lines_one. unfold session_line.
    change ("$ export BW_SESSION=" ++ dquote ++ tok ++ dquote)
      with ("$ export BW_SESSION=" ++ dquote ++ (tok ++ dquote)).
    apply (index_app_none newline "$ export BW_SESSION=" (dquote ++ tok ++ dquote));
      [reflexivity|].
    apply (index_app_none newline dquote (tok ++ dquote)); [reflexivity|].
    now apply index_app_none. }
  assert (He : export_lines (session_line tok) = [session_line tok]).
  { unfold export_lines. rewrite Hl. reflexivity. }
  rewrite (extractSession_run (text_output (session_line tok)) (session_line tok) s
             eq_refl).
  - rewrite He. unfold assigned_from. cbn [last]. do 3 f_equal.
    apply (token_of_quoted_line "$ export BW_SESSION" tok "034"%char "034"%char).
    reflexivity.
  - rewrite He. intros line [<-|[]]. discriminate.
Qed.

Lemma extractSession_round_trip_example :
  Bitwarden.__extractSessionFromStdOut__ (text_output (session_line "a=b==")) 
    (fresh (quiet_world no_answer))
  = (Ok tt, with_session (Some "a=b==") (fresh (quiet_world no_answer))).
Proof.
  apply (extractSession_round_trip "a=b==" (fresh (quiet_world no_answer))).
  reflexivity.
Defined.

(* ===================================================================== *)
(** * Listings                                                             *)
(* ===================================================================== *)

Lemma map_result_Forall2 {A B} (f : A -> result B) (xs : list A) (ys : list B) :
  Bitwarden.map_result f xs = Ok ys -> Forall2 (fun x y => f x = Ok y) xs ys.
Proof.
  revert ys. induction xs as [|x xs IH]; intros ys H; cbn [Bitwarden.map_result] in H.
  - injection H as <-. constructor.
  - destruct (f x) as [y|e] eqn:E; [|discriminate H]. cbn [rbind] in H.
    destruct (Bitwarden.map_result f xs) as [ys'|e]; [|discriminate H].
    cbn [rbind] in H. injection H as <-. constructor; [exact E | now apply IH].
Qed.

Lemma organization_init_fields (d : json) (org : BitwardenOrganization.t) :
  BitwardenOrganization.__init__ d = Ok org ->
  getitem d "id" = Ok (BitwardenOrganization.id org) /\
  getitem d "name" = Ok (BitwardenOrganization.name org) /\
  getitem d "status" = Ok (BitwardenOrganization.status org) /\
  getitem d "type" = Ok (BitwardenOrganization.type org) /\
  getitem d "enabled" = Ok (BitwardenOrganization.enabled org).
Proof.
  unfold BitwardenOrganization.__init__.
  destruct (getitem d "id") as [i|]; [|discriminate].
  destruct (getitem d "name") as [n|]; [|discriminate].
  destruct (getitem d "status") as [st|]; [|discriminate].
  destruct (getitem d "type") as [ty|]; [|discriminate].
  destruct (getitem d "enabled") as [en|]; [|discriminate].
  cbn [rbind]. intros [= <-]. repeat split; reflexivity.
Qed.

(** X24: When the [orgs] property is a list, a session is held and [bw list
    organizations] has run: after another exit code than 0 the list is
    empty, and after 0 it has one organization for each element of the
    JSON output, in order, with the [id], [name], [status], [type] and
    [enabled] of that element. *)
Theorem orgs_lists_the_documents (s s' : State) (listing : list BitwardenOrganization.t) :
  Bitwarden.orgs s = (Ok (Some listing), s') ->
  exists sid code out err,
    _bw_session_id (self s) = Some sid /\
    answer s 0 (list_organizations_cmd (self s) sid) = Exited code out err /\
    s' = spawn_step (list_organizations_cmd (self s) sid) s /\
    (code <> 0 -> listing = []) /\
    (code = 0 ->
     exists v docs,
       loads out = Some v /\ iter v = Ok docs /\
       Forall2 (fun d org =>
                  getitem d "id" = Ok (BitwardenOrganization.id org) /\
                  getitem d "name" = Ok (BitwardenOrganization.name org) /\
                  getitem d "status" = Ok (BitwardenOrganization.status org) /\
                  getitem d "type" = Ok (BitwardenOrganization.type org) /\
                  getitem d "enabled" = Ok (BitwardenOrganization.enabled org))
         docs listing).
Proof.
  unfold Bitwarden.orgs. unfold bind at 1. cbn [get_self].
  destruct (_bw_session_id (self s)) as [sid|]; [|discriminate].
  intros H. apply bind_inv in H as ([[code out] err] & s1 & Hp & H).
  apply perform_inv in Hp as (cmd & Hc & Ha & ->). injection Hc as <-.
  cbn [fst snd] in Ha. exists sid, code, out, err.
  split; [reflexivity|]. split; [exact Ha|].
  destruct (code =? 0) eqn:Ec.
  - apply Z.eqb_eq in Ec. apply bind_inv in H as (v & s1 & Hl & H).
    unfold json_loads in Hl. destruct (loads out) as [v'|]; [|discriminate Hl].
    injection Hl as -> <-.
    apply bind_inv in H as (l & s1 & Hm & H). unfold lift in Hm.
    injection Hm as Hm <-. injection H as <- <-.
    split; [reflexivity|]. split; [intros N; now destruct N|]. intros _.
    destruct (iter v) as [docs|] eqn:Ei; [|discriminate Hm]. cbn [rbind] in Hm.
    exists v, docs. split; [reflexivity|]. split; [exact Ei|].
    apply map_result_Forall2 in Hm.
    eapply Forall2_impl; [exact Hm|]. intros d org. apply organization_init_fields.
  - injection H as <- <-. apply Z.eqb_neq in Ec.
    split; [reflexivity|]. split; [reflexivity|]. intros E. now destruct Ec.
Qed.

Lemma orgs_of_three_organizations :
  exists listing,
    fst (Bitwarden.orgs (unlocked_state never)) = Ok (Some listing) /\
    exists sid code out err,
      _bw_session_id (self (unlocked_state never)) = Some sid /\
      answer (unlocked_state never) 0
        (list_organizations_cmd (self (unlocked_state never)) sid)
      = Exited code out err /\
      snd (Bitwarden.orgs (unlocked_state never))
      = spawn_step (list_organizations_cmd (self (unlocked_state never)) sid)
          (unlocked_state never) /\
      (code <> 0 -> listing = []) /\
      (code = 0 ->
       exists v docs,
         loads out = Some v /\ iter v = Ok docs /\
         Forall2 (fun d org =>
                    getitem d "id" = Ok (BitwardenOrganization.id org) /\
                    getitem d "name" = Ok (BitwardenOrganization.name org) /\
                    getitem d "status" = Ok (BitwardenOrganization.status org) /\
                    getitem d "type" = Ok (BitwardenOrganization.type org) /\
                    getitem d "enabled" = Ok (BitwardenOrganization.enabled org))
           docs listing).
Proof.
  eexists. split; [vm_compute; reflexivity|].
  apply (orgs_lists_the_documents (unlocked_state never)).
  vm_compute. reflexivity.
Defined.

(** X25: [__getitem__] returns [[]] without running [bw] when no session
    is held or the name is not a string.  Otherwise [bw list items
    --search] has run: after another exit code than 0 the result is [[]],
    and after 0 it has one entry for each element of the JSON output, in
    order, which is what [get_bitwarden_item] makes of the element, [None]
    for a type that is none of card, login and note. *)
Theorem getitem_lists_the_documents (name : json) (s s' : State)
    (found : list (option item)) :
  Bitwarden.__getitem__ name s = (Ok found, s') ->
  (_bw_session_id (self s) = None \/ (forall q, name <> JStr q) ->
   found = [] /\ s' = s) /\
  (forall sid q,
     _bw_session_id (self s) = Some sid -> name = JStr q ->
     exists code out err,
       answer s 0 (search_items_cmd (self s) q sid) = Exited code out err /\
       s' = spawn_step (search_items_cmd (self s) q sid) s /\
       (code <> 0 -> found = []) /\
       (code = 0 ->
        exists v docs,
          loads out = Some v /\ iter v = Ok docs /\
          Forall2 (fun d x => get_bitwarden_item d = Ok x) docs found)).
Proof.
  unfold Bitwarden.__getitem__. unfold bind at 1. cbn [get_self]. intros H. split.
  - intros [Hs|Hn].
    + rewrite Hs in H. now injection H as <- <-.
    + destruct (_bw_session_id (self s)); [|now injection H as <- <-].
      destruct name as [| | |q| |]; try (now injection H as <- <-). now destruct (Hn q).
  - intros sid q Hs ->. rewrite Hs in H.
    apply bind_inv in H as ([[code out] err] & s1 & Hp & H).
    apply perform_inv in Hp as (cmd & Hc & Ha & ->). injection Hc as <-.
    cbn [fst snd] in Ha. exists code, out, err. split; [exact Ha|].
    destruct (code =? 0) eqn:Ec.
    + apply Z.eqb_eq in Ec. apply bind_inv in H as (v & s1 & Hl & H).
      unfold json_loads in Hl. destruct (loads out) as [v'|]; [|discriminate Hl].
      injection Hl as -> <-. unfold lift in H. injection H as Hm <-.
      split; [reflexivity|]. split; [intros N; now destruct N|]. intros _.
      destruct (iter v) as [docs|] eqn:Ei; [|discriminate Hm]. cbn [rbind] in Hm.
      exists v, docs. split; [reflexivity|]. split; [exact Ei|].
      now apply map_result_Forall2.
    + injection H as <- <-. apply Z.eqb_neq in Ec.
      split; [reflexivity|]. split; [reflexivity|]. intros E. now destruct Ec.
Qed.

Lemma getitem_of_an_identity :
  fst (Bitwarden.__getitem__ (JStr "passport") items_state) = Ok [None] /\
  (_bw_session_id (self items_state) = None \/ (forall q, JStr "passport" <> JStr q) ->
   [@None item] = [] /\ snd (Bitwarden.__getitem__ (JStr "passport") items_state) = items_state) /\
  (forall sid q,
     _bw_session_id (self items_state) = Some sid -> JStr "passport" = JStr q ->
     exists code out err,
       answer items_state 0 (search_items_cmd (self items_state) q sid)
       = Exited code out err /\
       snd (Bitwarden.__getitem__ (JStr "passport") items_state)
       = spawn_step (search_items_cmd (self items_state) q sid) items_state /\
       (code <> 0 -> [@None item] = []) /\
       (code = 0 ->
        exists v docs,
          loads out = Some v /\ iter v = Ok docs /\
          Forall2 (fun d x => get_bitwarden_item d = Ok x) docs [@None item])).
Proof.
  split; [vm_compute; reflexivity|].
  apply (getitem_lists_the_documents (JStr "passport") items_state).
  vm_compute. reflexivity.
Defined.
